(** * Unity to O3DE converter: a shallow embedding of the conversion core

    The development follows the three pipelines of the repository:

    - [Integrated]  : [integrated_asset_processor.py]
    - [SceneGui]    : [unity_scene_converter_gui.py]
    - [PrefabCli]   : [unity_prefab_to_o3de.py]

    Conventions of the embedding.

    - A Python [float] is an IEEE 754 binary64 value, [Float.t]: zeros and
      infinities of both signs, NaN, and finite numbers; subtraction and
      division round to nearest even and comparisons with NaN are false, as
      CPython's are.  A decimal literal such as [0.0001] is the correctly
      rounded quotient [Float.literal 1 10000].
    - A Python [int] is a [Z]; [&] is [Z.land].
    - A Python [dict] whose iteration order is observable (the GameObject
      table, JSON objects) is an association list in insertion order with
      unique keys ([od_set] overwrites in place or appends).  A [dict] that
      is only looked up ([guid_to_path], [transform_map], the prefab index)
      is a [gmap].
    - [self] fields that are mutated are threaded through a state record.
    - [random.randint] reads an oracle: the n-th draw of a run is
      [lo + oracle n mod (hi - lo + 1)]. *)

From Stdlib Require Import ZArith SpecFloat String Ascii List Bool Lia.
From stdpp Require Import base option list strings gmap pretty.

Open Scope Z_scope.

(* ===================================================================== *)
(** * Python helpers *)
(* ===================================================================== *)

Module Py.

(** Truthiness of an [Optional[str]]: [None] and [''] are falsy. *)
Definition truthy (o : option string) : bool :=
  match o with
  | Some s => negb (String.eqb s "")
  | None => false
  end.

(** Insertion-ordered dictionaries with string keys. *)
Definition odict (V : Type) : Type := list (string * V).

Fixpoint od_get {V} (k : string) (d : odict V) : option V :=
  match d with
  | [] => None
  | (k', v) :: d' => if String.eqb k k' then Some v else od_get k d'
  end.

Definition od_mem {V} (k : string) (d : odict V) : bool :=
  match od_get k d with Some _ => true | None => false end.

(** [d[k] = v]: overwrite in place when the key exists, append otherwise. *)
Fixpoint od_set {V} (k : string) (v : V) (d : odict V) : odict V :=
  match d with
  | [] => [(k, v)]
  | (k', v') :: d' =>
      if String.eqb k k' then (k, v) :: d' else (k', v') :: od_set k v d'
  end.

(** In-place mutation of the object stored under [k] (no-op when absent). *)
Fixpoint od_alter {V} (f : V -> V) (k : string) (d : odict V) : odict V :=
  match d with
  | [] => []
  | (k', v') :: d' =>
      if String.eqb k k' then (k', f v') :: d' else (k', v') :: od_alter f k d'
  end.

Definition od_keys {V} (d : odict V) : list string := map fst d.

(** [x in l] for a list of strings. *)
Definition str_in (x : string) (l : list string) : bool :=
  existsb (String.eqb x) l.

(** [str(n)] for an [int]. *)
Definition str_of_Z (n : Z) : string := pretty n.

(** [s.startswith(p)] *)
Fixpoint startswith (p s : string) : bool :=
  match p, s with
  | EmptyString, _ => true
  | String a p', String b s' => Ascii.eqb a b && startswith p' s'
  | String _ _, EmptyString => false
  end.

(** [s.replace(old, new)] for a non-empty [old]: non-overlapping
    occurrences, left to right.  [skip] counts the characters of a matched
    occurrence that remain to be dropped. *)
Fixpoint replace_from (skip : nat) (old new s : string) : string :=
  match s with
  | EmptyString => EmptyString
  | String c s' =>
      match skip with
      | S k => replace_from k old new s'
      | O =>
          if startswith old s
          then new +:+ replace_from (String.length old - 1) old new s'
          else String c (replace_from O old new s')
      end
  end.

Definition replace (old new s : string) : string := replace_from O old new s.

Definition is_digit (c : ascii) : bool :=
  let n := nat_of_ascii c in (Nat.leb 48 n && Nat.leb n 57)%bool.

(** [[a-f0-9]] *)
Definition is_hex (c : ascii) : bool :=
  let n := nat_of_ascii c in
  ((Nat.leb 97 n && Nat.leb n 102) || is_digit c)%bool.

(** [\s] on the ASCII range: tab, LF, VT, FF, CR, FS, GS, RS, US, space. *)
Definition is_space (c : ascii) : bool :=
  let n := nat_of_ascii c in
  ((Nat.leb 9 n && Nat.leb n 13) || (Nat.leb 28 n && Nat.leb n 32))%bool.

Fixpoint skip_spaces (s : string) : string :=
  match s with
  | String c s' => if is_space c then skip_spaces s' else s
  | EmptyString => EmptyString
  end.

Fixpoint skip_digits (s : string) : string :=
  match s with
  | String c s' => if is_digit c then skip_digits s' else s
  | EmptyString => EmptyString
  end.

End Py.

(* ===================================================================== *)
(** * Python floats *)
(* ===================================================================== *)

Module Float.

(** binary64: 53 bits of precision, exponents below [2^1024]. *)
Definition t : Type := spec_float.
Definition prec : Z := 53.
Definition emax : Z := 1024.

(** The binary64 number nearest to [m * 2^e]. *)
Definition of_scaled (m e : Z) : t := binary_normalize prec emax m e false.

(** [float(z)] for an [int] *)
Definition of_int (z : Z) : t := of_scaled z 0.

(** [-a], [abs(a)], [a - b], [a / b] *)
Definition neg (a : t) : t := SFopp a.
Definition abs (a : t) : t := SFabs a.
Definition sub (a b : t) : t := SFsub prec emax a b.
Definition div (a b : t) : t := SFdiv prec emax a b.

(** [a < b] and [a >= b]; both are false when an operand is NaN. *)
Definition ltb (a b : t) : bool := SFltb a b.
Definition geb (a b : t) : bool := SFleb b a.

(** The decimal literal whose value is [n / d]: the nearest binary64
    number, which is what the correctly rounded division of the two
    exactly represented integers gives. *)
Definition literal (n d : Z) : t := div (of_int n) (of_int d).

(** [not a]: a float is falsy when it is a zero. *)
Definition is_zero (a : t) : bool :=
  match a with S754_zero _ => true | _ => false end.

Definition is_nan (a : t) : bool :=
  match a with S754_nan => true | _ => false end.

Definition is_infinite (a : t) : bool :=
  match a with S754_infinity _ => true | _ => false end.

End Float.

#[global] Arguments Float.sub : simpl never.
#[global] Arguments Float.div : simpl never.
#[global] Arguments Float.ltb : simpl never.
#[global] Arguments Float.geb : simpl never.
#[global] Arguments Float.abs : simpl never.
#[global] Arguments Float.literal : simpl never.
#[global] Arguments Float.of_int : simpl never.

(* ===================================================================== *)
(** * JSON documents ([json.dump] input) *)
(* ===================================================================== *)

#[local] Unset Elimination Schemes.
Inductive json : Type :=
| JNull
| JBool (b : bool)
| JInt (n : Z)
| JNum (x : Float.t)
| JStr (s : string)
| JArr (items : list json)
| JObj (fields : list (string * json)).
#[local] Set Elimination Schemes.

Definition jfields (j : json) : list (string * json) :=
  match j with JObj fs => fs | _ => [] end.

(** [j[k]] for a JSON object. *)
Definition jget (k : string) (j : json) : option json := Py.od_get k (jfields j).

(** [j[k] = v] for a JSON object. *)
Definition jset (k : string) (v : json) (j : json) : json :=
  match j with JObj fs => JObj (Py.od_set k v fs) | _ => j end.

Definition jvec3 (v : Float.t * Float.t * Float.t) : json :=
  let '(a, b, c) := v in JArr [JNum a; JNum b; JNum c].

(* ===================================================================== *)
(** * File-system paths *)
(* ===================================================================== *)

Module Path.

(** A path is its string, with ['/'] as separator. *)
Definition t : Type := string.

(** [PurePath.name]: the part after the last separator. *)
Fixpoint name_from (acc : string) (s : string) : string :=
  match s with
  | EmptyString => acc
  | String c s' =>
      if Ascii.eqb c "/"%char then name_from s' s' else name_from acc s'
  end.

Definition name (p : t) : string := name_from p p.

(** Index of the last ['.'] of [s], counted from [i]. *)
Fixpoint rfind_dot (i : nat) (s : string) : option nat :=
  match s with
  | EmptyString => None
  | String c s' =>
      match rfind_dot (S i) s' with
      | Some j => Some j
      | None => if Ascii.eqb c "."%char then Some i else None
      end
  end.

Fixpoint drop_chars (n : nat) (s : string) : string :=
  match n, s with
  | O, _ => s
  | S n', String _ s' => drop_chars n' s'
  | S _, EmptyString => EmptyString
  end.

Fixpoint take_chars (n : nat) (s : string) : string :=
  match n, s with
  | O, _ => EmptyString
  | S n', String c s' => String c (take_chars n' s')
  | S _, EmptyString => EmptyString
  end.

(** [PurePath.suffix]: from the last dot of the name, unless that dot is
    the first or the last character of the name. *)
Definition suffix (p : t) : string :=
  let n := name p in
  match rfind_dot O n with
  | Some i =>
      if (Nat.ltb 0 i && Nat.ltb i (String.length n - 1))%bool
      then drop_chars i n else EmptyString
  | None => EmptyString
  end.

(** [s[:-k]] *)
Definition drop_last (k : nat) (s : string) : string :=
  take_chars (String.length s - k) s.

End Path.

(* ===================================================================== *)
(** * Parsed YAML and Python exceptions *)
(* ===================================================================== *)

(** What [yaml.safe_load] returns. *)
#[local] Unset Elimination Schemes.
Inductive yaml : Type :=
| YNull
| YBool (b : bool)
| YInt (n : Z)
| YFloat (x : Float.t)
| YStr (s : string)
| YSeq (items : list yaml)
| YMap (fields : list (string * yaml)).
#[local] Set Elimination Schemes.

Inductive exn : Type :=
| YAMLError (msg : string)
| AttributeError
| TypeError
| KeyError
| ValueError.

(** A computation that may raise. *)
Inductive result (A : Type) : Type :=
| Ok (a : A)
| Raise (e : exn).
Arguments Ok {A} a.
Arguments Raise {A} e.

Definition result_bind {A B} (m : result A) (f : A -> result B) : result B :=
  match m with Ok a => f a | Raise e => Raise e end.

Module Yaml.

(** [not doc] *)
Definition falsy (doc : yaml) : bool :=
  match doc with
  | YNull => true
  | YBool b => negb b
  | YInt n => Z.eqb n 0
  | YFloat x => Float.is_zero x
  | YStr s => String.eqb s ""
  | YSeq l => match l with [] => true | _ => false end
  | YMap fs => match fs with [] => true | _ => false end
  end.

(** [sub in s] for strings. *)
Fixpoint substring_of (sub s : string) : bool :=
  Py.startswith sub s ||
  match s with
  | EmptyString => false
  | String _ s' => substring_of sub s'
  end.

(** [key in doc]: key membership for a mapping, substring test for a
    string, element test for a sequence, [TypeError] for other scalars. *)
Definition contains (key : string) (doc : yaml) : result bool :=
  match doc with
  | YMap fs => Ok (Py.od_mem key fs)
  | YStr s => Ok (substring_of key s)
  | YSeq l =>
      Ok (existsb (fun e => match e with YStr s => String.eqb s key | _ => false end) l)
  | _ => Raise TypeError
  end.

(** [doc[key]] *)
Definition item (key : string) (doc : yaml) : result yaml :=
  match doc with
  | YMap fs =>
      match Py.od_get key fs with Some v => Ok v | None => Raise KeyError end
  | _ => Raise TypeError
  end.

Fixpoint count_digits (s : string) : nat :=
  match s with
  | String c s' => if Py.is_digit c then S (count_digits s') else O
  | EmptyString => O
  end.

(** [re.sub(r'!u!\d+', '', doc_content)].  [skip] is the number of
    characters of the current match that remain to be dropped. *)
Fixpoint strip_tags_from (skip : nat) (s : string) : string :=
  match s with
  | EmptyString => EmptyString
  | String c s' =>
      match skip with
      | S k => strip_tags_from k s'
      | O =>
          let digits := count_digits (Path.drop_chars 3 s) in
          if Py.startswith "!u!" s && Nat.ltb 0 digits
          then strip_tags_from (2 + digits) s'
          else String c (strip_tags_from O s')
      end
  end.

Definition strip_tags (doc_content : string) : string :=
  strip_tags_from O doc_content.

End Yaml.

(* ===================================================================== *)
(** * Transforms (identical in the three source files) *)
(* ===================================================================== *)

Record Transform : Type := mkTransform {
  position : Float.t * Float.t * Float.t;
  rotation : Float.t * Float.t * Float.t * Float.t;
  scale : Float.t * Float.t * Float.t
}.

(** The literals [0.0] and [1.0]. *)
Definition zero : Float.t := Float.of_int 0.
Definition one : Float.t := Float.of_int 1.

Definition Transform_default : Transform :=
  mkTransform (zero, zero, zero) (zero, zero, zero, one) (one, one, one).

(** The default [tolerance] of [is_uniform_scale] and the literal used by
    the serializer, [0.0001]. *)
Definition tolerance : Float.t := Float.literal 1 10000.

(** [Transform.is_uniform_scale] *)
Definition is_uniform_scale (t : Transform) : bool :=
  let '(s0, s1, s2) := scale t in
  Float.ltb (Float.abs (Float.sub s0 s1)) tolerance &&
  Float.ltb (Float.abs (Float.sub s1 s2)) tolerance.

(** [_convert_to_o3de_coordinates] / [convert_to_o3de_coordinates] *)
Definition _convert_to_o3de_coordinates (unity_transform : Transform)
  : Transform * bool :=
  let '(px, py, pz) := position unity_transform in
  let o3de_pos := (Float.neg px, pz, py) in
  let '(qx, qy, qz, qw) := rotation unity_transform in
  let o3de_rot := (Float.neg qx, qz, qy, qw) in
  let '(sx, sy, sz) := scale unity_transform in
  let o3de_scale := (sx, sz, sy) in
  let converted := mkTransform o3de_pos o3de_rot o3de_scale in
  (converted, negb (is_uniform_scale converted)).


(* ===================================================================== *)
(** * Output documents (shared by the JSON pipelines) *)
(* ===================================================================== *)

(** An output entity: [{"Id": ..., "Name": ..., "Components": {...}}]. *)
Record Entity : Type := mkEntity {
  ent_id : string;
  ent_name : string;
  ent_components : Py.odict json
}.

Definition entity_to_json (e : Entity) : json :=
  JObj [("Id", JStr (ent_id e)); ("Name", JStr (ent_name e));
        ("Components", JObj (ent_components e))].

Definition randint (lo hi : Z) (raw : Z) : Z := lo + raw mod (hi - lo + 1).

(** The dict literal [{"$type": ty, "Id": id}]. *)
Definition plain_component (ty : string) (id : Z) : json :=
  JObj [("$type", JStr ty); ("Id", JInt id)].

Definition transform_type : string :=
  "{27F1E1A1-8D9D-4C3B-BD3A-AFB9762449C0} TransformComponent".

(** [abs(v) > 0.0001] *)
Definition above_tolerance (v : Float.t) : bool :=
  Float.ltb tolerance (Float.abs v).

(** [any(abs(v) > 0.0001 for v in vec)] *)
Definition any_above_tolerance (vec : list Float.t) : bool :=
  existsb above_tolerance vec.

(** An f-string field holding an [Optional[str]]. *)
Definition fmt_optional (o : option string) : string := default "None" o.

Definition replace_patch (path : string) (value : json) : json :=
  JObj [("op", JStr "replace"); ("path", JStr path); ("value", value)].

Definition translate_path (i : string) : string :=
  "/ContainerEntity/Components/TransformComponent/Transform Data/Translate/" +:+ i.

(** The [patches] list of a nested prefab instance. *)
Definition instance_patches (parent_entity_id : string)
    (o3de_transform : Transform) : list json :=
  let '(x, y, z) := position o3de_transform in
  [replace_patch "/ContainerEntity/Components/TransformComponent/Parent Entity"
     (JStr ("../" +:+ parent_entity_id))] ++
  (if any_above_tolerance [x; y; z]
   then [replace_patch (translate_path "0") (JNum x);
         replace_patch (translate_path "1") (JNum y);
         replace_patch (translate_path "2") (JNum z)]
   else []).

(** The [transform_component] dict of [_create_entity_recursive], given
    [euler = self._quaternion_to_euler(o3de_transform.rotation)]. *)
Definition transform_component (euler : list Float.t) (id : Z)
    (parent_entity_id : string) (o3de_transform : Transform)
    (needs_nonuniform : bool) : json :=
  let base :=
    JObj [("$type", JStr transform_type); ("Id", JInt id);
          ("Parent Entity", JStr parent_entity_id)] in
  let '(x, y, z) := position o3de_transform in
  let '(s0, _, _) := scale o3de_transform in
  let has_translation := any_above_tolerance [x; y; z] in
  let has_rotation := any_above_tolerance euler in
  let has_scale :=
    negb needs_nonuniform && above_tolerance (Float.sub s0 one) in
  if has_translation || has_rotation || has_scale then
    let transform_data :=
      (if has_translation then [("Translate", jvec3 (x, y, z))] else []) ++
      (if has_rotation then [("Rotate", JArr (map JNum euler))] else []) ++
      (if has_scale then [("Scale", JNum s0)] else []) in
    jset "Transform Data" (JObj transform_data) base
  else base.

(** The three output collections and the [entity_id_map] that
    [_create_entity_recursive] mutates. *)
Record Output : Type := mkOutput {
  entities : Py.odict Entity;
  instances : Py.odict json;
  entity_id_map : gmap string string
}.

Definition Output_empty : Output := mkOutput [] [] ∅.

(* ===================================================================== *)
(** * [integrated_asset_processor.py] *)
(* ===================================================================== *)

Module Integrated.

(** ** Data model *)

(** [go.rigidbody_data], as filled by [_build_hierarchy]. *)
Record RigidbodyData : Type := mkRigidbodyData {
  rb_mass : Float.t;
  rb_drag : Float.t;
  rb_angular_drag : Float.t;
  rb_use_gravity : bool;
  rb_is_kinematic : bool;
  rb_constraints : Z
}.

(** [rb.get(key, default)] on [go.rigidbody_data or {}]. *)
Definition rb_defaults : RigidbodyData :=
  mkRigidbodyData one zero (Float.literal 1 20) true false 0.

(** One entry of [go.colliders]: the keys written by
    [_parse_collider_data] for each component type. *)
Inductive ColliderShape : Type :=
| BoxCollider (size : Float.t * Float.t * Float.t)
| SphereCollider (radius : Float.t)
| CapsuleCollider (radius height : Float.t) (direction : Z)
| MeshCollider (mesh_guid : string) (convex : bool).

Record Collider : Type := mkCollider {
  col_shape : ColliderShape;
  col_is_trigger : bool;
  col_center : Float.t * Float.t * Float.t
}.

Record GameObject : Type := mkGameObject {
  file_id : string;
  name : string;
  transform : Transform;
  parent_id : option string;
  children_ids : list string;
  mesh_guid : option string;
  material_guids : list string;
  has_rigidbody : bool;
  rigidbody_data : option RigidbodyData;
  colliders : list Collider;
  is_prefab_instance : bool;
  prefab_source_guid : option string
}.

Definition set_parent_id (p : option string) (go : GameObject) : GameObject :=
  mkGameObject (file_id go) (name go) (transform go) p (children_ids go)
    (mesh_guid go) (material_guids go) (has_rigidbody go) (rigidbody_data go)
    (colliders go) (is_prefab_instance go) (prefab_source_guid go).

Definition set_children_ids (cs : list string) (go : GameObject) : GameObject :=
  mkGameObject (file_id go) (name go) (transform go) (parent_id go) cs
    (mesh_guid go) (material_guids go) (has_rigidbody go) (rigidbody_data go)
    (colliders go) (is_prefab_instance go) (prefab_source_guid go).

(** ** The asset database *)

(** What [_build_guid_index] sees of the disk: the [.meta] files in the
    order [rglob] yields them, the text of a file ([None] when [open] or
    [read] raises) and [Path.exists]. *)
Record FileSystem : Type := mkFileSystem {
  rglob_meta : list Path.t;
  read_text : Path.t -> option string;
  exists_file : Path.t -> bool
}.

Fixpoint take_hex (s : string) : string :=
  match s with
  | String c s' => if Py.is_hex c then String c (take_hex s') else EmptyString
  | EmptyString => EmptyString
  end.

(** [re.search(r'guid:\s*([a-f0-9]+)', content)], returning [group(1)]:
    the leftmost ["guid:"] that is followed, after optional white space,
    by at least one lower-case hexadecimal digit. *)
Fixpoint guid_search (content : string) : option string :=
  match content with
  | EmptyString => None
  | String _ rest =>
      let here :=
        if Py.startswith "guid:" content
        then take_hex (Py.skip_spaces (Path.drop_chars 5 content))
        else EmptyString in
      if String.eqb here EmptyString then guid_search rest else Some here
  end.

(** One iteration of the loop of [_build_guid_index]. *)
Definition index_meta_file (fs : FileSystem) (guid_to_path : gmap string Path.t)
    (meta_file : Path.t) : gmap string Path.t :=
  match read_text fs meta_file with
  | None => guid_to_path
  | Some content =>
      match guid_search content with
      | Some guid =>
          let asset_file := Path.drop_last 5 meta_file in
          if exists_file fs asset_file
          then <[guid := asset_file]> guid_to_path
          else guid_to_path
      | None => guid_to_path
      end
  end.

(** [AssetDatabase._build_guid_index], started from the empty index. *)
Definition _build_guid_index (fs : FileSystem) : gmap string Path.t :=
  fold_left (index_meta_file fs) (rglob_meta fs) ∅.

(** [AssetDatabase.resolve_guid] *)
Definition resolve_guid (guid_to_path : gmap string Path.t) (guid : string)
  : option Path.t :=
  guid_to_path !! guid.

(** [AssetDatabase.__init__]: the index and the lines it prints. *)
Definition AssetDatabase_init (fs : FileSystem)
  : gmap string Path.t * list string :=
  let idx := _build_guid_index fs in
  (idx, ["Building asset GUID index...";
         "Indexed " +:+ pretty (size idx) +:+ " assets"]).

(** ** The parse pass *)

(** One entry of [components_data]. *)
Record ComponentInfo : Type := mkComponentInfo {
  ci_type : string;
  ci_data : yaml
}.

(** The three tables filled by [_parse_unity_prefab]. *)
Record Tables : Type := mkTables {
  game_objects : Py.odict GameObject;
  components_data : Py.odict ComponentInfo;
  transform_to_gameobject : gmap string string
}.

Definition Tables_empty : Tables := mkTables [] [] ∅.

(** A per-record handler mutates the tables in place and may raise: it
    returns the tables as it left them and the exception, if any. *)
Definition Handler : Type := yaml -> string -> Tables -> Tables * option exn.

(** [components_data[anchor] = {'type': ty, 'data': doc[ty]}] *)
Definition store_component (ty : string) : Handler := fun data anchor tbl =>
  (mkTables (game_objects tbl)
     (Py.od_set anchor (mkComponentInfo ty data) (components_data tbl))
     (transform_to_gameobject tbl), None).

(** An [if key in doc: handler(doc[key], anchor, ...) elif ...] chain. *)
Fixpoint dispatch (cases : list (string * Handler)) (doc : yaml)
    (anchor : string) (tbl : Tables) : Tables * option exn :=
  match cases with
  | [] => (tbl, None)
  | (key, handler) :: rest =>
      match Yaml.contains key doc with
      | Raise e => (tbl, Some e)
      | Ok true =>
          match Yaml.item key doc with
          | Ok data => handler data anchor tbl
          | Raise e => (tbl, Some e)
          end
      | Ok false => dispatch rest doc anchor tbl
      end
  end.

(** ** The hierarchy pass *)

(** [_build_hierarchy], first loop: one GameObject. *)
Definition resolve_ids (transform_map : gmap string string) (go : GameObject)
  : GameObject :=
  let parent :=
    match (if Py.truthy (parent_id go)
           then transform_map !! default "" (parent_id go) else None) with
    | Some owner => Some owner
    | None =>
        match parent_id go with
        | Some p => if String.eqb p "0" then None else Some p
        | None => None
        end
    end in
  let resolved_children :=
    omap (fun child_transform_id => transform_map !! child_transform_id)
      (children_ids go) in
  set_children_ids resolved_children (set_parent_id parent go).

(** [_build_hierarchy], first loop (source lines 637-647). *)
Definition resolve_transform_ids (transform_map : gmap string string)
    (gos : Py.odict GameObject) : Py.odict GameObject :=
  map (fun kv => (fst kv, resolve_ids transform_map (snd kv))) gos.

(** Forward link: [game_objects[child_id].parent_id = file_id]. *)
Definition link_forward (file_id : string) (gos : Py.odict GameObject)
    (child_id : string) : Py.odict GameObject :=
  if Py.od_mem child_id gos
  then Py.od_alter (set_parent_id (Some file_id)) child_id gos
  else gos.

(** Reverse link: append [file_id] to the children of its parent. *)
Definition link_reverse (file_id : string) (gos : Py.odict GameObject)
  : Py.odict GameObject :=
  match Py.od_get file_id gos with
  | Some go =>
      if Py.truthy (parent_id go) then
        let pid := default "" (parent_id go) in
        match Py.od_get pid gos with
        | Some parent_go =>
            if Py.str_in file_id (children_ids parent_go) then gos
            else Py.od_alter
                   (fun g => set_children_ids (children_ids g ++ [file_id]) g)
                   pid gos
        | None => gos
        end
      else gos
  | None => gos
  end.

(** One iteration of the second loop, for the object stored under
    [file_id]; the object is read from the table because earlier
    iterations may have mutated it. *)
Definition link_step (gos : Py.odict GameObject) (file_id : string)
  : Py.odict GameObject :=
  match Py.od_get file_id gos with
  | Some go =>
      link_reverse file_id (fold_left (link_forward file_id) (children_ids go) gos)
  | None => gos
  end.

(** [_build_hierarchy], second loop (source lines 650-660). *)
Definition link_hierarchy (gos : Py.odict GameObject) : Py.odict GameObject :=
  fold_left link_step (Py.od_keys gos) gos.

(** [_build_hierarchy] up to the component-assignment loop, which does
    not write [parent_id] or [children_ids]. *)
Definition _build_hierarchy (gos : Py.odict GameObject)
    (transform_map : gmap string string) : Py.odict GameObject :=
  link_hierarchy (resolve_transform_ids transform_map gos).

Section ParsePass.

(** [yaml.safe_load], the per-record parsers and the last loop of
    [_build_hierarchy] (component assignment). *)
Variable safe_load : string -> result yaml.
Variable _parse_transform : Handler.
Variable _parse_game_object : Handler.
Variable _parse_prefab_instance_in_prefab : Handler.
Variable assign_components :
  Py.odict ComponentInfo -> Py.odict GameObject ->
  Py.odict GameObject * option exn.

Definition record_cases : list (string * Handler) :=
  [("Transform", _parse_transform);
   ("GameObject", _parse_game_object);
   ("PrefabInstance", _parse_prefab_instance_in_prefab);
   ("MeshFilter", store_component "MeshFilter");
   ("MeshRenderer", store_component "MeshRenderer");
   ("Rigidbody", store_component "Rigidbody");
   ("BoxCollider", store_component "BoxCollider");
   ("SphereCollider", store_component "SphereCollider");
   ("CapsuleCollider", store_component "CapsuleCollider");
   ("MeshCollider", store_component "MeshCollider")].

(** The [try] body of the loop of [_parse_unity_prefab]. *)
Definition try_block (block : string * string) (tbl : Tables)
  : Tables * option exn :=
  let '(anchor, doc_content) := block in
  match safe_load (Yaml.strip_tags doc_content) with
  | Raise e => (tbl, Some e)
  | Ok doc =>
      if Yaml.falsy doc then (tbl, None)
      else dispatch record_cases doc anchor tbl
  end.

(** One iteration: [except yaml.YAMLError: continue]; any other
    exception leaves the function.  The second component is what this
    loop writes to the log: nothing. *)
Definition parse_block (block : string * string) (st : Tables * list string)
  : result (Tables * list string) :=
  let '(tbl, log) := st in
  match try_block block tbl with
  | (tbl, None) => Ok (tbl, log)
  | (tbl, Some (YAMLError _)) => Ok (tbl, log)
  | (_, Some e) => Raise e
  end.

Fixpoint parse_blocks (matches : list (string * string))
    (st : Tables * list string) : result (Tables * list string) :=
  match matches with
  | [] => Ok st
  | block :: rest => result_bind (parse_block block st) (parse_blocks rest)
  end.

(** [_parse_unity_prefab] on the blocks found by [re.findall]: the
    GameObject table, the transform map and the log lines written. *)
Definition _parse_unity_prefab (matches : list (string * string))
  : result (Py.odict GameObject * gmap string string * list string) :=
  result_bind (parse_blocks matches (Tables_empty, []))
    (fun '(tbl, log) =>
       let gos := _build_hierarchy (game_objects tbl) (transform_to_gameobject tbl) in
       match assign_components (components_data tbl) gos with
       | (gos, None) => Ok (gos, transform_to_gameobject tbl, log)
       | (_, Some e) => Raise e
       end).

End ParsePass.

(** ** The processor state *)

(** The fields of [IntegratedAssetProcessor] that conversion mutates, and
    the number of [random.randint] calls made so far. *)
Record Processor : Type := mkProcessor {
  entity_id_counter : Z;
  rand_calls : nat;
  total_colliders : Z;
  total_rigidbodies : Z
}.

(** [IntegratedAssetProcessor.__init__] *)
Definition Processor_init : Processor := mkProcessor 1000000 0 0 0.

(** Methods of the processor: state transformers. *)
Definition M (A : Type) : Type := Processor -> A * Processor.

#[export] Instance M_ret : MRet M := fun A x p => (x, p).
#[export] Instance M_bind : MBind M :=
  fun A B f m p => let '(x, p') := m p in f x p'.

Section WithOracle.

(** The random source behind [random.randint]. *)
Variable oracle : nat -> Z.

(** [_generate_component_id] *)
Definition _generate_component_id : M Z := fun p =>
  (randint 1000000000000000 9999999999999999 (oracle (rand_calls p)),
   mkProcessor (entity_id_counter p) (S (rand_calls p))
     (total_colliders p) (total_rigidbodies p)).

Definition entity_id_of (n : Z) : string := "Entity_[" +:+ pretty n +:+ "]".

(** [_generate_entity_id] *)
Definition _generate_entity_id : M string := fun p =>
  let c := entity_id_counter p + 1 in
  (entity_id_of c,
   mkProcessor c (rand_calls p) (total_colliders p) (total_rigidbodies p)).

(** [self.total_colliders += 1] *)
Definition count_collider : M unit := fun p =>
  (tt, mkProcessor (entity_id_counter p) (rand_calls p)
         (total_colliders p + 1) (total_rigidbodies p)).

(** [self.total_rigidbodies += 1] *)
Definition count_rigidbody : M unit := fun p =>
  (tt, mkProcessor (entity_id_counter p) (rand_calls p)
         (total_colliders p) (total_rigidbodies p + 1)).

(** ** PhysX component generation *)

(** [_make_bare_entity]; the identifiers are drawn in the order of the
    dict literal. *)
Definition _make_bare_entity (entity_id name parent_entity_id : string)
  : M Entity :=
  i1 ← _generate_component_id;
  i2 ← _generate_component_id;
  i3 ← _generate_component_id;
  i4 ← _generate_component_id;
  i5 ← _generate_component_id;
  i6 ← _generate_component_id;
  i7 ← _generate_component_id;
  i8 ← _generate_component_id;
  mret (mkEntity entity_id name
    [("TransformComponent",
       JObj [("$type", JStr transform_type); ("Id", JInt i1);
             ("Parent Entity", JStr parent_entity_id)]);
     ("EditorDisabledCompositionComponent",
       plain_component "EditorDisabledCompositionComponent" i2);
     ("EditorEntityIconComponent",
       plain_component "EditorEntityIconComponent" i3);
     ("EditorInspectorComponent",
       plain_component "EditorInspectorComponent" i4);
     ("EditorLockComponent", plain_component "EditorLockComponent" i5);
     ("EditorOnlyEntityComponent",
       plain_component "EditorOnlyEntityComponent" i6);
     ("EditorPendingCompositionComponent",
       plain_component "EditorPendingCompositionComponent" i7);
     ("EditorVisibilityComponent",
       plain_component "EditorVisibilityComponent" i8)]).

Definition material_slots : json :=
  JObj [("MaterialSlots",
         JObj [("Slots", JArr [JObj [("Name", JStr "Entire object")]])])].

(** [_add_mesh_collider] *)
Definition _add_mesh_collider (components : Py.odict json)
    (collider_mesh_guid : string) (is_trigger : bool)
    (mesh_mapping : gmap string string) (go : GameObject)
  : M (Py.odict json) :=
  let collider_cfg :=
    if is_trigger then jset "Trigger" (JBool true) material_slots
    else material_slots in
  id ← _generate_component_id;
  let mesh_comp :=
    JObj [("$type", JStr "EditorMeshColliderComponent"); ("Id", JInt id);
          ("ColliderConfiguration", collider_cfg)] in
  let hint : option string :=
    match (if String.eqb collider_mesh_guid "" then None
           else mesh_mapping !! collider_mesh_guid) with
    | Some h => Some (Py.replace ".azmodel" ".pxmesh" h)
    | None =>
        match (if Py.truthy (mesh_guid go)
               then mesh_mapping !! default "" (mesh_guid go)
               else None) with
        | Some h => Some (Py.replace ".azmodel" ".pxmesh" h)
        | None => None
        end
    end in
  let mesh_comp :=
    if Py.truthy hint then
      let h := default "" hint in
      jset "ShapeConfiguration"
        (JObj [("PhysicsAsset",
           JObj [("Asset", JObj [("assetHint", JStr h)]);
                 ("Configuration",
                   JObj [("PhysicsAsset",
                     JObj [("loadBehavior", JStr "QueueLoad");
                           ("assetHint", JStr h)])])])])
        mesh_comp
    else mesh_comp in
  mret (Py.od_set "EditorMeshColliderComponent" mesh_comp components).

(** [_add_shape_collider]; [col_type] is the constructor of [shape]. *)
Definition _add_shape_collider (components : Py.odict json)
    (shape : ColliderShape) (offset : Float.t * Float.t * Float.t)
    (is_trigger : bool)
  : M (Py.odict json) :=
  let '(ox, oy, oz) := offset in
  let has_offset := any_above_tolerance [ox; oy; oz] in
  let with_offset (key : string) (cfg : json) : json :=
    if has_offset then jset key (jvec3 offset) cfg else cfg in
  '(shape_config, components) ←
    match shape with
    | BoxCollider (sx, sy, sz) =>
        let dims := jvec3 (sx, sz, sy) in
        let box_cfg := with_offset "TranslationOffset" (JObj [("Dimensions", dims)]) in
        id ← _generate_component_id;
        mret (JObj [("$type", JStr "BoxShapeConfiguration"); ("Configuration", dims)],
              Py.od_set "EditorBoxShapeComponent"
                (JObj [("$type", JStr "EditorBoxShapeComponent"); ("Id", JInt id);
                       ("BoxShape", JObj [("Configuration", box_cfg)])])
                components)
    | SphereCollider radius =>
        let sphere_cfg := with_offset "TranslationOffset" (JObj [("Radius", JNum radius)]) in
        id ← _generate_component_id;
        mret (JObj [("$type", JStr "SphereShapeConfiguration"); ("Radius", JNum radius)],
              Py.od_set "EditorSphereShapeComponent"
                (JObj [("$type", JStr "EditorSphereShapeComponent"); ("Id", JInt id);
                       ("SphereShape", JObj [("Configuration", sphere_cfg)])])
                components)
    | CapsuleCollider radius height _ =>
        let capsule_cfg :=
          with_offset "TranslationOffset"
            (JObj [("Height", JNum height); ("Radius", JNum radius)]) in
        id ← _generate_component_id;
        mret (JObj [("$type", JStr "CapsuleShapeConfiguration");
                    ("Height", JNum height); ("Radius", JNum radius)],
              Py.od_set "EditorCapsuleShapeComponent"
                (JObj [("$type", JStr "EditorCapsuleShapeComponent"); ("Id", JInt id);
                       ("CapsuleShape", JObj [("Configuration", capsule_cfg)])])
                components)
    | MeshCollider _ _ => mret (JObj [], components)
    end;
  let collider_cfg :=
    if is_trigger then jset "Trigger" (JBool true) material_slots
    else material_slots in
  let collider_cfg := with_offset "Position" collider_cfg in
  id ← _generate_component_id;
  mret (Py.od_set "EditorShapeColliderComponent"
          (JObj [("$type", JStr "EditorShapeColliderComponent"); ("Id", JInt id);
                 ("ColliderConfiguration", collider_cfg);
                 ("ShapeConfigs", JArr [shape_config])])
          components).

(** The body of the collider loop after [target] has been chosen. *)
Definition add_collider (target : Py.odict json) (collider : Collider)
    (mesh_mapping : gmap string string) (go : GameObject)
  : M (Py.odict json) :=
  let '(cx, cy, cz) := col_center collider in
  let offset := (Float.neg cx, cz, cy) in
  target ←
    match col_shape collider with
    | MeshCollider g _ =>
        _add_mesh_collider target g (col_is_trigger collider) mesh_mapping go
    | shape =>
        _add_shape_collider target shape offset (col_is_trigger collider)
    end;
  _ ← count_collider;
  mret target.

(** [for idx, collider in enumerate(go.colliders)], from index [idx] on.
    The loop state is the primary entity's [components], [entities_dict]
    and [child_entity_ids].  A child is stored in [entities_dict] before
    its collider is attached; the dict holds a reference, so the stored
    entity is the one with the collider. *)
Fixpoint colliders_loop (go : GameObject) (primary_id : string)
    (mesh_mapping : gmap string string) (idx : nat) (cs : list Collider)
    (components : Py.odict json) (entities_dict : Py.odict Entity)
    (child_entity_ids : list string)
  : M (Py.odict json * Py.odict Entity * list string) :=
  match cs with
  | [] => mret (components, entities_dict, child_entity_ids)
  | collider :: cs' =>
      '(components, entities_dict, child_entity_ids) ←
        match idx with
        | O =>
            components ← add_collider components collider mesh_mapping go;
            mret (components, entities_dict, child_entity_ids)
        | S _ =>
            child_id ← _generate_entity_id;
            child ← _make_bare_entity child_id
                      (name go +:+ "_Collider_" +:+ pretty idx) primary_id;
            sid ← _generate_component_id;
            let target :=
              Py.od_set "EditorStaticRigidBodyComponent"
                (plain_component "EditorStaticRigidBodyComponent" sid)
                (ent_components child) in
            let entities_dict :=
              Py.od_set child_id
                (mkEntity (ent_id child) (ent_name child) target) entities_dict in
            let child_entity_ids := child_entity_ids ++ [child_id] in
            target ← add_collider target collider mesh_mapping go;
            mret (components,
                  Py.od_set child_id
                    (mkEntity (ent_id child) (ent_name child) target) entities_dict,
                  child_entity_ids)
        end;
      colliders_loop go primary_id mesh_mapping (S idx) cs'
        components entities_dict child_entity_ids
  end.

(** The lock flags written for a constraint bitmask, in source order. *)
Definition lock_flags (constraints : Z) : list (string * json) :=
  if Z.eqb constraints 0 then [] else
  (if Z.eqb (Z.land constraints 2) 0 then [] else [("Lock Linear X", JBool true)]) ++
  (if Z.eqb (Z.land constraints 4) 0 then [] else [("Lock Linear Z", JBool true)]) ++
  (if Z.eqb (Z.land constraints 8) 0 then [] else [("Lock Linear Y", JBool true)]) ++
  (if Z.eqb (Z.land constraints 16) 0 then [] else [("Lock Angular X", JBool true)]) ++
  (if Z.eqb (Z.land constraints 32) 0 then [] else [("Lock Angular Z", JBool true)]) ++
  (if Z.eqb (Z.land constraints 64) 0 then [] else [("Lock Angular Y", JBool true)]).

(** The [config] dict of the rigid-body branch. *)
Definition rigidbody_config (go : GameObject) : list (string * json) :=
  let rb := default rb_defaults (rigidbody_data go) in
  [("Mass", JNum (rb_mass rb));
   ("Linear damping", JNum (rb_drag rb));
   ("Angular damping", JNum (rb_angular_drag rb));
   ("Gravity Enabled", JBool (rb_use_gravity rb))] ++
  (if rb_is_kinematic rb then [("Kinematic", JBool true)] else []) ++
  lock_flags (rb_constraints rb).

(** [_create_physx_components]: returns the child ids, the entity with
    its mutated [Components], and the mutated [entities_dict]. *)
Definition _create_physx_components (go : GameObject) (entity : Entity)
    (mesh_mapping : gmap string string) (entities_dict : Py.odict Entity)
  : M (list string * Entity * Py.odict Entity) :=
  match colliders go, has_rigidbody go with
  | [], false => mret ([], entity, entities_dict)
  | _, _ =>
      '(components, entities_dict, child_entity_ids) ←
        colliders_loop go (ent_id entity) mesh_mapping O (colliders go)
          (ent_components entity) entities_dict [];
      components ←
        (if has_rigidbody go then
           id ← _generate_component_id;
           _ ← count_rigidbody;
           mret (Py.od_set "EditorRigidBodyComponent"
                   (JObj [("$type", JStr "EditorRigidBodyComponent"); ("Id", JInt id);
                          ("Configuration", JObj (rigidbody_config go))])
                   components)
         else
           match colliders go with
           | [] => mret components
           | _ :: _ =>
               id ← _generate_component_id;
               _ ← count_rigidbody;
               mret (Py.od_set "EditorStaticRigidBodyComponent"
                       (plain_component "EditorStaticRigidBodyComponent" id)
                       components)
           end);
      mret (child_entity_ids,
            mkEntity (ent_id entity) (ent_name entity) components,
            entities_dict)
  end.

(** ** Entity creation *)

Section Conversion.

(** [self.project_name], [self.asset_db.guid_to_path] and
    [_quaternion_to_euler] (degrees, from [math.atan2] and [math.asin]). *)
Variable project_name : string.
Variable guid_to_path : gmap string Path.t.
Variable _quaternion_to_euler :
  Float.t * Float.t * Float.t * Float.t -> list Float.t.

(** [_create_nested_prefab_instance] *)
Definition _create_nested_prefab_instance (go : GameObject)
    (prefab_path : Path.t) (parent_entity_id : option string) : json :=
  let source_path := project_name +:+ "/prefabs/" +:+ Path.name prefab_path in
  let '(o3de_transform, _) := _convert_to_o3de_coordinates (transform go) in
  let patches := instance_patches (fmt_optional parent_entity_id) o3de_transform in
  JObj [("Source", JStr source_path); ("Patches", JArr patches)].

(** [materials_config]: slot ["{idx}"] for every material that resolved. *)
Fixpoint materials_config (material_mapping : gmap string string)
    (idx : nat) (guids : list string) (acc : Py.odict json) : Py.odict json :=
  match guids with
  | [] => acc
  | mat_guid :: rest =>
      let acc :=
        match material_mapping !! mat_guid with
        | Some mat_path =>
            if String.eqb mat_path "" then acc
            else Py.od_set ("{" +:+ pretty idx +:+ "}")
                   (JObj [("MaterialAsset", JObj [("assetHint", JStr mat_path)])]) acc
        | None => acc
        end in
      materials_config material_mapping (S idx) rest acc
  end.

(** [_create_entity_recursive], from [entity_id = self._generate_entity_id()]
    up to and including the call of [_create_physx_components]: the part
    of the body that precedes the loop over the children.  Returns the
    entity id, the entity built so far, the collider child ids and the
    output collections. *)
Definition begin_entity (go : GameObject) (out : Output)
    (material_mapping mesh_mapping : gmap string string)
    (parent_entity_id : option string)
  : M (string * Entity * list string * Output) :=
  entity_id ← _generate_entity_id;
  let id_map := <[file_id go := entity_id]> (entity_id_map out) in
  let '(o3de_transform, needs_nonuniform) :=
    _convert_to_o3de_coordinates (transform go) in
  let parent_entity_id : string :=
    match parent_entity_id with
    | Some p => p
    | None =>
        match (if Py.truthy (parent_id go)
               then id_map !! default "" (parent_id go) else None) with
        | Some p => p
        | None => ""
        end
    end in
  i1 ← _generate_component_id;
  i2 ← _generate_component_id;
  i3 ← _generate_component_id;
  i4 ← _generate_component_id;
  i5 ← _generate_component_id;
  i6 ← _generate_component_id;
  let components : Py.odict json :=
    [("EditorDisabledCompositionComponent",
       plain_component "EditorDisabledCompositionComponent" i1);
     ("EditorEntityIconComponent",
       plain_component "EditorEntityIconComponent" i2);
     ("EditorInspectorComponent",
       plain_component "EditorInspectorComponent" i3);
     ("EditorLockComponent", plain_component "EditorLockComponent" i4);
     ("EditorPendingCompositionComponent",
       plain_component "EditorPendingCompositionComponent" i5);
     ("EditorVisibilityComponent",
       plain_component "EditorVisibilityComponent" i6)] in
  i7 ← _generate_component_id;
  let components :=
    Py.od_set "TransformComponent"
      (transform_component (_quaternion_to_euler (rotation o3de_transform)) i7
         parent_entity_id o3de_transform needs_nonuniform)
      components in
  components ←
    (if needs_nonuniform then
       id ← _generate_component_id;
       mret (Py.od_set "EditorNonUniformScaleComponent"
               (JObj [("$type", JStr "EditorNonUniformScaleComponent");
                      ("Id", JInt id); ("Scale", jvec3 (scale o3de_transform))])
               components)
     else mret components);
  components ←
    match (if Py.truthy (mesh_guid go)
           then mesh_mapping !! default "" (mesh_guid go) else None) with
    | Some mesh_path =>
        if String.eqb mesh_path "" then mret components else
        id ← _generate_component_id;
        mret (Py.od_set "AZ::Render::EditorMeshComponent"
                (JObj [("$type", JStr "AZ::Render::EditorMeshComponent");
                       ("Id", JInt id);
                       ("Controller", JObj [("Configuration",
                          JObj [("ModelAsset",
                            JObj [("assetHint", JStr mesh_path)])])])])
                components)
    | None => mret components
    end;
  components ←
    match materials_config material_mapping O (material_guids go) [] with
    | [] => mret components
    | cfg =>
        id ← _generate_component_id;
        mret (Py.od_set "EditorMaterialComponent"
                (JObj [("$type", JStr "EditorMaterialComponent"); ("Id", JInt id);
                       ("Controller", JObj [("Configuration",
                          JObj [("materials", JObj cfg)])])])
                components)
    end;
  '(collider_child_ids, entity, entities_dict) ←
    _create_physx_components go
      (mkEntity entity_id (name go) components) mesh_mapping (entities out);
  mret (entity_id, entity, collider_child_ids,
        mkOutput entities_dict (instances out) id_map).

(** The end of [_create_entity_recursive], after the loop over the
    children: the sort component and [entities_dict[entity_id] = entity]. *)
Definition finish_entity (entity_id : string) (entity : Entity)
    (child_order : list string) (out : Output) : M (string * Output) :=
  components ←
    match child_order with
    | [] => mret (ent_components entity)
    | _ :: _ =>
        id ← _generate_component_id;
        mret (Py.od_set "EditorEntitySortComponent"
                (JObj [("$type", JStr "EditorEntitySortComponent"); ("Id", JInt id);
                       ("Child Entity Order", JArr (map JStr child_order))])
                (ent_components entity))
    end;
  mret (entity_id,
        mkOutput
          (Py.od_set entity_id
             (mkEntity (ent_id entity) (ent_name entity) components)
             (entities out))
          (instances out) (entity_id_map out)).

(** The prefab-instance test at the head of [_create_entity_recursive]:
    [Some] is the early return, [None] falls through to a plain entity.
    The counter is advanced whenever the test on the GameObject holds. *)
Definition try_instance (go : GameObject) (out : Output)
    (parent_entity_id : option string) : M (option (string * Output)) :=
  fun p =>
  if is_prefab_instance go && Py.truthy (prefab_source_guid go) then
    let instance_id := "Instance_[" +:+ pretty (entity_id_counter p) +:+ "]" in
    let p := mkProcessor (entity_id_counter p + 1) (rand_calls p)
               (total_colliders p) (total_rigidbodies p) in
    match resolve_guid guid_to_path (default "" (prefab_source_guid go)) with
    | Some prefab_path =>
        if String.eqb (Path.suffix prefab_path) ".prefab" then
          (Some (instance_id +:+ "/ContainerEntity",
                 mkOutput (entities out)
                   (Py.od_set instance_id
                      (_create_nested_prefab_instance go prefab_path parent_entity_id)
                      (instances out))
                   (entity_id_map out)), p)
        else (None, p)
    | None => (None, p)
    end
  else (None, p).

(** [_create_entity_recursive].  The recursion follows [children_ids]
    through the GameObject table and is not structural: [fuel] bounds its
    depth, and [None] stands for a run that exceeds it (Python raises
    [RecursionError] on a cyclic table). *)
Fixpoint _create_entity_recursive (fuel : nat) (go : GameObject)
    (all_game_objects : Py.odict GameObject) (out : Output)
    (material_mapping mesh_mapping : gmap string string)
    (parent_entity_id : option string) (p : Processor)
  : option (string * Output * Processor) :=
  match fuel with
  | O => None
  | S fuel' =>
      match try_instance go out parent_entity_id p with
      | (Some (ref, out), p) => Some (ref, out, p)
      | (None, p) =>
          let '(entity_id, entity, collider_child_ids, out, p) :=
            begin_entity go out material_mapping mesh_mapping parent_entity_id p in
          let children :=
            (fix loop (ids : list string) (child_order : list string)
                 (out : Output) (p : Processor)
               : option (list string * Output * Processor) :=
               match ids with
               | [] => Some (child_order, out, p)
               | child_id :: ids' =>
                   match Py.od_get child_id all_game_objects with
                   | Some child =>
                       match _create_entity_recursive fuel' child all_game_objects
                               out material_mapping mesh_mapping (Some entity_id) p with
                       | Some (child_entity_id, out, p) =>
                           loop ids'
                             (if String.eqb child_entity_id "" then child_order
                              else child_order ++ [child_entity_id]) out p
                       | None => None
                       end
                   | None => loop ids' child_order out p
                   end
               end) (children_ids go) [] out p in
          match children with
          | Some (child_order, out, p) =>
              let '(r, out, p) :=
                finish_entity entity_id entity
                  (child_order ++ collider_child_ids) out p in
              Some (r, out, p)
          | None => None
          end
      end
  end.

(** [_create_container_entity] *)
Definition _create_container_entity (root_go : GameObject) : M Entity :=
  i1 ← _generate_component_id;
  i2 ← _generate_component_id;
  i3 ← _generate_component_id;
  i4 ← _generate_component_id;
  i5 ← _generate_component_id;
  i6 ← _generate_component_id;
  i7 ← _generate_component_id;
  i8 ← _generate_component_id;
  i9 ← _generate_component_id;
  i10 ← _generate_component_id;
  mret (mkEntity "ContainerEntity" (name root_go)
    [("EditorDisabledCompositionComponent",
       plain_component "EditorDisabledCompositionComponent" i1);
     ("EditorEntityIconComponent",
       plain_component "EditorEntityIconComponent" i2);
     ("EditorEntitySortComponent",
       JObj [("$type", JStr "EditorEntitySortComponent"); ("Id", JInt i3);
             ("Child Entity Order", JArr [])]);
     ("EditorInspectorComponent",
       plain_component "EditorInspectorComponent" i4);
     ("EditorLockComponent", plain_component "EditorLockComponent" i5);
     ("EditorOnlyEntityComponent",
       JObj [("$type", JStr "EditorOnlyEntityComponent"); ("Id", JInt i6);
             ("IsEditorOnly", JBool true)]);
     ("EditorPendingCompositionComponent",
       plain_component "EditorPendingCompositionComponent" i7);
     ("EditorPrefabComponent", plain_component "EditorPrefabComponent" i8);
     ("EditorVisibilityComponent",
       plain_component "EditorVisibilityComponent" i9);
     ("TransformComponent",
       JObj [("$type", JStr transform_type); ("Id", JInt i10);
             ("Parent Entity", JStr "")])]).

(** [go.parent_id is None] *)
Definition is_root (go : GameObject) : bool :=
  match parent_id go with None => true | Some _ => false end.

(** [["ContainerEntity"]["Components"]["EditorEntitySortComponent"]
    ["Child Entity Order"] = [root_entity_id]] *)
Definition set_child_order (order : list string) (container : Entity) : Entity :=
  mkEntity (ent_id container) (ent_name container)
    (Py.od_alter (jset "Child Entity Order" (JArr (map JStr order)))
       "EditorEntitySortComponent" (ent_components container)).

Definition prefab_document (container : Entity) (out : Output) : json :=
  JObj [("ContainerEntity", entity_to_json container);
        ("Entities",
          JObj (map (fun kv => (fst kv, entity_to_json (snd kv))) (entities out)));
        ("Instances", JObj (instances out))].

(** [_create_o3de_prefab]: the document handed to [json.dump] ([None]
    when the function returns before writing) and the lines logged. *)
Definition _create_o3de_prefab (fuel : nat) (root_go : GameObject)
    (all_game_objects : Py.odict GameObject)
    (material_mapping mesh_mapping : gmap string string) (p : Processor)
  : option (option json * list string * Processor) :=
  let '(container, p) := _create_container_entity root_go p in
  let root_entities := List.filter is_root (map snd all_game_objects) in
  match root_entities with
  | [] => Some (None, ["  ⚠ No root GameObject found"], p)
  | root_entity :: others =>
      let log :=
        match others with
        | [] => []
        | _ :: _ =>
            ["  ⚠ Multiple root GameObjects found (" +:+
             pretty (length root_entities) +:+ "), using first one"]
        end in
      match _create_entity_recursive fuel root_entity all_game_objects
              Output_empty material_mapping mesh_mapping
              (Some "ContainerEntity") p with
      | Some (root_entity_id, out, p) =>
          let container :=
            if String.eqb root_entity_id "" then container
            else set_child_order [root_entity_id] container in
          Some (Some (prefab_document container out), log, p)
      | None => None
      end
  end.

End Conversion.

End WithOracle.

End Integrated.

(* ===================================================================== *)
(** * [unity_scene_converter_gui.py] *)
(* ===================================================================== *)

Module SceneGui.

(** ** Data model *)

Record GameObject : Type := mkGameObject {
  file_id : string;
  name : string;
  transform : Transform;
  parent_id : option string;
  children_ids : list string;
  is_prefab_instance : bool;
  prefab_source_guid : option string;
  prefab_name : option string
}.

Definition set_parent_id (p : option string) (go : GameObject) : GameObject :=
  mkGameObject (file_id go) (name go) (transform go) p (children_ids go)
    (is_prefab_instance go) (prefab_source_guid go) (prefab_name go).

Definition set_children_ids (cs : list string) (go : GameObject) : GameObject :=
  mkGameObject (file_id go) (name go) (transform go) (parent_id go) cs
    (is_prefab_instance go) (prefab_source_guid go) (prefab_name go).

(** ** [PrefabDatabase] *)

Record PrefabDatabase : Type := mkPrefabDatabase {
  prefab_paths : gmap string Path.t;
  prefab_guids : gmap string Path.t
}.

(** Does [s] read [\(\d+\)] and then end, possibly before one final
    newline?  Returns what follows the match. *)
Definition paren_number_at_end (s : string) : option string :=
  match s with
  | String "(" r =>
      match r with
      | String d _ =>
          if Py.is_digit d then
            match Py.skip_digits r with
            | String ")" EmptyString => Some EmptyString
            | String ")" (String "010" EmptyString) => Some (String "010" EmptyString)
            | _ => None
            end
          else None
      | EmptyString => None
      end
  | _ => None
  end.

(** [re.sub(r'\s*\(\d+\)$', '', name)] *)
Fixpoint strip_duplicate_suffix (name : string) : string :=
  match paren_number_at_end (Py.skip_spaces name) with
  | Some rest => rest
  | None =>
      match name with
      | EmptyString => EmptyString
      | String c name' => String c (strip_duplicate_suffix name')
      end
  end.

Fixpoint has_space (s : string) : bool :=
  match s with
  | EmptyString => false
  | String c s' => Ascii.eqb c " "%char || has_space s'
  end.

(** [name.rsplit(' ', 1)[0] if ' ' in name else name] *)
Fixpoint before_last_space (s : string) : string :=
  match s with
  | EmptyString => EmptyString
  | String c s' =>
      if Ascii.eqb c " "%char && negb (has_space s') then EmptyString
      else String c (before_last_space s')
  end.

(** [PrefabDatabase.find_prefab_by_name] *)
Definition find_prefab_by_name (db : PrefabDatabase) (name : string)
  : option Path.t :=
  match prefab_paths db !! name with
  | Some p => Some p
  | None =>
      let clean_name := strip_duplicate_suffix name in
      match prefab_paths db !! clean_name with
      | Some p => Some p
      | None =>
          let base_name := before_last_space name in
          match prefab_paths db !! base_name with
          | Some p => Some p
          | None => None
          end
      end
  end.


(** ** The converter state *)

(** One entry of [self.prefab_instances]. *)
Record InstanceData : Type := mkInstanceData {
  inst_guid : string;
  inst_name : option string;
  inst_position : Float.t * Float.t * Float.t;
  inst_rotation : Float.t * Float.t * Float.t * Float.t;
  inst_scale : Float.t * Float.t * Float.t;
  inst_parent_fileID : option string
}.

Record Converter : Type := mkConverter {
  game_objects : Py.odict GameObject;
  transform_to_gameobject : gmap string string;
  entity_counter : Z;
  instance_counter : Z;
  prefab_references : gmap string Path.t;
  missing_prefabs : gset string;
  prefab_instances : list InstanceData;
  rand_calls : nat
}.

(** [UnitySceneConverter.__init__] *)
Definition Converter_init : Converter :=
  mkConverter [] ∅ 1000000 1000000 ∅ ∅ [] 0.

Definition set_game_objects (gos : Py.odict GameObject) (c : Converter) : Converter :=
  mkConverter gos (transform_to_gameobject c) (entity_counter c)
    (instance_counter c) (prefab_references c) (missing_prefabs c)
    (prefab_instances c) (rand_calls c).

(** ** The hierarchy pass *)

(** [_build_hierarchy], first loop: one GameObject. *)
Definition resolve_ids (transform_map : gmap string string) (go : GameObject)
  : GameObject :=
  let parent :=
    match (if Py.truthy (parent_id go)
           then transform_map !! default "" (parent_id go) else None) with
    | Some owner => Some owner
    | None =>
        match parent_id go with
        | Some p => if String.eqb p "0" then None else Some p
        | None => None
        end
    end in
  let resolved_children :=
    omap (fun child_transform_id => transform_map !! child_transform_id)
      (children_ids go) in
  set_children_ids resolved_children (set_parent_id parent go).

(** [game_objects[child_id].parent_id = file_id] *)
Definition link_forward (file_id : string) (gos : Py.odict GameObject)
    (child_id : string) : Py.odict GameObject :=
  if Py.od_mem child_id gos
  then Py.od_alter (set_parent_id (Some file_id)) child_id gos
  else gos.

Definition link_step (gos : Py.odict GameObject) (file_id : string)
  : Py.odict GameObject :=
  match Py.od_get file_id gos with
  | Some go => fold_left (link_forward file_id) (children_ids go) gos
  | None => gos
  end.

(** [_build_hierarchy] (source lines 372-389) *)
Definition _build_hierarchy (c : Converter) : Converter :=
  let gos :=
    map (fun kv => (fst kv, resolve_ids (transform_to_gameobject c) (snd kv)))
      (game_objects c) in
  set_game_objects (fold_left link_step (Py.od_keys gos) gos) c.

(** ** Prefab reference resolution *)







(** ** Level creation *)

(** Methods of the converter: state transformers. *)
Definition G (A : Type) : Type := Converter -> A * Converter.

#[export] Instance G_ret : MRet G := fun A x c => (x, c).
#[export] Instance G_bind : MBind G :=
  fun A B f m c => let '(x, c') := m c in f x c'.

Section Level.

(** The random source behind [random.randint], [_convert_to_assets_path]
    (which reads [prefab_db.search_dirs]) and [_quaternion_to_euler]. *)
Variable oracle : nat -> Z.
Variable _convert_to_assets_path : Path.t -> string.
Variable _quaternion_to_euler :
  Float.t * Float.t * Float.t * Float.t -> list Float.t.

(** [_generate_component_id] *)
Definition _generate_component_id : G Z := fun c =>
  (randint 1000000000000000 9999999999999999 (oracle (rand_calls c)),
   mkConverter (game_objects c) (transform_to_gameobject c) (entity_counter c)
     (instance_counter c) (prefab_references c) (missing_prefabs c)
     (prefab_instances c) (S (rand_calls c))).

(** [_generate_entity_id] *)
Definition _generate_entity_id : G string := fun c =>
  let n := entity_counter c + 1 in
  ("Entity_[" +:+ pretty n +:+ "]",
   mkConverter (game_objects c) (transform_to_gameobject c) n
     (instance_counter c) (prefab_references c) (missing_prefabs c)
     (prefab_instances c) (rand_calls c)).

(** [instance_id = f"Instance_[{self.instance_counter}]"] followed by
    [self.instance_counter += 1] *)
Definition next_instance_id : G string := fun c =>
  ("Instance_[" +:+ pretty (instance_counter c) +:+ "]",
   mkConverter (game_objects c) (transform_to_gameobject c) (entity_counter c)
     (instance_counter c + 1) (prefab_references c) (missing_prefabs c)
     (prefab_instances c) (rand_calls c)).

(** [_create_prefab_instance] *)
Definition _create_prefab_instance (go : GameObject) (prefab_path : Path.t)
    (parent_entity_id : string) : json :=
  let source_path := _convert_to_assets_path prefab_path in
  let '(o3de_transform, _) := _convert_to_o3de_coordinates (transform go) in
  JObj [("Source", JStr source_path);
        ("Patches", JArr (instance_patches parent_entity_id o3de_transform))].

(** [_create_level_container] *)
Definition _create_level_container : G Entity :=
  i1 ← _generate_component_id;
  i2 ← _generate_component_id;
  i3 ← _generate_component_id;
  i4 ← _generate_component_id;
  i5 ← _generate_component_id;
  i6 ← _generate_component_id;
  i7 ← _generate_component_id;
  i8 ← _generate_component_id;
  i9 ← _generate_component_id;
  i10 ← _generate_component_id;
  mret (mkEntity "Entity_[1000000]" "Level"
    [("EditorDisabledCompositionComponent",
       plain_component "EditorDisabledCompositionComponent" i1);
     ("EditorEntityIconComponent",
       plain_component "EditorEntityIconComponent" i2);
     ("EditorEntitySortComponent",
       JObj [("$type", JStr "EditorEntitySortComponent"); ("Id", JInt i3);
             ("Child Entity Order", JArr [])]);
     ("EditorInspectorComponent",
       plain_component "EditorInspectorComponent" i4);
     ("EditorLockComponent", plain_component "EditorLockComponent" i5);
     ("EditorOnlyEntityComponent",
       plain_component "EditorOnlyEntityComponent" i6);
     ("EditorPendingCompositionComponent",
       plain_component "EditorPendingCompositionComponent" i7);
     ("EditorPrefabComponent", plain_component "EditorPrefabComponent" i8);
     ("EditorVisibilityComponent",
       plain_component "EditorVisibilityComponent" i9);
     ("TransformComponent",
       JObj [("$type", JStr transform_type); ("Id", JInt i10);
             ("Parent Entity", JStr "")])]).

(** The instance branch shared by [create_o3de_level] and
    [_create_entity_recursive]. *)
Definition emit_instance (go : GameObject) (prefab_path : Path.t)
    (parent_entity_id : string) (out : Output) : G (string * Output) :=
  instance_id ← next_instance_id;
  mret (instance_id +:+ "/ContainerEntity",
        mkOutput (entities out)
          (Py.od_set instance_id
             (_create_prefab_instance go prefab_path parent_entity_id)
             (instances out))
          (entity_id_map out)).

(** [_create_entity_recursive] from [entity_id = self._generate_entity_id()]
    to the non-uniform scale component: the part of the body before the
    loop over the children. *)
Definition begin_entity (go : GameObject) (out : Output)
    (parent_entity_id : string) : G (string * Entity * Output) :=
  entity_id ← _generate_entity_id;
  let id_map := <[file_id go := entity_id]> (entity_id_map out) in
  let '(o3de_transform, needs_nonuniform) :=
    _convert_to_o3de_coordinates (transform go) in
  i1 ← _generate_component_id;
  i2 ← _generate_component_id;
  i3 ← _generate_component_id;
  i4 ← _generate_component_id;
  i5 ← _generate_component_id;
  i6 ← _generate_component_id;
  let components : Py.odict json :=
    [("EditorDisabledCompositionComponent",
       plain_component "EditorDisabledCompositionComponent" i1);
     ("EditorEntityIconComponent",
       plain_component "EditorEntityIconComponent" i2);
     ("EditorInspectorComponent",
       plain_component "EditorInspectorComponent" i3);
     ("EditorLockComponent", plain_component "EditorLockComponent" i4);
     ("EditorPendingCompositionComponent",
       plain_component "EditorPendingCompositionComponent" i5);
     ("EditorVisibilityComponent",
       plain_component "EditorVisibilityComponent" i6)] in
  i7 ← _generate_component_id;
  let components :=
    Py.od_set "TransformComponent"
      (transform_component (_quaternion_to_euler (rotation o3de_transform)) i7
         parent_entity_id o3de_transform needs_nonuniform)
      components in
  components ←
    (if needs_nonuniform then
       id ← _generate_component_id;
       mret (Py.od_set "EditorNonUniformScaleComponent"
               (JObj [("$type", JStr "EditorNonUniformScaleComponent");
                      ("Id", JInt id); ("Scale", jvec3 (scale o3de_transform))])
               components)
     else mret components);
  mret (entity_id, mkEntity entity_id (name go) components,
        mkOutput (entities out) (instances out) id_map).

(** The end of [_create_entity_recursive]: the sort component and
    [entities_dict[entity_id] = entity]. *)
Definition finish_entity (entity_id : string) (entity : Entity)
    (child_order : list string) (out : Output) : G (string * Output) :=
  components ←
    match child_order with
    | [] => mret (ent_components entity)
    | _ :: _ =>
        id ← _generate_component_id;
        mret (Py.od_set "EditorEntitySortComponent"
                (JObj [("$type", JStr "EditorEntitySortComponent"); ("Id", JInt id);
                       ("Child Entity Order", JArr (map JStr child_order))])
                (ent_components entity))
    end;
  mret (entity_id,
        mkOutput
          (Py.od_set entity_id
             (mkEntity (ent_id entity) (ent_name entity) components)
             (entities out))
          (instances out) (entity_id_map out)).

(** [_create_entity_recursive]; [fuel] bounds the depth of the recursion
    through [children_ids], [None] is a run that exceeds it. *)
Fixpoint _create_entity_recursive (fuel : nat) (go : GameObject)
    (all_game_objects : Py.odict GameObject) (out : Output)
    (parent_entity_id : string) (c : Converter)
  : option (string * Output * Converter) :=
  match fuel with
  | O => None
  | S fuel' =>
      match prefab_references c !! file_id go with
      | Some prefab_path =>
          Some (emit_instance go prefab_path parent_entity_id out c)
      | None =>
          let '(entity_id, entity, out, c) := begin_entity go out parent_entity_id c in
          let children :=
            (fix loop (ids : list string) (child_order : list string)
                 (out : Output) (c : Converter)
               : option (list string * Output * Converter) :=
               match ids with
               | [] => Some (child_order, out, c)
               | child_id :: ids' =>
                   match Py.od_get child_id all_game_objects with
                   | Some child =>
                       match _create_entity_recursive fuel' child all_game_objects
                               out entity_id c with
                       | Some (child_entity_id, out, c) =>
                           loop ids'
                             (if String.eqb child_entity_id "" then child_order
                              else child_order ++ [child_entity_id]) out c
                       | None => None
                       end
                   | None => loop ids' child_order out c
                   end
               end) (children_ids go) [] out c in
          match children with
          | Some (child_order, out, c) =>
              Some (finish_entity entity_id entity child_order out c)
          | None => None
          end
      end
  end.

(** [go.parent_id is None] *)
Definition is_root (go : GameObject) : bool :=
  match parent_id go with None => true | Some _ => false end.

(** The loop of [create_o3de_level] over [root_objects]. *)
Fixpoint emit_roots (fuel : nat) (roots : list GameObject)
    (child_order : list string) (out : Output) (c : Converter)
  : option (list string * Output * Converter) :=
  match roots with
  | [] => Some (child_order, out, c)
  | root_go :: rest =>
      match prefab_references c !! file_id root_go with
      | Some prefab_path =>
          let '(ref, out, c) :=
            emit_instance root_go prefab_path "Entity_[1000000]" out c in
          emit_roots fuel rest (child_order ++ [ref]) out c
      | None =>
          match _create_entity_recursive fuel root_go (game_objects c) out
                  "Entity_[1000000]" c with
          | Some (entity_id, out, c) =>
              emit_roots fuel rest (child_order ++ [entity_id]) out c
          | None => None
          end
      end
  end.

Definition level_document (container : Entity) (out : Output) : json :=
  JObj [("ContainerEntity", entity_to_json container);
        ("Entities",
          JObj (map (fun kv => (fst kv, entity_to_json (snd kv))) (entities out)));
        ("Instances", JObj (instances out))].

(** [create_o3de_level]: the document handed to [json.dump]. *)
Definition create_o3de_level (fuel : nat) (c : Converter)
  : option (json * Converter) :=
  let '(container, c) := _create_level_container c in
  let root_objects := List.filter is_root (map snd (game_objects c)) in
  match emit_roots fuel root_objects [] Output_empty c with
  | Some (child_order, out, c) =>
      let container :=
        match child_order with
        | [] => container
        | _ :: _ =>
            mkEntity (ent_id container) (ent_name container)
              (Py.od_alter (jset "Child Entity Order" (JArr (map JStr child_order)))
                 "EditorEntitySortComponent" (ent_components container))
        end in
      Some (level_document container out, c)
  | None => None
  end.

End Level.

End SceneGui.

(* ===================================================================== *)
(** * [unity_prefab_to_o3de.py] *)
(* ===================================================================== *)

Module PrefabCli.

Record UnityComponent : Type := mkUnityComponent {
  type_name : string;
  comp_file_id : string;
  data : yaml
}.

Record GameObject : Type := mkGameObject {
  file_id : string;
  name : string;
  transform : Transform;
  components : list UnityComponent;
  parent_id : option string;
  children_ids : list string;
  mesh_path : option yaml;
  material_paths : yaml
}.

(** The tables that [parse_unity_prefab] resets and fills. *)
Record Tables : Type := mkTables {
  game_objects : Py.odict GameObject;
  components_data : Py.odict yaml;
  transform_to_gameobject : gmap string string
}.

Definition Tables_empty : Tables := mkTables [] [] ∅.

Definition Handler : Type := yaml -> string -> Tables -> Tables * option exn.

(** The [else] branch of the dispatch:
    [for key in doc.keys(): if key not in ['Transform', 'GameObject']:
       self.components_data[anchor] = {key: doc[key]}] *)
Definition store_other (doc : yaml) (anchor : string) (tbl : Tables)
  : Tables * option exn :=
  match doc with
  | YMap fs =>
      (fold_left
         (fun tbl kv =>
            if String.eqb (fst kv) "Transform" || String.eqb (fst kv) "GameObject"
            then tbl
            else mkTables (game_objects tbl)
                   (Py.od_set anchor (YMap [kv]) (components_data tbl))
                   (transform_to_gameobject tbl))
         fs tbl, None)
  | _ => (tbl, Some AttributeError)
  end.

(** The [if key in doc: ... elif ... else: ...] chain. *)
Fixpoint dispatch (cases : list (string * Handler)) (doc : yaml)
    (anchor : string) (tbl : Tables) : Tables * option exn :=
  match cases with
  | [] => store_other doc anchor tbl
  | (key, handler) :: rest =>
      match Yaml.contains key doc with
      | Raise e => (tbl, Some e)
      | Ok true =>
          match Yaml.item key doc with
          | Ok data => handler data anchor tbl
          | Raise e => (tbl, Some e)
          end
      | Ok false => dispatch rest doc anchor tbl
      end
  end.

(** [_build_hierarchy], first loop: one GameObject. *)
Definition resolve_ids (transform_map : gmap string string) (go : GameObject)
  : GameObject :=
  let parent :=
    match (if Py.truthy (parent_id go)
           then transform_map !! default "" (parent_id go) else None) with
    | Some owner => Some owner
    | None =>
        match parent_id go with
        | Some p => if String.eqb p "0" then None else Some p
        | None => None
        end
    end in
  let resolved_children :=
    omap (fun child_transform_id => transform_map !! child_transform_id)
      (children_ids go) in
  mkGameObject (file_id go) (name go) (transform go) (components go) parent
    resolved_children (mesh_path go) (material_paths go).

Section ParsePass.

(** [yaml.safe_load], the per-record parsers and the second loop of
    [_build_hierarchy] (component resolution). *)
Variable safe_load : string -> result yaml.
Variable _parse_transform : Handler.
Variable _parse_game_object : Handler.
Variable _parse_mesh_filter : Handler.
Variable _parse_mesh_renderer : Handler.
Variable resolve_components :
  Py.odict yaml -> Py.odict GameObject -> Py.odict GameObject * option exn.

Definition record_cases : list (string * Handler) :=
  [("Transform", _parse_transform);
   ("GameObject", _parse_game_object);
   ("MeshFilter", _parse_mesh_filter);
   ("MeshRenderer", _parse_mesh_renderer)].

(** The [try] body of the loop of [parse_unity_prefab]. *)
Definition try_block (block : string * string) (tbl : Tables)
  : Tables * option exn :=
  let '(anchor, doc_content) := block in
  match safe_load (Yaml.strip_tags doc_content) with
  | Raise e => (tbl, Some e)
  | Ok doc =>
      if Yaml.falsy doc then (tbl, None)
      else dispatch record_cases doc anchor tbl
  end.

(** [print(f"Warning: Failed to parse document {anchor}: {e}")] *)
Definition warning_line (anchor msg : string) : string :=
  "Warning: Failed to parse document " +:+ anchor +:+ ": " +:+ msg.

(** One iteration: a [yaml.YAMLError] prints the warning and continues,
    any other exception leaves the function.  The second component is
    what has been printed. *)
Definition parse_block (block : string * string) (st : Tables * list string)
  : result (Tables * list string) :=
  let '(tbl, printed) := st in
  match try_block block tbl with
  | (tbl, None) => Ok (tbl, printed)
  | (tbl, Some (YAMLError msg)) =>
      Ok (tbl, printed ++ [warning_line (fst block) msg])
  | (_, Some e) => Raise e
  end.

Fixpoint parse_blocks (matches : list (string * string))
    (st : Tables * list string) : result (Tables * list string) :=
  match matches with
  | [] => Ok st
  | block :: rest => result_bind (parse_block block st) (parse_blocks rest)
  end.

(** The first GameObject without parent. *)
Fixpoint find_root (gos : Py.odict GameObject) : option string :=
  match gos with
  | [] => None
  | (_, go) :: rest =>
      match parent_id go with
      | None => Some (file_id go)
      | Some _ => find_root rest
      end
  end.

(** [parse_unity_prefab] on the blocks found by [re.findall]: the root
    id, the tables and the printed lines. *)
Definition parse_unity_prefab (prefab_path : string)
    (matches : list (string * string))
  : result (option string * Tables * list string) :=
  result_bind
    (parse_blocks matches (Tables_empty, ["Parsing prefab: " +:+ prefab_path]))
    (fun '(tbl, printed) =>
       let gos :=
         map (fun kv => (fst kv, resolve_ids (transform_to_gameobject tbl) (snd kv)))
           (game_objects tbl) in
       match resolve_components (components_data tbl) gos with
       | (gos, None) =>
           Ok (find_root gos,
               mkTables gos (components_data tbl) (transform_to_gameobject tbl),
               printed ++ ["Parsed " +:+ pretty (length gos) +:+ " GameObjects"])
       | (_, Some e) => Raise e
       end).

End ParsePass.

End PrefabCli.

(* ===================================================================== *)
(** * Statements taken from the specification *)
(* ===================================================================== *)

Module Spec.

(** Non-uniform detection as the specification words it: some pair of
    components, [x]/[y], [y]/[z] or [x]/[z], differs by at least the
    tolerance. *)
Definition some_pair_differs (s : Float.t * Float.t * Float.t) : bool :=
  let '(x, y, z) := s in
  Float.geb (Float.abs (Float.sub x y)) tolerance ||
  Float.geb (Float.abs (Float.sub y z)) tolerance ||
  Float.geb (Float.abs (Float.sub x z)) tolerance.

(** The test the code applies to a pair: [abs(a - b) < 0.0001], evaluated
    in binary64. *)
Definition within_tolerance (a b : Float.t) : bool :=
  Float.ltb (Float.abs (Float.sub a b)) tolerance.

(** A scale component that is NaN or infinite. *)
Definition not_finite (a : Float.t) : bool :=
  Float.is_nan a || Float.is_infinite a.

(** The asset a sidecar file contributes for [guid], if any. *)
Definition declared_asset (fs : Integrated.FileSystem) (guid : string)
    (meta_file : Path.t) : option Path.t :=
  match Integrated.read_text fs meta_file with
  | Some content =>
      match Integrated.guid_search content with
      | Some g =>
          if String.eqb g guid && Integrated.exists_file fs (Path.drop_last 5 meta_file)
          then Some (Path.drop_last 5 meta_file) else None
      | None => None
      end
  | None => None
  end.

(** The contribution of the last sidecar file of the scan that has one. *)
Fixpoint last_declared (fs : Integrated.FileSystem) (guid : string)
    (scan : list Path.t) : option Path.t :=
  match scan with
  | [] => None
  | meta_file :: rest =>
      match last_declared fs guid rest with
      | Some asset => Some asset
      | None => declared_asset fs guid meta_file
      end
  end.

(** The component keys that attach a collider to an entity. *)
Definition is_collider_key (k : string) : bool :=
  String.eqb k "EditorShapeColliderComponent" ||
  String.eqb k "EditorMeshColliderComponent".

(** Number of collider attachments among the components of an entity. *)
Definition collider_count (components : Py.odict json) : nat :=
  length (List.filter (fun kv => is_collider_key (fst kv)) components).

(** The collider component a source collider turns into. *)
Definition collider_key (c : Integrated.Collider) : string :=
  match Integrated.col_shape c with
  | Integrated.MeshCollider _ _ => "EditorMeshColliderComponent"
  | _ => "EditorShapeColliderComponent"
  end.

(** The static-body marker. *)
Definition has_static_marker (e : Entity) : bool :=
  Py.od_mem "EditorStaticRigidBodyComponent" (ent_components e).

(** The transform parent link of an entity. *)
Definition parent_link (e : Entity) : option json :=
  Py.od_get "TransformComponent" (ent_components e) ≫= jget "Parent Entity".

End Spec.

(* ===================================================================== *)
(** * Concrete inputs used by the examples *)
(* ===================================================================== *)

Module Samples.

(** The remapped scale [(1, 1 + 2^-14, 1 + 2^-13)]: adjacent components
    differ by [2^-14 < 1e-4], the outer ones by [2^-13 > 1e-4]. *)
Definition skewed_scale : Transform :=
  mkTransform (zero, zero, zero) (zero, zero, zero, one)
    (one, Float.literal 8193 8192, Float.literal 16385 16384).

(** The scale [(0.0001, 3 * 2^-69, 3 * 2^-69)]: the first two components
    differ by less than [1e-4] as real numbers, but their binary64
    difference rounds to [0.0001], which is not below the tolerance. *)
Definition rounded_scale : Transform :=
  mkTransform (zero, zero, zero) (zero, zero, zero, one)
    (tolerance, Float.of_scaled 3 (-69), Float.of_scaled 3 (-69)).


(** Two sidecar files that declare the same GUID. *)
Definition two_sidecars : Integrated.FileSystem :=
  Integrated.mkFileSystem ["Assets/a/Rock.fbx.meta"; "Assets/b/Rock.fbx.meta"]
    (fun _ => Some "fileFormatVersion: 2
guid: 0123456789abcdef0123456789abcdef
")
    (fun _ => true).

End Samples.

(* ===================================================================== *)
(** * Vocabulary and inputs of the further properties *)
(* ===================================================================== *)

Module Extra.

(** The identifier of the [j]-th synthetic collider child created from
    processor state [p] (the child of collider number [j + 1]). *)
Definition nth_child_id (p : Integrated.Processor) (j : nat) : string :=
  Integrated.entity_id_of (Integrated.entity_id_counter p + Z.of_nat (S j)).

(** What a synthetic collider child looks like: its id and name, exactly
    one collider attachment of the kind of its source collider, the
    static-body marker, and a parent link to the primary entity. *)
Definition child_ok (go : Integrated.GameObject) (primary_id child_id : string)
    (idx : nat) (c : Integrated.Collider) (child : Entity) : Prop :=
  ent_id child = child_id /\
  ent_name child = Integrated.name go +:+ "_Collider_" +:+ pretty idx /\
  Spec.collider_count (ent_components child) = 1%nat /\
  Py.od_mem (Spec.collider_key c) (ent_components child) = true /\
  Spec.has_static_marker child = true /\
  Spec.parent_link child = Some (JStr primary_id).

(** A rigid body with three colliders. *)
Definition crate : Integrated.GameObject :=
  Integrated.mkGameObject "100" "Crate" Transform_default None [] None [] true
    (Some (Integrated.mkRigidbodyData one zero (Float.literal 1 20) true false 4))
    [Integrated.mkCollider
       (Integrated.BoxCollider (Float.of_int 2, Float.of_int 2, Float.of_int 2))
       false (zero, zero, zero);
     Integrated.mkCollider (Integrated.SphereCollider (Float.literal 1 2))
       false (zero, one, zero);
     Integrated.mkCollider (Integrated.MeshCollider "" false) true
       (zero, zero, zero)]
    false None.

Definition crate_entity : Entity := mkEntity "Entity_[1000001]" "Crate" [].

(** The processor after it has issued ["Entity_[1000001]"]. *)
Definition after_first_id : Integrated.Processor :=
  Integrated.mkProcessor 1000001 0 0 0.

(** Two GameObjects of the integrated pipeline that differ at most in
    their hierarchy links. *)
Definition same_body (g g' : Integrated.GameObject) : Prop :=
  Integrated.file_id g' = Integrated.file_id g /\
  Integrated.name g' = Integrated.name g /\
  Integrated.transform g' = Integrated.transform g /\
  Integrated.mesh_guid g' = Integrated.mesh_guid g /\
  Integrated.material_guids g' = Integrated.material_guids g /\
  Integrated.has_rigidbody g' = Integrated.has_rigidbody g /\
  Integrated.rigidbody_data g' = Integrated.rigidbody_data g /\
  Integrated.colliders g' = Integrated.colliders g /\
  Integrated.is_prefab_instance g' = Integrated.is_prefab_instance g /\
  Integrated.prefab_source_guid g' = Integrated.prefab_source_guid g.

(** A plain GameObject of the integrated pipeline, as [_parse_transform]
    and [_parse_game_object] leave it: links still name transforms. *)
Definition plain_object (file_id name : string) (parent : option string)
    (children : list string) : Integrated.GameObject :=
  Integrated.mkGameObject file_id name Transform_default parent children
    None [] false None [] false None.

(** A parent (GameObject 1, transform 11) that does not list its child
    (GameObject 2, transform 12), which names transform 11 as father. *)
Definition unlisted_child_table : Py.odict Integrated.GameObject :=
  [("1", plain_object "1" "Root" None []);
   ("2", plain_object "2" "Leaf" (Some "11") [])].

Definition two_transforms : gmap string string :=
  <["11" := "1"]> (<["12" := "2"]> ∅).

(** [f] applied to the value of a computation that returns. *)
Definition result_map {A B} (f : A -> B) (r : result A) : result B :=
  match r with Ok a => Ok (f a) | Raise e => Raise e end.

(** A loader that rejects the text ["m_Name: ["], reads ["42"] as a
    number and ["just text"] as a string, and reads every other text as
    a GameObject record. *)
Definition sample_load (text : string) : result yaml :=
  if String.eqb text "m_Name: [" then Raise (YAMLError "while parsing a flow sequence")
  else if String.eqb text "42" then Ok (YInt 42)
  else if String.eqb text "just text" then Ok (YStr "just text")
  else Ok (YMap [("GameObject", YMap [("m_Name", YStr "Root")])]).

(** Three blocks; the second does not load. *)
Definition blocks_with_bad_yaml : list (string * string) :=
  [("100", "GameObject: {m_Name: Root}"); ("200", "m_Name: [");
   ("300", "GameObject: {m_Name: Root}")].

(** A per-record parser that only files the record under its anchor. *)
Definition filing_handler : Integrated.Handler :=
  Integrated.store_component "seen".

Definition filing_handler_cli : PrefabCli.Handler := fun data anchor tbl =>
  (PrefabCli.mkTables (PrefabCli.game_objects tbl)
     (Py.od_set anchor data (PrefabCli.components_data tbl))
     (PrefabCli.transform_to_gameobject tbl), None).

(** A sidecar file that cannot be indexed: unreadable, without GUID, or
    without an asset beside it. *)
Definition unusable (fs : Integrated.FileSystem) (meta_file : Path.t) : Prop :=
  Integrated.read_text fs meta_file = None \/
  (exists content, Integrated.read_text fs meta_file = Some content /\
                   Integrated.guid_search content = None) \/
  Integrated.exists_file fs (Path.drop_last 5 meta_file) = false.

(** An unreadable sidecar between two readable ones. *)
Definition one_unreadable : Integrated.FileSystem :=
  Integrated.mkFileSystem
    ["a/Rock.fbx.meta"; "b/Tree.fbx.meta"; "c/Bush.fbx.meta"]
    (fun m => if String.eqb m "b/Tree.fbx.meta" then None
              else Some ("guid: " +:+ (if String.eqb m "a/Rock.fbx.meta"
                                       then "aa01" else "cc03")))
    (fun _ => true).

(** Does the character occur in the string? *)
Fixpoint has_char (c : ascii) (s : string) : bool :=
  match s with
  | EmptyString => false
  | String x s' => Ascii.eqb x c || has_char c s'
  end.

(** Is the last character of the string white space? *)
Fixpoint ends_with_space (s : string) : bool :=
  match s with
  | EmptyString => false
  | String x EmptyString => Py.is_space x
  | String _ s' => ends_with_space s'
  end.

(** A non-empty run of decimal digits. *)
Definition is_number (s : string) : bool :=
  negb (String.eqb s "") && forallb Py.is_digit (list_ascii_of_string s).

(** A prefab index with the single prefab ["Oak Tree"]. *)
Definition oak_database : SceneGui.PrefabDatabase :=
  SceneGui.mkPrefabDatabase {["Oak Tree" := "Prefabs/Oak Tree.prefab"]} ∅.

(** Does the entry stored under [f] list [x] among its children? *)
Definition lists (gos : Py.odict SceneGui.GameObject) (x f : string) : bool :=
  match Py.od_get f gos with
  | Some g => Py.str_in x (SceneGui.children_ids g)
  | None => false
  end.

(** The last key of [keys] whose entry lists [x]. *)
Fixpoint last_lister (gos : Py.odict SceneGui.GameObject) (x : string)
    (keys : list string) : option string :=
  match keys with
  | [] => None
  | f :: rest =>
      match last_lister gos x rest with
      | Some q => Some q
      | None => if lists gos x f then Some f else None
      end
  end.

(** The table of [_build_hierarchy] after its first loop. *)
Definition resolved_table (c : SceneGui.Converter)
  : Py.odict SceneGui.GameObject :=
  map (fun kv => (fst kv,
                  SceneGui.resolve_ids (SceneGui.transform_to_gameobject c) (snd kv)))
    (SceneGui.game_objects c).

Definition scene_object (file_id name : string) (parent : option string)
    (children : list string) : SceneGui.GameObject :=
  SceneGui.mkGameObject file_id name Transform_default parent children
    false None None.

(** GameObject 3 (transform 13) names transform 11 as father, while the
    entry of GameObject 2 (transform 12) lists transform 13 as a child. *)
Definition contested_child : SceneGui.Converter :=
  SceneGui.mkConverter
    [("1", scene_object "1" "A" None []);
     ("2", scene_object "2" "B" None ["13"]);
     ("3", scene_object "3" "C" (Some "11") [])]
    (<["11" := "1"]> (<["12" := "2"]> (<["13" := "3"]> ∅)))
    1000000 1000000 ∅ ∅ [] 0.



(** The loop of [SceneGui._create_entity_recursive] over [go.children_ids],
    with the recursive call as a parameter. *)
Definition scene_children_loop
    (rec : SceneGui.GameObject -> Output -> SceneGui.Converter ->
           option (string * Output * SceneGui.Converter))
    (all_game_objects : Py.odict SceneGui.GameObject)
  : list string -> list string -> Output -> SceneGui.Converter ->
    option (list string * Output * SceneGui.Converter) :=
  fix loop (ids : list string) (child_order : list string)
      (out : Output) (c : SceneGui.Converter) :=
    match ids with
    | [] => Some (child_order, out, c)
    | child_id :: ids' =>
        match Py.od_get child_id all_game_objects with
        | Some child =>
            match rec child out c with
            | Some (child_entity_id, out, c) =>
                loop ids'
                  (if String.eqb child_entity_id "" then child_order
                   else child_order ++ [child_entity_id]) out c
            | None => None
            end
        | None => loop ids' child_order out c
        end
    end.

(** Every chain of [children_ids] that starts at [go] leaves the table
    within [n] steps. *)
Fixpoint scene_depth_ok (n : nat) (gos : Py.odict SceneGui.GameObject)
    (go : SceneGui.GameObject) : bool :=
  match n with
  | O => false
  | S n' =>
      forallb (fun child_id =>
                 match Py.od_get child_id gos with
                 | Some child => scene_depth_ok n' gos child
                 | None => true
                 end) (SceneGui.children_ids go)
  end.

(** A father with one child in the table and one dangling child id. *)
Definition family_scene : SceneGui.Converter :=
  SceneGui.mkConverter
    [("1", scene_object "1" "Father" None ["2"; "9"]);
     ("2", scene_object "2" "Son" (Some "1") [])]
    ∅ 1000000 1000000 ∅ ∅ [] 0.

(** An object that lists itself as a child. *)
Definition self_listing_scene : SceneGui.Converter :=
  SceneGui.mkConverter [("1", scene_object "1" "Loop" None ["1"])]
    ∅ 1000000 1000000 ∅ ∅ [] 0.

Definition no_rotation (q : Float.t * Float.t * Float.t * Float.t)
  : list Float.t := [zero; zero; zero].

(** The loop of [Integrated._create_entity_recursive] over
    [go.children_ids], with the recursive call as a parameter. *)
Definition children_loop
    (rec : Integrated.GameObject -> Output -> Integrated.Processor ->
           option (string * Output * Integrated.Processor))
    (all_game_objects : Py.odict Integrated.GameObject)
  : list string -> list string -> Output -> Integrated.Processor ->
    option (list string * Output * Integrated.Processor) :=
  fix loop (ids : list string) (child_order : list string)
      (out : Output) (p : Integrated.Processor) :=
    match ids with
    | [] => Some (child_order, out, p)
    | child_id :: ids' =>
        match Py.od_get child_id all_game_objects with
        | Some child =>
            match rec child out p with
            | Some (child_entity_id, out, p) =>
                loop ids'
                  (if String.eqb child_entity_id "" then child_order
                   else child_order ++ [child_entity_id]) out p
            | None => None
            end
        | None => loop ids' child_order out p
        end
    end.

(** Every chain of [children_ids] that starts at [go] leaves the table
    within [n] steps. *)
Fixpoint depth_ok (n : nat) (gos : Py.odict Integrated.GameObject)
    (go : Integrated.GameObject) : bool :=
  match n with
  | O => false
  | S n' =>
      forallb (fun child_id =>
                 match Py.od_get child_id gos with
                 | Some child => depth_ok n' gos child
                 | None => true
                 end) (Integrated.children_ids go)
  end.

(** A root with the crate as its only child. *)
Definition crate_on_floor : Py.odict Integrated.GameObject :=
  [("1", plain_object "1" "Floor" None ["100"]); ("100", crate)].

(** An object that lists itself as a child. *)
Definition self_listing_table : Py.odict Integrated.GameObject :=
  [("1", plain_object "1" "Loop" None ["1"])].

(** [j[k1][k2]...] on nested JSON objects. *)
Fixpoint jpath (keys : list string) (j : json) : option json :=
  match keys with
  | [] => Some j
  | k :: keys' =>
      match jget k j with
      | Some v => jpath keys' v
      | None => None
      end
  end.

(** The entry that [create_o3de_level] adds to the child order for a root
    object: an instance reference when the object has a prefab reference,
    an entity id otherwise. *)
Definition root_entry (c : SceneGui.Converter) (go : SceneGui.GameObject)
    (ref : string) : Prop :=
  match SceneGui.prefab_references c !! SceneGui.file_id go with
  | Some _ =>
      exists k : Z, ref = ("Instance_[" +:+ pretty k +:+ "]") +:+ "/ContainerEntity"
  | None => exists k : Z, ref = "Entity_[" +:+ pretty k +:+ "]"
  end.

(** A level with a resolved root, a plain root and a child. *)
Definition small_level : SceneGui.Converter :=
  SceneGui.mkConverter
    [("1", scene_object "1" "Tree" None []);
     ("2", scene_object "2" "Ground" None ["3"]);
     ("3", scene_object "3" "Rock" (Some "2") [])]
    ∅ 1000000 1000000 {["1" := "Prefabs/Oak Tree.prefab"]} ∅ [] 0.

(** The tables that the creation of entities reads hold the same in [c']
    as in [c]. *)
Definition same_tables (c c' : SceneGui.Converter) : Prop :=
  SceneGui.game_objects c' = SceneGui.game_objects c /\
  SceneGui.prefab_references c' = SceneGui.prefab_references c.

(** A GameObject whose scale is [Samples.rounded_scale]. *)
Definition pebble : Integrated.GameObject :=
  Integrated.mkGameObject "7" "Pebble" Samples.rounded_scale None [] None []
    false None [] false None.

End Extra.

(* ===================================================================== *)
(** * Coordinate conversion *)
(* ===================================================================== *)

(** C1.  A Unity transform with position [(x,y,z)], rotation
    [(qx,qy,qz,qw)] and scale [(sx,sy,sz)] converts to position
    [(-x,z,y)], rotation [(-qx,qz,qy,qw)] (scalar part unchanged) and
    scale [(sx,sz,sy)]. *)
Theorem C1_axis_remap (x y z qx qy qz qw sx sy sz : Float.t) :
  fst (_convert_to_o3de_coordinates
         (mkTransform (x, y, z) (qx, qy, qz, qw) (sx, sy, sz)))
  = mkTransform (Float.neg x, z, y) (Float.neg qx, qz, qy, qw) (sx, sz, sy).
Proof. reflexivity. Qed.

(** C4, as stated, fails: the [x]/[z] pair of the remapped scale differs
    by at least the tolerance, yet the flag is not set. *)
Lemma C4_outer_pair_not_compared :
  scale (fst (_convert_to_o3de_coordinates Samples.skewed_scale))
    = (one, Float.literal 16385 16384, Float.literal 8193 8192) /\
  Float.geb
    (Float.abs (Float.sub one (Float.literal 8193 8192))) tolerance = true /\
  Spec.some_pair_differs
    (scale (fst (_convert_to_o3de_coordinates Samples.skewed_scale))) = true /\
  snd (_convert_to_o3de_coordinates Samples.skewed_scale) = false.
Proof. repeat split; vm_compute; reflexivity. Qed.

(* ===================================================================== *)
(** * The GUID index *)
(* ===================================================================== *)

Module IndexFacts.
Import Integrated.

Lemma index_meta_file_lookup fs idx meta_file guid :
  index_meta_file fs idx meta_file !! guid =
  match Spec.declared_asset fs guid meta_file with
  | Some asset => Some asset
  | None => idx !! guid
  end.
Proof.
  unfold index_meta_file, Spec.declared_asset.
  destruct (read_text fs meta_file) as [content|]; [|reflexivity].
  destruct (guid_search content) as [g|]; [|reflexivity].
  destruct (exists_file fs (Path.drop_last 5 meta_file)).
  - rewrite andb_true_r. destruct (String.eqb_spec g guid) as [->|Hne].
    + apply lookup_insert_eq.
    + by apply lookup_insert_ne.
  - by rewrite andb_false_r.
Qed.

Lemma fold_index_lookup fs scan idx guid :
  fold_left (index_meta_file fs) scan idx !! guid =
  match Spec.last_declared fs guid scan with
  | Some asset => Some asset
  | None => idx !! guid
  end.
Proof.
  revert idx. induction scan as [|meta_file rest IH]; intros idx; [reflexivity|].
  cbn [fold_left Spec.last_declared]. rewrite IH.
  destruct (Spec.last_declared fs guid rest); [reflexivity|].
  apply index_meta_file_lookup.
Qed.

(** C10.  [resolve_guid] is a total lookup: for every file system and
    every GUID it returns the asset of the last sidecar file of the scan
    that declares the GUID next to an existing asset, and [None] when
    there is none.  In particular, when two sidecar files declare the
    same GUID the later one silently replaces the earlier; building the
    index prints only the two progress lines. *)
Theorem C10_last_sidecar_wins (fs : FileSystem) (guid : string) :
  resolve_guid (_build_guid_index fs) guid
    = Spec.last_declared fs guid (rglob_meta fs) /\
  (forall scan1 m1 scan2 m2 scan3 a2,
     rglob_meta fs = scan1 ++ m1 :: scan2 ++ m2 :: scan3 ->
     Spec.declared_asset fs guid m2 = Some a2 ->
     Spec.last_declared fs guid scan3 = None ->
     resolve_guid (_build_guid_index fs) guid = Some a2) /\
  snd (AssetDatabase_init fs) =
    ["Building asset GUID index...";
     "Indexed " +:+ pretty (size (_build_guid_index fs)) +:+ " assets"].
Proof.
  assert (Hidx : resolve_guid (_build_guid_index fs) guid
                 = Spec.last_declared fs guid (rglob_meta fs)).
  { unfold resolve_guid, _build_guid_index. rewrite fold_index_lookup.
    destruct (Spec.last_declared fs guid (rglob_meta fs)); [reflexivity|].
    apply lookup_empty. }
  split; [exact Hidx|]. split; [|reflexivity].
  intros scan1 m1 scan2 m2 scan3 a2 Hscan Hm2 Hlast. rewrite Hidx, Hscan.
  clear Hidx Hscan.
  assert (Htail : Spec.last_declared fs guid (m2 :: scan3) = Some a2).
  { cbn. by rewrite Hlast. }
  assert (Happ : forall l l' a, Spec.last_declared fs guid l' = Some a ->
                   Spec.last_declared fs guid (l ++ l') = Some a).
  { intros l l' a H. induction l as [|x l IH]; [exact H|]. cbn. by rewrite IH. }
  apply Happ. change (m1 :: scan2 ++ m2 :: scan3) with ((m1 :: scan2) ++ m2 :: scan3).
  by apply Happ.
Qed.

Lemma C10_last_sidecar_wins_witness :
  resolve_guid (_build_guid_index Samples.two_sidecars) "0123456789abcdef0123456789abcdef"
    = Some "Assets/b/Rock.fbx" /\
  resolve_guid (_build_guid_index Samples.two_sidecars) "ffff" = None.
Proof.
  split.
  - apply (proj1 (proj2 (C10_last_sidecar_wins Samples.two_sidecars _))
             [] "Assets/a/Rock.fbx.meta" [] "Assets/b/Rock.fbx.meta" []);
      reflexivity.
  - rewrite (proj1 (C10_last_sidecar_wins Samples.two_sidecars "ffff")). reflexivity.
Defined.

End IndexFacts.

(* ===================================================================== *)
(** * Insertion-ordered dictionaries *)
(* ===================================================================== *)

Section OdictFacts.
Context {V : Type}.
Implicit Types (d : Py.odict V) (k : string) (v : V).

Lemma od_get_set d k k' v :
  Py.od_get k (Py.od_set k' v d) =
  if String.eqb k k' then Some v else Py.od_get k d.
Proof.
  induction d as [|[k0 v0] d IH]; cbn.
  - destruct (String.eqb k k'); reflexivity.
  - destruct (String.eqb_spec k' k0) as [->|Hne]; cbn.
    + destruct (String.eqb k k0); reflexivity.
    + rewrite IH. destruct (String.eqb_spec k k0) as [->|Hne'];
        [|reflexivity].
      destruct (String.eqb_spec k0 k'); [congruence|reflexivity].
Qed.

Lemma od_get_set_eq d k v : Py.od_get k (Py.od_set k v d) = Some v.
Proof. by rewrite od_get_set, String.eqb_refl. Qed.

Lemma od_get_set_ne d k k' v :
  k <> k' -> Py.od_get k (Py.od_set k' v d) = Py.od_get k d.
Proof.
  intros Hne. rewrite od_get_set.
  destruct (String.eqb_spec k k'); [congruence|reflexivity].
Qed.

Lemma od_mem_set d k k' v :
  Py.od_mem k (Py.od_set k' v d) = String.eqb k k' || Py.od_mem k d.
Proof.
  unfold Py.od_mem. rewrite od_get_set. destruct (String.eqb k k'); reflexivity.
Qed.

Lemma od_get_alter (f : V -> V) d k k' :
  Py.od_get k (Py.od_alter f k' d) =
  if String.eqb k k' then f <$> Py.od_get k d else Py.od_get k d.
Proof.
  induction d as [|[k0 v0] d IH]; cbn.
  - destruct (String.eqb k k'); reflexivity.
  - destruct (String.eqb_spec k' k0) as [->|Hne]; cbn.
    + destruct (String.eqb k k0); reflexivity.
    + rewrite IH. destruct (String.eqb_spec k k0) as [->|Hne'];
        [|reflexivity].
      destruct (String.eqb_spec k0 k'); [congruence|reflexivity].
Qed.

Lemma od_mem_alter (f : V -> V) d k k' :
  Py.od_mem k (Py.od_alter f k' d) = Py.od_mem k d.
Proof.
  unfold Py.od_mem. rewrite od_get_alter.
  destruct (String.eqb k k'); [|reflexivity].
  destruct (Py.od_get k d); reflexivity.
Qed.

Lemma od_keys_alter (f : V -> V) d k :
  Py.od_keys (Py.od_alter f k d) = Py.od_keys d.
Proof.
  unfold Py.od_keys. induction d as [|[k0 v0] d IH]; cbn; [reflexivity|].
  destruct (String.eqb k k0); cbn; [reflexivity|]. by rewrite IH.
Qed.

Lemma od_get_app_l d d' k v :
  Py.od_get k d = Some v -> Py.od_get k (d ++ d') = Some v.
Proof.
  induction d as [|[k0 v0] d IH]; cbn; [discriminate|].
  destruct (String.eqb k k0); auto.
Qed.

Lemma od_get_app_r d d' k :
  Py.od_get k d = None -> Py.od_get k (d ++ d') = Py.od_get k d'.
Proof.
  induction d as [|[k0 v0] d IH]; cbn; [reflexivity|].
  destruct (String.eqb k k0); [discriminate|auto].
Qed.

End OdictFacts.

(* ===================================================================== *)
(** * Rigid-body constraints *)
(* ===================================================================== *)

Module ConstraintFacts.
Import Integrated.

Lemma land_pow2_eqb (c : Z) (n : Z) :
  0 <= n -> Z.eqb (Z.land c (2 ^ n)) 0 = negb (Z.testbit c n).
Proof.
  intros Hn. destruct (Z.testbit c n) eqn:Hbit; cbn.
  - apply Z.eqb_neq. intros H0.
    assert (Hb : Z.testbit (Z.land c (2 ^ n)) n = true).
    { by rewrite Z.land_spec, Hbit, Z.pow2_bits_eqb, Z.eqb_refl. }
    rewrite H0, Z.bits_0 in Hb. discriminate.
  - apply Z.eqb_eq, Z.bits_inj'. intros m Hm.
    rewrite Z.land_spec, Z.bits_0, Z.pow2_bits_eqb by done.
    destruct (Z.eqb_spec n m) as [->|]; [by rewrite Hbit|apply andb_false_r].
Qed.

(** The flag written for bit [n] of the mask: present exactly when the
    bit is set. *)
Lemma lock_flag_bit (c : Z) (n : Z) (key : string) :
  0 <= n ->
  (if Z.eqb (Z.land c (2 ^ n)) 0 then [] else [(key, JBool true)])
  = if Z.testbit c n then [(key, JBool true)] else [].
Proof. intros Hn. rewrite land_pow2_eqb by done. by destruct (Z.testbit c n). Qed.

Lemma lock_flags_bits (c : Z) :
  lock_flags c =
  (if Z.testbit c 1 then [("Lock Linear X", JBool true)] else []) ++
  (if Z.testbit c 2 then [("Lock Linear Z", JBool true)] else []) ++
  (if Z.testbit c 3 then [("Lock Linear Y", JBool true)] else []) ++
  (if Z.testbit c 4 then [("Lock Angular X", JBool true)] else []) ++
  (if Z.testbit c 5 then [("Lock Angular Z", JBool true)] else []) ++
  (if Z.testbit c 6 then [("Lock Angular Y", JBool true)] else []).
Proof.
  unfold lock_flags. destruct (Z.eqb_spec c 0) as [->|_].
  - by rewrite !Z.bits_0.
  - rewrite <- (lock_flag_bit c 1), <- (lock_flag_bit c 2), <- (lock_flag_bit c 3),
      <- (lock_flag_bit c 4), <- (lock_flag_bit c 5), <- (lock_flag_bit c 6) by lia.
    reflexivity.
Qed.

End ConstraintFacts.

(* ===================================================================== *)
(** * PhysX component generation *)
(* ===================================================================== *)

Module PhysxFacts.
Import Integrated.

Arguments randint : simpl never.
Arguments pretty : simpl never.

Ltac run_m := repeat (progress (unfold mbind, M_bind, mret, M_ret; cbn)).

Lemma append_bracket_inj (s1 s2 : string) : s1 +:+ "]" = s2 +:+ "]" -> s1 = s2.
Proof.
  revert s2. induction s1 as [|a s1 IH]; intros [|b s2] H; cbn in H.
  - reflexivity.
  - injection H as _ H. destruct s2; discriminate.
  - injection H as _ H. destruct s1; discriminate.
  - injection H as -> H. f_equal. by apply IH.
Qed.

Lemma entity_id_of_inj (n m : Z) : entity_id_of n = entity_id_of m -> n = m.
Proof.
  unfold entity_id_of. intros H. cbn in H.
  repeat (injection H as H).
  apply append_bracket_inj in H. by apply (inj pretty).
Qed.

Lemma collider_count_set (d : Py.odict json) k v :
  Spec.collider_count (Py.od_set k v d) =
  if Py.od_mem k d then Spec.collider_count d
  else (Spec.collider_count d + if Spec.is_collider_key k then 1 else 0)%nat.
Proof.
  unfold Spec.collider_count, Py.od_mem.
  induction d as [|[k0 v0] d IH]; cbn.
  - destruct (Spec.is_collider_key k); reflexivity.
  - destruct (String.eqb_spec k k0) as [->|Hne]; cbn.
    + by destruct (Spec.is_collider_key k0).
    + destruct (Spec.is_collider_key k0); cbn; rewrite IH;
        destruct (Py.od_get k d); lia.
Qed.

Lemma collider_count_0_mem (d : Py.odict json) k :
  Spec.collider_count d = 0%nat -> Spec.is_collider_key k = true -> Py.od_mem k d = false.
Proof.
  unfold Spec.collider_count, Py.od_mem.
  induction d as [|[k0 v0] d IH]; cbn; [reflexivity|]. intros H0 Hk.
  destruct (String.eqb_spec k k0) as [->|Hne].
  - rewrite Hk in H0. discriminate.
  - apply IH; [|done]. destruct (Spec.is_collider_key k0); [discriminate|done].
Qed.

Lemma collider_key_is_key c : Spec.is_collider_key (Spec.collider_key c) = true.
Proof. unfold Spec.collider_key. by destruct (col_shape c). Qed.

Lemma make_bare oracle id nm par p :
  exists comps p', _make_bare_entity oracle id nm par p = (mkEntity id nm comps, p') /\
   entity_id_counter p' = entity_id_counter p /\
   Spec.collider_count comps = 0%nat /\
   Py.od_mem "EditorStaticRigidBodyComponent" comps = false /\
   Py.od_get "TransformComponent" comps ≫= jget "Parent Entity" = Some (JStr par).
Proof.
  unfold _make_bare_entity. run_m.
  eexists _, _. split; [reflexivity|]. repeat split.
Qed.

Lemma add_collider_spec oracle target c mm go p :
  exists t1 body p',
    add_collider oracle target c mm go p = (Py.od_set (Spec.collider_key c) body t1, p') /\
    entity_id_counter p' = entity_id_counter p /\
    (t1 = target \/ exists k b, Spec.is_collider_key k = false /\ k <> "EditorStaticRigidBodyComponent" /\ k <> "TransformComponent" /\ k <> "EditorNonUniformScaleComponent" /\ t1 = Py.od_set k b target).
Proof.
  unfold add_collider. destruct c as [shape trig [[cx cy] cz]]. cbn [col_center col_shape col_is_trigger].
  destruct shape as [[[sx sy] sz]|r|r h d|g cv]; unfold _add_shape_collider, _add_mesh_collider; run_m.
  all: eexists _, _, _; (split; [reflexivity|]); (split; [reflexivity|]).
  4: by left.
  all: right; eexists _, _; repeat split; try reflexivity; discriminate.
Qed.

(** Effect of attaching one collider on the facts used below. *)
Lemma add_collider_facts oracle target c mm go p :
  let r := add_collider oracle target c mm go p in
  entity_id_counter (snd r) = entity_id_counter p /\
  (Spec.collider_count target = 0%nat -> Spec.collider_count (fst r) = 1%nat) /\
  Py.od_mem (Spec.collider_key c) (fst r) = true /\
  (forall k, Py.od_mem k target = true -> Py.od_mem k (fst r) = true) /\
  Py.od_mem "EditorStaticRigidBodyComponent" (fst r)
    = Py.od_mem "EditorStaticRigidBodyComponent" target /\
  Py.od_mem "EditorNonUniformScaleComponent" (fst r)
    = Py.od_mem "EditorNonUniformScaleComponent" target /\
  Py.od_get "TransformComponent" (fst r) = Py.od_get "TransformComponent" target.
Proof.
  destruct (add_collider_spec oracle target c mm go p)
    as (t1 & body & p' & -> & Hc & Ht1).
  cbn [fst snd]. split; [exact Hc|].
  assert (Hk := collider_key_is_key c).
  assert (Hck1 : Spec.collider_key c <> "EditorStaticRigidBodyComponent").
  { unfold Spec.collider_key. destruct (col_shape c); discriminate. }
  assert (Hck2 : Spec.collider_key c <> "TransformComponent").
  { unfold Spec.collider_key. destruct (col_shape c); discriminate. }
  assert (Hck3 : Spec.collider_key c <> "EditorNonUniformScaleComponent").
  { unfold Spec.collider_key. destruct (col_shape c); discriminate. }
  repeat split.
  - intros H0. rewrite collider_count_set.
    assert (H1 : Spec.collider_count t1 = 0%nat).
    { destruct Ht1 as [->|(k & b & Hnk & _ & _ & _ & ->)]; [done|].
      rewrite collider_count_set, Hnk. destruct (Py.od_mem k target); lia. }
    rewrite (collider_count_0_mem t1 _ H1 Hk), Hk, H1. reflexivity.
  - by rewrite od_mem_set, String.eqb_refl.
  - intros k Hmem. rewrite od_mem_set.
    destruct Ht1 as [->|(k' & b & _ & _ & _ & _ & ->)].
    + rewrite Hmem. apply orb_true_r.
    + rewrite od_mem_set, Hmem. by rewrite !orb_true_r.
  - rewrite od_mem_set.
    destruct (String.eqb_spec "EditorStaticRigidBodyComponent" (Spec.collider_key c));
      [congruence|].
    destruct Ht1 as [->|(k' & b & _ & Hk' & _ & _ & ->)]; [done|].
    rewrite od_mem_set.
    by destruct (String.eqb_spec "EditorStaticRigidBodyComponent" k'); [congruence|].
  - rewrite od_mem_set.
    destruct (String.eqb_spec "EditorNonUniformScaleComponent" (Spec.collider_key c));
      [congruence|].
    destruct Ht1 as [->|(k' & b & _ & _ & _ & Hk' & ->)]; [done|].
    rewrite od_mem_set.
    by destruct (String.eqb_spec "EditorNonUniformScaleComponent" k'); [congruence|].
  - rewrite od_get_set_ne by congruence.
    destruct Ht1 as [->|(k' & b & _ & _ & Hk' & _ & ->)]; [done|].
    by rewrite od_get_set_ne by congruence.
Qed.

Lemma colliders_loop_children oracle go pid mm cs :
  forall idx comps ed ids p, (0 < idx)%nat ->
  exists ed' p',
    colliders_loop oracle go pid mm idx cs comps ed ids p
      = (comps, ed', ids ++ map (Extra.nth_child_id p) (seq 0 (length cs)), p') /\
    entity_id_counter p' = entity_id_counter p + Z.of_nat (length cs) /\
    (forall j c, cs !! j = Some c ->
       exists child, Py.od_get (Extra.nth_child_id p j) ed' = Some child /\
                     Extra.child_ok go pid (Extra.nth_child_id p j) (idx + j) c child) /\
    (forall k, (forall j, (j < length cs)%nat -> k <> Extra.nth_child_id p j) ->
       Py.od_get k ed' = Py.od_get k ed).
Proof.
  induction cs as [|c cs IH]; intros idx comps ed ids p Hidx.
  - exists ed, p. cbn. rewrite app_nil_r. repeat split; try done. lia.
  - destruct idx as [|idx']; [lia|].
    cbn [colliders_loop]. unfold mbind at 1, M_bind at 1.
    unfold mbind at 1, M_bind at 1. unfold _generate_entity_id at 1.
    cbn beta iota zeta.
    set (p1 := mkProcessor (entity_id_counter p + 1) (rand_calls p)
                 (total_colliders p) (total_rigidbodies p)).
    set (cid := entity_id_of (entity_id_counter p + 1)).
    unfold mbind at 1, M_bind at 1.
    destruct (make_bare oracle cid (name go +:+ "_Collider_" +:+ pretty (S idx')) pid p1)
      as (bcomps & p2 & -> & Hc2 & Hcount & Hstatic & Hlink).
    cbn beta iota zeta.
    unfold mbind at 1, M_bind at 1. unfold _generate_component_id at 1.
    cbn beta iota zeta. cbn [ent_components ent_id ent_name].
    set (p3 := mkProcessor _ _ _ _).
    set (target := Py.od_set "EditorStaticRigidBodyComponent" _ bcomps).
    unfold mbind at 1, M_bind at 1.
    pose proof (add_collider_facts oracle target c mm go p3) as Hadd.
    destruct (add_collider oracle target c mm go p3) as [target' p4].
    cbn [fst snd] in Hadd. destruct Hadd as (Hc4 & Hcnt & Hkey & Hmono & Hst & _ & Htc).
    unfold mret at 1, M_ret at 1. cbn beta iota zeta.
    set (ed1 := Py.od_set cid _ (Py.od_set cid _ ed)).
    assert (Hp4 : entity_id_counter p4 = entity_id_counter p + 1).
    { rewrite Hc4. subst p3. cbn. rewrite Hc2. reflexivity. }
    destruct (IH (S (S idx')) comps ed1 (ids ++ [cid]) p4 ltac:(lia))
      as (ed' & p' & -> & Hc' & Hchildren & Hframe).
    assert (Hshift : forall j, Extra.nth_child_id p4 j = Extra.nth_child_id p (S j)).
    { intros j. unfold Extra.nth_child_id. rewrite Hp4. f_equal. lia. }
    exists ed', p'. split; [|split; [|split]].
    + f_equal. f_equal. rewrite <- app_assoc. f_equal. cbn [length seq map app].
      f_equal. rewrite <- seq_shift, map_map. apply map_ext. intros j. apply Hshift.
    + rewrite Hc', Hp4. cbn [length]. lia.
    + intros [|j] c' Hj.
      * cbn in Hj. injection Hj as <-.
        rewrite Hframe.
        2:{ intros j _. rewrite Hshift. unfold Extra.nth_child_id, cid.
            intros Heq%entity_id_of_inj. lia. }
        change (Extra.nth_child_id p 0) with cid. subst ed1. rewrite od_get_set_eq.
        eexists. split; [reflexivity|].
        unfold Extra.child_ok, Spec.has_static_marker, Spec.parent_link.
        cbn [ent_id ent_name ent_components]. rewrite Nat.add_0_r.
        repeat split.
        -- apply Hcnt. subst target. rewrite collider_count_set, Hstatic. cbn. lia.
        -- exact Hkey.
        -- apply Hmono. subst target. by rewrite od_mem_set.
        -- rewrite Htc. subst target. rewrite od_get_set_ne by discriminate. exact Hlink.
      * cbn in Hj. destruct (Hchildren j c' Hj) as (child & Hget & Hok).
        exists child. rewrite <- Hshift. split; [exact Hget|].
        replace (S idx' + S j)%nat with (S (S idx') + j)%nat by lia. exact Hok.
    + intros k Hk. rewrite Hframe.
      2:{ intros j Hj. rewrite Hshift. apply Hk. cbn [length]. lia. }
      subst ed1. assert (k <> cid) by (apply (Hk O); cbn; lia).
      by rewrite !od_get_set_ne.
Qed.

Lemma nth_child_id_NoDup p n : NoDup (map (Extra.nth_child_id p) (seq 0 n)).
Proof.
  apply (NoDup_fmap_2_strong (Extra.nth_child_id p)); [|apply NoDup_seq].
  intros i j _ _ H. unfold Extra.nth_child_id in H. apply entity_id_of_inj in H. lia.
Qed.

(** The shape of a run of [_create_physx_components] on an object with at
    least one collider. *)
Lemma physx_with_colliders oracle go entity mm ed p c0 cs :
  colliders go = c0 :: cs ->
  exists comps1 comps2 ed' p1 p',
    add_collider oracle (ent_components entity) c0 mm go p = (comps1, p1) /\
    _create_physx_components oracle go entity mm ed p
      = (map (Extra.nth_child_id p) (seq 0 (length cs)),
         mkEntity (ent_id entity) (ent_name entity) comps2, ed', p') /\
    (exists body,
       comps2 = Py.od_set (if has_rigidbody go then "EditorRigidBodyComponent"
                           else "EditorStaticRigidBodyComponent") body comps1) /\
    (forall j c, cs !! j = Some c ->
       exists child, Py.od_get (Extra.nth_child_id p j) ed' = Some child /\
                     Extra.child_ok go (ent_id entity) (Extra.nth_child_id p j) (S j) c child).
Proof.
  intros Hcs. unfold _create_physx_components. rewrite Hcs. cbn iota.
  unfold mbind at 1, M_bind at 1. cbn [colliders_loop].
  unfold mbind at 1, M_bind at 1. unfold mbind at 1, M_bind at 1.
  destruct (add_collider oracle (ent_components entity) c0 mm go p)
    as [comps1 p1] eqn:Hadd.
  pose proof (add_collider_facts oracle (ent_components entity) c0 mm go p) as Hf.
  rewrite Hadd in Hf. cbn [fst snd] in Hf. destruct Hf as (Hc1 & _).
  unfold mret at 1, M_ret at 1. cbn beta iota zeta.
  destruct (colliders_loop_children oracle go (ent_id entity) mm cs 1 comps1 ed [] p1
              ltac:(lia)) as (ed' & p2 & -> & Hc2 & Hchildren & _).
  cbn beta iota zeta. cbn [app].
  assert (Hshift : forall j, Extra.nth_child_id p1 j = Extra.nth_child_id p j).
  { intros j. unfold Extra.nth_child_id. by rewrite Hc1. }
  rewrite (map_ext _ _ Hshift).
  assert (Hch : forall j c, cs !! j = Some c ->
            exists child, Py.od_get (Extra.nth_child_id p j) ed' = Some child /\
              Extra.child_ok go (ent_id entity) (Extra.nth_child_id p j) (S j) c child).
  { intros j c Hj. destruct (Hchildren j c Hj) as (child & Hget & Hok).
    exists child. rewrite <- Hshift. by split. }
  destruct (has_rigidbody go) eqn:Hrb.
  - run_m. eexists comps1, _, ed', p1, _. repeat split; [eexists; reflexivity|exact Hch].
  - run_m. eexists comps1, _, ed', p1, _. repeat split; [eexists; reflexivity|exact Hch].
Qed.

(** Collider fan-out.  For a GameObject with colliders [c0 :: cs] and a
    primary entity that carries no collider yet, [_create_physx_components]
    returns [length cs] pairwise distinct fresh child ids; the primary
    entity keeps exactly one collider attachment, that of [c0]; and the
    child made for the collider at index [j + 1] is stored under its id,
    is named ["{name}_Collider_{j+1}"], holds exactly one collider
    attachment of the kind of its source collider and has the primary
    entity's id as transform parent. *)
Theorem physx_fan_out oracle go entity mm ed p c0 cs :
  colliders go = c0 :: cs ->
  Spec.collider_count (ent_components entity) = 0%nat ->
  exists primary ed' p',
    _create_physx_components oracle go entity mm ed p
      = (map (Extra.nth_child_id p) (seq 0 (length cs)), primary, ed', p') /\
    NoDup (map (Extra.nth_child_id p) (seq 0 (length cs))) /\
    ent_id primary = ent_id entity /\
    Spec.collider_count (ent_components primary) = 1%nat /\
    Py.od_mem (Spec.collider_key c0) (ent_components primary) = true /\
    forall j c, cs !! j = Some c ->
      exists child,
        Py.od_get (Extra.nth_child_id p j) ed' = Some child /\
        ent_id child = Extra.nth_child_id p j /\
        ent_name child = name go +:+ "_Collider_" +:+ pretty (S j) /\
        Spec.collider_count (ent_components child) = 1%nat /\
        Py.od_mem (Spec.collider_key c) (ent_components child) = true /\
        Spec.parent_link child = Some (JStr (ent_id entity)).
Proof.
  intros Hcs H0.
  destruct (physx_with_colliders oracle go entity mm ed p c0 cs Hcs)
    as (comps1 & comps2 & ed' & p1 & p' & Hadd & -> & (body & ->) & Hch).
  pose proof (add_collider_facts oracle (ent_components entity) c0 mm go p) as Hf.
  rewrite Hadd in Hf. cbn [fst snd] in Hf.
  destruct Hf as (_ & Hcnt & Hkey & _).
  eexists _, ed', p'. split; [reflexivity|].
  split; [apply nth_child_id_NoDup|]. cbn [ent_id ent_components].
  split; [reflexivity|]. split; [|split].
  - rewrite collider_count_set, (Hcnt H0).
    destruct (has_rigidbody go);
      match goal with |- context [Py.od_mem ?k comps1] =>
        destruct (Py.od_mem k comps1) end; reflexivity.
  - rewrite od_mem_set, Hkey. apply orb_true_r.
  - intros j c Hj. destruct (Hch j c Hj) as (child & Hget & Hid & Hname & Hc & Hk & _ & Hl).
    exists child. repeat split; assumption.
Qed.

Lemma physx_fan_out_witness :
  exists primary ed' p',
    _create_physx_components (fun _ => 0) Extra.crate Extra.crate_entity ∅ []
      Extra.after_first_id
      = (["Entity_[1000002]"; "Entity_[1000003]"], primary, ed', p') /\
    Spec.collider_count (ent_components primary) = 1%nat.
Proof.
  destruct (physx_fan_out (fun _ => 0) Extra.crate Extra.crate_entity ∅ []
              Extra.after_first_id _ _ eq_refl eq_refl)
    as (primary & ed' & p' & Hrun & _ & _ & Hcount & _).
  exists primary, ed', p'. split; [|exact Hcount].
  rewrite Hrun. vm_compute. reflexivity.
Defined.

(** Static-body marker.  For a GameObject with at least one collider and
    a primary entity without the marker, the primary entity carries
    [EditorStaticRigidBodyComponent] after [_create_physx_components]
    exactly when the GameObject has no rigidbody, while every synthetic
    collider child carries it, rigidbody or not. *)
Theorem physx_static_marker oracle go entity mm ed p c0 cs :
  colliders go = c0 :: cs ->
  Spec.has_static_marker entity = false ->
  exists ids primary ed' p',
    _create_physx_components oracle go entity mm ed p = (ids, primary, ed', p') /\
    (Spec.has_static_marker primary = true <-> has_rigidbody go = false) /\
    forall j, (j < length cs)%nat ->
      exists child,
        Py.od_get (Extra.nth_child_id p j) ed' = Some child /\
        Spec.has_static_marker child = true.
Proof.
  intros Hcs H0.
  destruct (physx_with_colliders oracle go entity mm ed p c0 cs Hcs)
    as (comps1 & comps2 & ed' & p1 & p' & Hadd & -> & (body & ->) & Hch).
  pose proof (add_collider_facts oracle (ent_components entity) c0 mm go p) as Hf.
  rewrite Hadd in Hf. cbn [fst snd] in Hf.
  destruct Hf as (_ & _ & _ & _ & Hst & _).
  eexists _, _, ed', p'. split; [reflexivity|]. split.
  - unfold Spec.has_static_marker in *. cbn [ent_components].
    rewrite od_mem_set, Hst, H0. destruct (has_rigidbody go); cbn; split; congruence.
  - intros j Hj. destruct (lookup_lt_is_Some_2 cs j Hj) as [c Hc].
    destruct (Hch j c Hc) as (child & Hget & _ & _ & _ & _ & Hmark & _).
    by exists child.
Qed.

Lemma physx_static_marker_witness :
  has_rigidbody Extra.crate = true /\
  exists ids primary ed' p' child,
    _create_physx_components (fun _ => 0) Extra.crate Extra.crate_entity ∅ []
      Extra.after_first_id = (ids, primary, ed', p') /\
    Spec.has_static_marker primary = false /\
    Py.od_get "Entity_[1000002]" ed' = Some child /\
    Spec.has_static_marker child = true.
Proof.
  split; [reflexivity|].
  destruct (physx_static_marker (fun _ => 0) Extra.crate Extra.crate_entity ∅ []
              Extra.after_first_id _ _ eq_refl eq_refl)
    as (ids & primary & ed' & p' & Hrun & Hprimary & Hchildren).
  destruct (Hchildren O ltac:(cbn; lia)) as (child & Hget & Hmark).
  exists ids, primary, ed', p', child. split; [exact Hrun|].
  split; [|split; [exact Hget|exact Hmark]].
  destruct (Spec.has_static_marker primary); [|reflexivity].
  destruct Hprimary as [H _]. discriminate (H eq_refl).
Defined.

End PhysxFacts.

Module PhysxCounters.
Import Integrated PhysxFacts.

Lemma add_collider_stats oracle target c mm go p :
  let p' := snd (add_collider oracle target c mm go p) in
  entity_id_counter p' = entity_id_counter p /\
  total_colliders p' = total_colliders p + 1 /\
  total_rigidbodies p' = total_rigidbodies p.
Proof.
  unfold add_collider. destruct c as [shape trig [[cx cy] cz]].
  cbn [col_center col_shape col_is_trigger].
  destruct shape as [[[sx sy] sz]|r|r h d|g cv];
    unfold _add_shape_collider, _add_mesh_collider; run_m; repeat split.
Qed.

Lemma make_bare_stats oracle id nm par p :
  let p' := snd (_make_bare_entity oracle id nm par p) in
  entity_id_counter p' = entity_id_counter p /\
  total_colliders p' = total_colliders p /\
  total_rigidbodies p' = total_rigidbodies p.
Proof. unfold _make_bare_entity. run_m. repeat split. Qed.

Lemma colliders_loop_step oracle go pid mm c cs idx comps ed ids p :
  exists comps' ed' ids' p1,
    colliders_loop oracle go pid mm idx (c :: cs) comps ed ids p
      = colliders_loop oracle go pid mm (S idx) cs comps' ed' ids' p1 /\
    entity_id_counter p1
      = entity_id_counter p + match idx with O => 0 | S _ => 1 end /\
    total_colliders p1 = total_colliders p + 1 /\
    total_rigidbodies p1 = total_rigidbodies p /\
    length ids' = (length ids + match idx with O => 0 | S _ => 1 end)%nat.
Proof.
  cbn [colliders_loop]. unfold mbind at 1, M_bind at 1.
  destruct idx as [|idx'].
  - unfold mbind at 1, M_bind at 1.
    pose proof (add_collider_stats oracle comps c mm go p) as Hs.
    destruct (add_collider oracle comps c mm go p) as [comps1 p1].
    cbn [snd] in Hs. destruct Hs as (H1 & H2 & H3).
    unfold mret at 1, M_ret at 1. cbn beta iota zeta.
    eexists _, _, _, _. split; [reflexivity|]. repeat split; lia.
  - unfold mbind at 1, M_bind at 1. unfold _generate_entity_id at 1.
    cbn beta iota zeta.
    set (p1 := mkProcessor _ _ _ _).
    unfold mbind at 1, M_bind at 1.
    pose proof (make_bare_stats oracle (entity_id_of (entity_id_counter p + 1))
                  (name go +:+ "_Collider_" +:+ pretty (S idx')) pid p1) as Hb.
    destruct (_make_bare_entity oracle _ _ pid p1) as [child p2].
    cbn [snd] in Hb. destruct Hb as (B1 & B2 & B3).
    cbn beta iota zeta.
    unfold mbind at 1, M_bind at 1. unfold _generate_component_id at 1.
    cbn beta iota zeta.
    set (p3 := mkProcessor _ _ _ _).
    set (target := Py.od_set "EditorStaticRigidBodyComponent" _ _).
    unfold mbind at 1, M_bind at 1.
    pose proof (add_collider_stats oracle target c mm go p3) as Hs.
    destruct (add_collider oracle target c mm go p3) as [target' p4].
    cbn [snd] in Hs. destruct Hs as (H1 & H2 & H3).
    unfold mret at 1, M_ret at 1. cbn beta iota zeta.
    eexists _, _, _, _. split; [reflexivity|].
    rewrite H1, H2, H3. subst p3.
    cbn [entity_id_counter total_colliders total_rigidbodies].
    rewrite B1, B2, B3. subst p1.
    cbn [entity_id_counter total_colliders total_rigidbodies].
    rewrite length_app. cbn [length]. repeat split; lia.
Qed.

Lemma colliders_loop_stats oracle go pid mm cs :
  forall idx comps ed ids p,
  let r := colliders_loop oracle go pid mm idx cs comps ed ids p in
  entity_id_counter (snd r)
    = entity_id_counter p
      + Z.of_nat (length cs - match idx with O => 1 | S _ => 0 end) /\
  total_colliders (snd r) = total_colliders p + Z.of_nat (length cs) /\
  total_rigidbodies (snd r) = total_rigidbodies p /\
  length (snd (fst r))
    = (length ids + (length cs - match idx with O => 1 | S _ => 0 end))%nat.
Proof.
  induction cs as [|c cs IH]; intros idx comps ed ids p.
  - cbn. repeat split; destruct idx; cbn; lia.
  - destruct (colliders_loop_step oracle go pid mm c cs idx comps ed ids p)
      as (comps' & ed' & ids' & p1 & Hrun & H1 & H2 & H3 & H4).
    cbn zeta. rewrite Hrun.
    specialize (IH (S idx) comps' ed' ids' p1). cbn zeta in IH.
    destruct IH as (I1 & I2 & I3 & I4).
    rewrite I1, I2, I3, I4, H1, H2, H3, H4. cbn [length].
    repeat split; destruct idx; lia.
Qed.

(** Bookkeeping of [_create_physx_components].  For every GameObject the
    call adds the number of its colliders to [total_colliders], adds one
    to [total_rigidbodies] exactly when the object has a rigidbody or at
    least one collider, and issues one entity id per collider beyond the
    first, which is also the number of child ids it returns. *)
Theorem physx_counts oracle go entity mm ed p :
  let r := _create_physx_components oracle go entity mm ed p in
  total_colliders (snd r) = total_colliders p + Z.of_nat (length (colliders go)) /\
  total_rigidbodies (snd r)
    = total_rigidbodies p
      + (if has_rigidbody go || negb (Nat.eqb (length (colliders go)) 0) then 1 else 0) /\
  entity_id_counter (snd r)
    = entity_id_counter p + Z.of_nat (length (colliders go) - 1) /\
  length (fst (fst (fst r))) = (length (colliders go) - 1)%nat.
Proof.
  unfold _create_physx_components.
  destruct (colliders go) as [|c0 cs] eqn:Hcs.
  - destruct (has_rigidbody go) eqn:Hrb.
    + run_m. repeat split; lia.
    + cbn. repeat split; lia.
  - cbn iota.
    pose proof (colliders_loop_stats oracle go (ent_id entity) mm (c0 :: cs) O
                  (ent_components entity) ed [] p) as Hl.
    unfold mbind, M_bind.
    destruct (colliders_loop oracle go (ent_id entity) mm O (c0 :: cs)
                (ent_components entity) ed [] p) as [[[comps ed'] ids] p1].
    cbn [fst snd] in Hl. cbn zeta in Hl. destruct Hl as (L1 & L2 & L3 & L4).
    cbn [length] in *.
    destruct (has_rigidbody go); cbn; rewrite ?L1, ?L2, ?L3, ?L4;
      repeat split; lia.
Qed.

End PhysxCounters.

(* ===================================================================== *)
(** * The hierarchy pass of the integrated pipeline *)
(* ===================================================================== *)

Module HierarchyFacts.
Import Integrated.

Lemma same_body_refl g : Extra.same_body g g.
Proof. unfold Extra.same_body. tauto. Qed.

Lemma same_body_trans g1 g2 g3 :
  Extra.same_body g1 g2 -> Extra.same_body g2 g3 -> Extra.same_body g1 g3.
Proof.
  unfold Extra.same_body. intros H1 H2.
  destruct H1 as (?&?&?&?&?&?&?&?&?&?), H2 as (?&?&?&?&?&?&?&?&?&?).
  repeat split; congruence.
Qed.

Lemma str_in_In x l : Py.str_in x l = true <-> In x l.
Proof.
  unfold Py.str_in. rewrite existsb_exists. split.
  - intros (y & Hy & Heq). apply String.eqb_eq in Heq. by subst.
  - intros H. exists x. split; [done|apply String.eqb_refl].
Qed.

Lemma od_get_Some_keys {V} (d : Py.odict V) k v :
  Py.od_get k d = Some v -> In k (Py.od_keys d).
Proof.
  unfold Py.od_keys. induction d as [|[k0 v0] d IH]; cbn; [discriminate|].
  destruct (String.eqb_spec k k0) as [->|]; auto.
Qed.

Lemma od_mem_keys {V} (d : Py.odict V) k :
  Py.od_mem k d = true <-> In k (Py.od_keys d).
Proof.
  unfold Py.od_mem, Py.od_keys. induction d as [|[k0 v0] d IH]; cbn.
  - split; [discriminate|done].
  - destruct (String.eqb_spec k k0) as [->|Hne].
    + split; auto.
    + rewrite IH. split; [auto|]. intros [?|?]; [congruence|done].
Qed.

Lemma od_get_map_values {V W} (f : V -> W) (d : Py.odict V) k :
  Py.od_get k (map (fun kv => (fst kv, f (snd kv))) d) = f <$> Py.od_get k d.
Proof.
  induction d as [|[k0 v0] d IH]; cbn; [reflexivity|].
  destruct (String.eqb k k0); [reflexivity|apply IH].
Qed.

Lemma od_keys_map_values {V W} (f : V -> W) (d : Py.odict V) :
  Py.od_keys (map (fun kv => (fst kv, f (snd kv))) d) = Py.od_keys d.
Proof. unfold Py.od_keys. rewrite map_map. reflexivity. Qed.

(** The forward links of one object: listed children get it as parent. *)
Lemma link_forward_fold_get f cs : forall d k,
  Py.od_get k (fold_left (link_forward f) cs d) =
  if Py.str_in k cs then set_parent_id (Some f) <$> Py.od_get k d
  else Py.od_get k d.
Proof.
  induction cs as [|c cs IH]; intros d k; [reflexivity|].
  cbn [fold_left]. rewrite IH.
  assert (Hstep : forall k', Py.od_get k' (link_forward f d c) =
            if String.eqb k' c then set_parent_id (Some f) <$> Py.od_get k' d
            else Py.od_get k' d).
  { intros k'. unfold link_forward, Py.od_mem.
    destruct (Py.od_get c d) eqn:Hc.
    - apply od_get_alter.
    - destruct (String.eqb_spec k' c) as [->|]; [by rewrite Hc|reflexivity]. }
  rewrite Hstep. unfold Py.str_in. cbn [existsb].
  destruct (String.eqb k c); cbn.
  - destruct (existsb (String.eqb k) cs); [|reflexivity].
    by destruct (Py.od_get k d).
  - reflexivity.
Qed.

Lemma link_forward_fold_keys f cs : forall d,
  Py.od_keys (fold_left (link_forward f) cs d) = Py.od_keys d.
Proof.
  induction cs as [|c cs IH]; intros d; [reflexivity|].
  cbn [fold_left]. rewrite IH. unfold link_forward.
  destruct (Py.od_mem c d); [apply od_keys_alter|reflexivity].
Qed.

Lemma link_reverse_keys f d : Py.od_keys (link_reverse f d) = Py.od_keys d.
Proof.
  unfold link_reverse. destruct (Py.od_get f d) as [go|]; [|reflexivity].
  destruct (Py.truthy (parent_id go)); [|reflexivity].
  destruct (Py.od_get _ d) as [pg|]; [|reflexivity].
  destruct (Py.str_in f (children_ids pg)); [reflexivity|apply od_keys_alter].
Qed.

Lemma link_step_keys d f : Py.od_keys (link_step d f) = Py.od_keys d.
Proof.
  unfold link_step. destruct (Py.od_get f d); [|reflexivity].
  by rewrite link_reverse_keys, link_forward_fold_keys.
Qed.

Lemma truthy_Some o : Py.truthy o = true <-> exists p, o = Some p /\ p <> "".
Proof.
  destruct o as [p|]; cbn.
  - destruct (String.eqb_spec p ""); cbn; split.
    + discriminate.
    + intros (q & [= ->] & Hq). congruence.
    + eauto.
    + done.
  - split; [discriminate|]. by intros (? & ? & _).
Qed.

(** What one iteration of the second loop does to each object. *)
Lemma link_step_get d f go :
  Py.od_get f d = Some go ->
  forall k g', Py.od_get k (link_step d f) = Some g' ->
    exists g, Py.od_get k d = Some g /\ Extra.same_body g g' /\
      incl (children_ids g) (children_ids g') /\
      (parent_id g' = parent_id g \/
       (parent_id g' = Some f /\ In k (children_ids go))).
Proof.
  intros Hf k g' Hg'. unfold link_step in Hg'. rewrite Hf in Hg'.
  set (d1 := fold_left (link_forward f) (children_ids go) d) in *.
  assert (H1 : forall k1 g1, Py.od_get k1 d1 = Some g1 ->
            exists g, Py.od_get k1 d = Some g /\ Extra.same_body g g1 /\
              children_ids g1 = children_ids g /\
              (parent_id g1 = parent_id g \/
               (parent_id g1 = Some f /\ In k1 (children_ids go)))).
  { intros k1 g1. subst d1. rewrite link_forward_fold_get.
    destruct (Py.str_in k1 (children_ids go)) eqn:Hin.
    - destruct (Py.od_get k1 d) as [g|]; [|discriminate]. intros [= <-].
      exists g. split; [done|]. split; [by repeat split|]. split; [done|].
      right. split; [done|]. by apply str_in_In.
    - intros ->. eexists. split; [done|]. split; [apply same_body_refl|]. auto. }
  assert (H2 : exists g1, Py.od_get k d1 = Some g1 /\ Extra.same_body g1 g' /\
            incl (children_ids g1) (children_ids g') /\ parent_id g' = parent_id g1).
  { unfold link_reverse in Hg'.
    destruct (Py.od_get f d1) as [gf|];
      [|by eexists; repeat split; eauto using same_body_refl, incl_refl].
    destruct (Py.truthy (parent_id gf));
      [|by eexists; repeat split; eauto using same_body_refl, incl_refl].
    destruct (Py.od_get (default "" (parent_id gf)) d1) as [pg|];
      [|by eexists; repeat split; eauto using same_body_refl, incl_refl].
    destruct (Py.str_in f (children_ids pg));
      [by eexists; repeat split; eauto using same_body_refl, incl_refl|].
    rewrite od_get_alter in Hg'.
    destruct (String.eqb k (default "" (parent_id gf)));
      [|by eexists; repeat split; eauto using same_body_refl, incl_refl].
    destruct (Py.od_get k d1) as [g1|]; [|discriminate]. injection Hg' as <-.
    exists g1. split; [done|]. split; [by repeat split|]. split; [|done].
    cbn. apply incl_appl, incl_refl. }
  destruct H2 as (g1 & Hg1 & Hb1 & Hc1 & Hp1).
  destruct (H1 k g1 Hg1) as (g & Hg & Hb & Hc & Hp).
  exists g. split; [done|]. split; [eauto using same_body_trans|].
  split; [by rewrite <- Hc|]. rewrite Hp1. exact Hp.
Qed.

(** After its iteration, an object whose parent exists is listed by it. *)
Lemma link_step_self d f go :
  Py.od_get f d = Some go ->
  forall gf p pg,
    Py.od_get f (link_step d f) = Some gf ->
    parent_id gf = Some p -> p <> "" ->
    Py.od_get p (link_step d f) = Some pg ->
    In f (children_ids pg).
Proof.
  intros Hf gf p pg Hgf Hp Hne Hpg.
  unfold link_step in *. rewrite Hf in *.
  set (d1 := fold_left (link_forward f) (children_ids go) d) in *.
  revert Hgf Hpg. unfold link_reverse.
  destruct (Py.od_get f d1) as [gf1|] eqn:Hgf1. 2:{ intros Hgf _. rewrite Hgf1 in Hgf. discriminate. }
  destruct (Py.truthy (parent_id gf1)) eqn:Htr.
  - apply truthy_Some in Htr as (q & Hq & Hqne). rewrite Hq. change (default "" (Some q)) with q.
    destruct (Py.od_get q d1) as [pg1|] eqn:Hpg1.
    + destruct (Py.str_in f (children_ids pg1)) eqn:Hin.
      * intros Hgf Hpg.
        assert (gf = gf1) by congruence. subst gf.
        assert (p = q) by congruence. subst q.
        assert (pg = pg1) by congruence. subst pg. by apply str_in_In.
      * rewrite !od_get_alter. intros Hgf Hpg.
        assert (Hpar : parent_id gf = Some q).
        { destruct (String.eqb f q); rewrite Hgf1 in Hgf; injection Hgf as <-;
            cbn; done. }
        assert (p = q) by congruence. subst q.
        rewrite String.eqb_refl, Hpg1 in Hpg. injection Hpg as <-.
        cbn. apply in_or_app. right. by left.
    + intros Hgf Hpg. assert (gf = gf1) by congruence. subst gf. congruence.
  - intros Hgf Hpg. assert (gf = gf1) by congruence. subst gf.
    assert (Py.truthy (parent_id gf1) = true); [|congruence].
    apply truthy_Some. eauto.
Qed.

(** The invariant of the second loop over the keys already visited. *)
Lemma link_steps_invariant keys : forall d visited,
  (forall k, In k keys -> Py.od_mem k d = true) ->
  (forall x g p pg, In x visited -> Py.od_get x d = Some g ->
     parent_id g = Some p -> p <> "" -> Py.od_get p d = Some pg ->
     In x (children_ids pg)) ->
  forall x g p pg, In x (visited ++ keys) ->
    Py.od_get x (fold_left link_step keys d) = Some g ->
    parent_id g = Some p -> p <> "" ->
    Py.od_get p (fold_left link_step keys d) = Some pg ->
    In x (children_ids pg).
Proof.
  induction keys as [|f keys IH]; intros d visited Hkeys Hinv x g p pg Hx.
  - rewrite app_nil_r in Hx. cbn. by apply Hinv.
  - cbn [fold_left].
    assert (Hfmem : Py.od_mem f d = true) by (apply Hkeys; by left).
    unfold Py.od_mem in Hfmem.
    destruct (Py.od_get f d) as [go|] eqn:Hf; [|discriminate].
    apply (IH (link_step d f) (visited ++ [f])).
    + intros k Hk. apply od_mem_keys. rewrite link_step_keys.
      apply od_mem_keys, Hkeys. by right.
    + clear x g p pg Hx. intros x g' p pg' Hx Hg' Hp Hne Hpg'.
      apply in_app_or in Hx as [Hx|[<-|[]]].
      * destruct (link_step_get d f go Hf x g' Hg') as (g & Hg & _ & _ & Hpar).
        destruct (link_step_get d f go Hf p pg' Hpg') as (pg & Hpg & _ & Hincl & _).
        destruct Hpar as [Hpar|[Hpar Hin]].
        -- apply Hincl. apply (Hinv x g p pg); congruence.
        -- assert (p = f) by congruence. subst p.
           assert (pg = go) by congruence. subst pg. by apply Hincl.
      * by apply (link_step_self d f go Hf g' p pg').
    + by rewrite <- app_assoc.
Qed.

(** Keys and bodies survive the whole second loop. *)
Lemma link_steps_get keys : forall d,
  (forall k, In k keys -> Py.od_mem k d = true) ->
  Py.od_keys (fold_left link_step keys d) = Py.od_keys d /\
  forall k g', Py.od_get k (fold_left link_step keys d) = Some g' ->
    exists g, Py.od_get k d = Some g /\ Extra.same_body g g'.
Proof.
  induction keys as [|f keys IH]; intros d Hkeys.
  - cbn. split; [done|]. eauto using same_body_refl.
  - cbn [fold_left].
    assert (Hfmem : Py.od_mem f d = true) by (apply Hkeys; by left).
    unfold Py.od_mem in Hfmem.
    destruct (Py.od_get f d) as [go|] eqn:Hf; [|discriminate].
    assert (Hmem' : forall k, In k keys -> Py.od_mem k (link_step d f) = true).
    { intros k Hk. apply od_mem_keys. rewrite link_step_keys.
      apply od_mem_keys, Hkeys. by right. }
    destruct (IH (link_step d f) Hmem') as (Hk & Hg).
    split; [by rewrite Hk, link_step_keys|].
    intros k g' Hg'. destruct (Hg k g' Hg') as (g1 & Hg1 & Hb1).
    destruct (link_step_get d f go Hf k g1 Hg1) as (g & Hgd & Hb & _).
    eauto using same_body_trans.
Qed.

Lemma resolve_ids_same_body tm g : Extra.same_body g (resolve_ids tm g).
Proof. unfold Extra.same_body, resolve_ids. by repeat split. Qed.

(** Objects survive the hierarchy pass.  [_build_hierarchy] neither adds
    nor removes nor reorders table entries, and the object stored under a
    key keeps every field other than [parent_id] and [children_ids]. *)
Theorem build_hierarchy_keeps_objects gos tm :
  Py.od_keys (_build_hierarchy gos tm) = Py.od_keys gos /\
  forall k g', Py.od_get k (_build_hierarchy gos tm) = Some g' ->
    exists g, Py.od_get k gos = Some g /\ Extra.same_body g g'.
Proof.
  unfold _build_hierarchy, link_hierarchy.
  set (d0 := resolve_transform_ids tm gos).
  assert (Hk0 : Py.od_keys d0 = Py.od_keys gos) by apply od_keys_map_values.
  destruct (link_steps_get (Py.od_keys d0) d0) as (Hk & Hg).
  { intros k Hk. by apply od_mem_keys. }
  split; [by rewrite Hk|].
  intros k g' Hg'. destruct (Hg k g' Hg') as (g1 & Hg1 & Hb1).
  subst d0. unfold resolve_transform_ids in Hg1. rewrite od_get_map_values in Hg1.
  destruct (Py.od_get k gos) as [g|]; [|discriminate]. injection Hg1 as <-.
  exists g. split; [done|]. eauto using same_body_trans, resolve_ids_same_body.
Qed.

Lemma build_hierarchy_keeps_objects_witness :
  exists g',
    Py.od_get "2" (_build_hierarchy Extra.unlisted_child_table Extra.two_transforms)
      = Some g' /\
    name g' = "Leaf".
Proof.
  destruct (Py.od_get "2"
              (_build_hierarchy Extra.unlisted_child_table Extra.two_transforms))
    as [g'|] eqn:Hg'; [|vm_compute in Hg'; discriminate].
  exists g'. split; [reflexivity|].
  destruct (proj2 (build_hierarchy_keeps_objects Extra.unlisted_child_table
                     Extra.two_transforms) "2" g' Hg')
    as (g & Hg & _ & Hname & _).
  vm_compute in Hg. injection Hg as <-. exact Hname.
Defined.

(** Backward links are completed.  After [_build_hierarchy], every
    object whose [parent_id] is a non-empty id present in the table is a
    member of that parent's [children_ids]. *)
Theorem build_hierarchy_children_cover_parents gos tm x g p pg :
  Py.od_get x (_build_hierarchy gos tm) = Some g ->
  parent_id g = Some p -> p <> "" ->
  Py.od_get p (_build_hierarchy gos tm) = Some pg ->
  In x (children_ids pg).
Proof.
  unfold _build_hierarchy, link_hierarchy.
  set (d0 := resolve_transform_ids tm gos). intros Hg Hp Hne Hpg.
  assert (Hmem : forall k, In k (Py.od_keys d0) -> Py.od_mem k d0 = true).
  { intros k Hk. by apply od_mem_keys. }
  apply (link_steps_invariant (Py.od_keys d0) d0 [] Hmem) with (g := g) (p := p);
    try done.
  cbn [app]. destruct (link_steps_get (Py.od_keys d0) d0 Hmem) as (Hk & _).
  rewrite <- Hk. eauto using od_get_Some_keys.
Qed.

Lemma build_hierarchy_children_cover_parents_witness :
  exists pg,
    Py.od_get "1" (_build_hierarchy Extra.unlisted_child_table Extra.two_transforms)
      = Some pg /\
    In "2" (children_ids pg).
Proof.
  eexists. split; [vm_compute; reflexivity|].
  eapply (build_hierarchy_children_cover_parents Extra.unlisted_child_table
            Extra.two_transforms "2" _ "1").
  - vm_compute. reflexivity.
  - reflexivity.
  - discriminate.
  - vm_compute. reflexivity.
Defined.

End HierarchyFacts.

(* ===================================================================== *)
(** * The parse passes *)
(* ===================================================================== *)

Module ParseFacts.

Section IntegratedPass.
Import Integrated.
Variable safe_load : string -> result yaml.
Variables h_transform h_game_object h_instance : Handler.
Variable assign :
  Py.odict ComponentInfo -> Py.odict GameObject -> Py.odict GameObject * option exn.

Local Abbreviation blocks := (parse_blocks safe_load h_transform h_game_object h_instance).
Local Abbreviation block := (parse_block safe_load h_transform h_game_object h_instance).
Local Abbreviation parse :=
  (_parse_unity_prefab safe_load h_transform h_game_object h_instance assign).

Lemma parse_blocks_app l1 l2 st :
  blocks (l1 ++ l2) st = result_bind (blocks l1 st) (blocks l2).
Proof.
  revert st. induction l1 as [|b l1 IH]; intros st; [reflexivity|].
  cbn [app parse_blocks]. destruct (block b st) as [st'|e]; cbn; [apply IH|reflexivity].
Qed.

Lemma parse_block_yaml_error b st msg :
  safe_load (Yaml.strip_tags (snd b)) = Raise (YAMLError msg) ->
  block b st = Ok st.
Proof.
  intros Hload. destruct b as [anchor content], st as [tbl log].
  unfold parse_block, try_block. cbn [snd] in Hload. by rewrite Hload.
Qed.

(** A block that fails to load is transparent.  When [yaml.safe_load]
    raises [YAMLError] on a block, [_parse_unity_prefab] returns exactly
    what it returns on the file without that block: the same tables or
    the same exception, and no log line is written for the skip. *)
Theorem integrated_parse_skips_unloadable_block pre bad post msg :
  safe_load (Yaml.strip_tags (snd bad)) = Raise (YAMLError msg) ->
  parse (pre ++ bad :: post) = parse (pre ++ post).
Proof.
  intros Hload. unfold _parse_unity_prefab. f_equal.
  rewrite !parse_blocks_app. destruct (blocks pre _) as [st|e]; [|reflexivity].
  cbn [result_bind parse_blocks]. by rewrite (parse_block_yaml_error _ _ msg).
Qed.

(** A document that is a number aborts the pass.  When a block loads as
    a non-zero integer, the membership test ['Transform' in doc] raises
    [TypeError], which the loop does not catch: the blocks before it
    having parsed, the whole pass raises [TypeError] and the blocks after
    it are never read. *)
Theorem integrated_parse_aborts_on_number pre b post n st st' :
  blocks pre st = Ok st' ->
  safe_load (Yaml.strip_tags (snd b)) = Ok (YInt n) -> n <> 0 ->
  blocks (pre ++ b :: post) st = Raise TypeError.
Proof.
  intros Hpre Hload Hn. rewrite parse_blocks_app, Hpre. cbn [result_bind parse_blocks].
  destruct b as [anchor content], st' as [tbl log]. cbn [snd] in Hload.
  unfold parse_block, try_block. rewrite Hload. cbn [Yaml.falsy].
  destruct (Z.eqb_spec n 0); [done|]. reflexivity.
Qed.

Lemma dispatch_text_without_key (cases : list (string * Handler)) s anchor tbl :
  Forall (fun key => Yaml.substring_of key s = false) (map fst cases) ->
  dispatch cases (YStr s) anchor tbl = (tbl, None).
Proof.
  induction cases as [|[key h] cases IH]; cbn; [done|].
  intros H. apply List.Forall_cons_iff in H as [Hk H]. rewrite Hk. by apply IH.
Qed.

(** A document that is plain text is ignored.  When a block loads as a
    non-empty string that contains none of the ten record names, every
    membership test is a failed substring test: the block changes
    neither the tables nor the log and the pass goes on. *)
Theorem integrated_parse_ignores_text_block b s st :
  safe_load (Yaml.strip_tags (snd b)) = Ok (YStr s) -> s <> "" ->
  Forall (fun key => Yaml.substring_of key s = false)
    ["Transform"; "GameObject"; "PrefabInstance"; "MeshFilter"; "MeshRenderer";
     "Rigidbody"; "BoxCollider"; "SphereCollider"; "CapsuleCollider";
     "MeshCollider"] ->
  block b st = Ok st.
Proof.
  intros Hload Hs Hkeys. destruct b as [anchor content], st as [tbl log].
  cbn [snd] in Hload. unfold parse_block, try_block. rewrite Hload. cbn [Yaml.falsy].
  destruct (String.eqb_spec s ""); [done|].
  by rewrite dispatch_text_without_key.
Qed.

End IntegratedPass.

Lemma integrated_parse_skips_unloadable_block_witness :
  Integrated._parse_unity_prefab Extra.sample_load Extra.filing_handler
    Extra.filing_handler Extra.filing_handler (fun _ gos => (gos, None))
    Extra.blocks_with_bad_yaml
  = Integrated._parse_unity_prefab Extra.sample_load Extra.filing_handler
      Extra.filing_handler Extra.filing_handler (fun _ gos => (gos, None))
      [("100", "GameObject: {m_Name: Root}"); ("300", "GameObject: {m_Name: Root}")].
Proof.
  apply (integrated_parse_skips_unloadable_block Extra.sample_load
           Extra.filing_handler Extra.filing_handler Extra.filing_handler
           (fun _ gos => (gos, None))
           [("100", "GameObject: {m_Name: Root}")] ("200", "m_Name: [")
           [("300", "GameObject: {m_Name: Root}")]
           "while parsing a flow sequence").
  reflexivity.
Defined.

Lemma integrated_parse_aborts_on_number_witness :
  Integrated.parse_blocks Extra.sample_load Extra.filing_handler
    Extra.filing_handler Extra.filing_handler
    [("100", "GameObject: {m_Name: Root}"); ("200", "42");
     ("300", "GameObject: {m_Name: Root}")]
    (Integrated.Tables_empty, [])
  = Raise TypeError.
Proof.
  eapply (integrated_parse_aborts_on_number Extra.sample_load
            Extra.filing_handler Extra.filing_handler Extra.filing_handler
            [("100", "GameObject: {m_Name: Root}")] ("200", "42")
            [("300", "GameObject: {m_Name: Root}")] 42).
  - vm_compute. reflexivity.
  - reflexivity.
  - discriminate.
Defined.

Lemma integrated_parse_ignores_text_block_witness :
  Integrated.parse_block Extra.sample_load Extra.filing_handler
    Extra.filing_handler Extra.filing_handler ("200", "just text")
    (Integrated.Tables_empty, [])
  = Ok (Integrated.Tables_empty, []).
Proof.
  apply (integrated_parse_ignores_text_block Extra.sample_load
           Extra.filing_handler Extra.filing_handler Extra.filing_handler
           ("200", "just text") "just text").
  - reflexivity.
  - discriminate.
  - repeat (apply List.Forall_cons; [reflexivity|]). apply List.Forall_nil.
Defined.

Section CliPass.
Import PrefabCli.
Variable safe_load : string -> result yaml.
Variables h_transform h_game_object h_mesh_filter h_mesh_renderer : Handler.
Variable resolve :
  Py.odict yaml -> Py.odict GameObject -> Py.odict GameObject * option exn.

Local Abbreviation blocks :=
  (parse_blocks safe_load h_transform h_game_object h_mesh_filter h_mesh_renderer).
Local Abbreviation block :=
  (parse_block safe_load h_transform h_game_object h_mesh_filter h_mesh_renderer).
Local Abbreviation parse :=
  (parse_unity_prefab safe_load h_transform h_game_object h_mesh_filter
     h_mesh_renderer resolve).

Lemma cli_parse_blocks_app l1 l2 st :
  blocks (l1 ++ l2) st = result_bind (blocks l1 st) (blocks l2).
Proof.
  revert st. induction l1 as [|b l1 IH]; intros st; [reflexivity|].
  cbn [app parse_blocks]. destruct (block b st) as [st'|e]; cbn; [apply IH|reflexivity].
Qed.

(** What is printed never influences the tables: the lines printed so far
    are a prefix of the lines printed at the end. *)
Lemma cli_parse_blocks_printed l : forall tbl printed,
  blocks l (tbl, printed)
  = Extra.result_map (fun r => (fst r, printed ++ snd r)) (blocks l (tbl, [])).
Proof.
  induction l as [|b l IH]; intros tbl printed.
  - cbn. by rewrite app_nil_r.
  - cbn [parse_blocks]. unfold parse_block.
    destruct (try_block _ _ _ _ _ b tbl) as [tbl' [e|]].
    + destruct e; cbn [result_bind Extra.result_map]; try reflexivity.
      rewrite (IH tbl' (printed ++ _)), (IH tbl' ([] ++ _)).
      destruct (blocks l (tbl', [])) as [[t out]|e]; cbn; [|reflexivity].
      by rewrite <- app_assoc.
    + cbn [result_bind]. apply IH.
Qed.

(** A block that fails to load is skipped with one warning.  When
    [yaml.safe_load] raises [YAMLError] on a block, [parse_unity_prefab]
    yields the root and the tables of the file without that block (or the
    same exception), and when it returns, what it printed contains the
    warning line naming the block's anchor and has exactly one line more
    than for the file without the block. *)
Theorem cli_parse_warns_on_unloadable_block path pre bad post msg :
  safe_load (Yaml.strip_tags (snd bad)) = Raise (YAMLError msg) ->
  Extra.result_map fst (parse path (pre ++ bad :: post))
    = Extra.result_map fst (parse path (pre ++ post)) /\
  forall r printed, parse path (pre ++ bad :: post) = Ok (r, printed) ->
    In (warning_line (fst bad) msg) printed /\
    exists printed', parse path (pre ++ post) = Ok (r, printed') /\
                     length printed = S (length printed').
Proof.
  intros Hload. unfold parse_unity_prefab. rewrite !cli_parse_blocks_app.
  destruct (blocks pre _) as [[tbl1 pr1]|e]; [|split; [reflexivity|discriminate]].
  cbn [result_bind parse_blocks].
  assert (Hbad : block bad (tbl1, pr1)
                 = Ok (tbl1, pr1 ++ [warning_line (fst bad) msg])).
  { destruct bad as [anchor content]. cbn [snd] in Hload.
    unfold parse_block, try_block. by rewrite Hload. }
  rewrite Hbad. cbn [result_bind].
  rewrite (cli_parse_blocks_printed post tbl1 (pr1 ++ _)),
    (cli_parse_blocks_printed post tbl1 pr1).
  destruct (blocks post (tbl1, [])) as [[tbl2 out]|e];
    cbn [Extra.result_map result_bind fst snd]; [|split; [reflexivity|discriminate]].
  destruct (resolve _ _) as [gos [e|]]; [split; [reflexivity|discriminate]|].
  split; [reflexivity|]. intros r printed [= <- <-]. split.
  - rewrite !in_app_iff. left. left. right. by left.
  - eexists. split; [reflexivity|]. rewrite !length_app. cbn [length]. lia.
Qed.



End CliPass.

Lemma cli_parse_warns_on_unloadable_block_witness :
  exists r printed,
    PrefabCli.parse_unity_prefab Extra.sample_load Extra.filing_handler_cli
      Extra.filing_handler_cli Extra.filing_handler_cli Extra.filing_handler_cli
      (fun _ gos => (gos, None)) "Rock.prefab" Extra.blocks_with_bad_yaml
    = Ok (r, printed) /\
    In "Warning: Failed to parse document 200: while parsing a flow sequence"
      printed.
Proof.
  destruct (PrefabCli.parse_unity_prefab Extra.sample_load
              Extra.filing_handler_cli Extra.filing_handler_cli
              Extra.filing_handler_cli Extra.filing_handler_cli
              (fun _ gos => (gos, None)) "Rock.prefab" Extra.blocks_with_bad_yaml)
    as [[r printed]|e] eqn:Hrun; [|vm_compute in Hrun; discriminate].
  exists r, printed. split; [reflexivity|].
  apply (proj2 (cli_parse_warns_on_unloadable_block Extra.sample_load
                  Extra.filing_handler_cli Extra.filing_handler_cli
                  Extra.filing_handler_cli Extra.filing_handler_cli
                  (fun _ gos => (gos, None)) "Rock.prefab"
                  [("100", "GameObject: {m_Name: Root}")] ("200", "m_Name: [")
                  [("300", "GameObject: {m_Name: Root}")]
                  "while parsing a flow sequence" eq_refl) r printed Hrun).
Defined.


End ParseFacts.

(* ===================================================================== *)
(** * Round trip of the axis remap; soundness of the GUID index *)
(* ===================================================================== *)

(** Converting twice gives the transform back.  The axis remap of
    [_convert_to_o3de_coordinates] is its own inverse on position,
    rotation and scale. *)
Theorem convert_twice_is_identity (t : Transform) :
  fst (_convert_to_o3de_coordinates (fst (_convert_to_o3de_coordinates t))) = t.
Proof.
  destruct t as [[[px py] pz] [[[qx qy] qz] qw] [[sx sy] sz]].
  unfold _convert_to_o3de_coordinates. cbn [position rotation scale fst].
  assert (Hneg : forall a, Float.neg (Float.neg a) = a).
  { intros [sg|sg| |sg m e]; cbn; by rewrite ?negb_involutive. }
  by rewrite !Hneg.
Qed.

Module IndexSoundness.
Import Integrated.

Lemma take_hex_all_hex s : forallb Py.is_hex (list_ascii_of_string (take_hex s)) = true.
Proof.
  induction s as [|c s IH]; cbn; [reflexivity|].
  destruct (Py.is_hex c) eqn:Hc; cbn; [by rewrite Hc|reflexivity].
Qed.

Lemma startswith_substring p s : Py.startswith p s = true -> Yaml.substring_of p s = true.
Proof. intros H. destruct s; cbn; by rewrite H. Qed.

(** The token found by the GUID pattern.  When the search finds a GUID,
    it is a non-empty run of the characters [0-9a-f] and the text
    contains ["guid:"]; a text without ["guid:"] yields no GUID. *)
Theorem guid_search_token (content : string) :
  (forall g, guid_search content = Some g ->
     g <> "" /\ forallb Py.is_hex (list_ascii_of_string g) = true /\
     Yaml.substring_of "guid:" content = true) /\
  (Yaml.substring_of "guid:" content = false -> guid_search content = None).
Proof.
  induction content as [|c rest [IH1 IH2]].
  - split; [discriminate|reflexivity].
  - split.
    + intros g. cbn [guid_search].
      destruct (Py.startswith "guid:" (String c rest)) eqn:Hst.
      * destruct (String.eqb_spec
                    (take_hex (Py.skip_spaces (Path.drop_chars 5 (String c rest)))) "")
          as [He|Hne].
        -- intros Hg. destruct (IH1 g Hg) as (? & ? & ?). repeat split; try done.
           by apply startswith_substring.
        -- intros [= <-]. split; [done|]. split; [apply take_hex_all_hex|].
           by apply startswith_substring.
      * cbn [String.eqb]. intros Hg. destruct (IH1 g Hg) as (? & ? & Hsub).
        repeat split; try done.
        change (Yaml.substring_of "guid:" (String c rest))
          with (Py.startswith "guid:" (String c rest) || Yaml.substring_of "guid:" rest).
        by rewrite Hsub, orb_true_r.
    + change (Yaml.substring_of "guid:" (String c rest))
        with (Py.startswith "guid:" (String c rest) || Yaml.substring_of "guid:" rest).
      intros [Hst Hsub]%orb_false_elim. cbn [guid_search]. rewrite Hst.
      cbn [String.eqb]. by apply IH2.
Qed.

Lemma guid_search_token_witness :
  guid_search "fileFormatVersion: 2
guid: 0a1b2c3dzz" = Some "0a1b2c3d" /\
  "0a1b2c3d" <> "" /\
  guid_search "no identifier here" = None.
Proof.
  split; [reflexivity|]. split.
  - apply (proj1 (guid_search_token "fileFormatVersion: 2
guid: 0a1b2c3dzz") "0a1b2c3d" eq_refl).
  - apply (proj2 (guid_search_token "no identifier here") eq_refl).
Defined.

Lemma last_declared_In fs guid scan asset :
  Spec.last_declared fs guid scan = Some asset ->
  exists m, In m scan /\ Spec.declared_asset fs guid m = Some asset.
Proof.
  induction scan as [|m rest IH]; cbn; [discriminate|].
  destruct (Spec.last_declared fs guid rest) as [a|].
  - intros [= ->]. destruct (IH eq_refl) as (m' & ? & ?). eauto.
  - intros H. eauto.
Qed.

(** Every indexed path is real.  A path returned by [resolve_guid] on the
    built index is the path of some scanned sidecar file with its last
    five characters ([.meta]) removed, exists on disk, and that sidecar's
    text yields the GUID asked for. *)
Theorem resolve_guid_sound (fs : FileSystem) (guid : string) (asset : Path.t) :
  resolve_guid (_build_guid_index fs) guid = Some asset ->
  exists meta_file content,
    In meta_file (rglob_meta fs) /\
    asset = Path.drop_last 5 meta_file /\
    exists_file fs asset = true /\
    read_text fs meta_file = Some content /\
    guid_search content = Some guid.
Proof.
  unfold resolve_guid, _build_guid_index. rewrite IndexFacts.fold_index_lookup.
  destruct (Spec.last_declared fs guid (rglob_meta fs)) as [a|] eqn:Hlast;
    [|by rewrite lookup_empty].
  intros [= ->]. apply last_declared_In in Hlast as (m & Hin & Hdecl).
  unfold Spec.declared_asset in Hdecl.
  destruct (read_text fs m) as [content|] eqn:Hread; [|discriminate].
  destruct (guid_search content) as [g|] eqn:Hg; [|discriminate].
  destruct (String.eqb_spec g guid) as [->|]; [|discriminate].
  destruct (exists_file fs (Path.drop_last 5 m)) eqn:Hex; [|discriminate].
  injection Hdecl as <-. exists m, content. by repeat split.
Qed.

Lemma resolve_guid_sound_witness :
  exists meta_file content,
    In meta_file (rglob_meta Samples.two_sidecars) /\
    "Assets/b/Rock.fbx" = Path.drop_last 5 meta_file /\
    exists_file Samples.two_sidecars "Assets/b/Rock.fbx" = true /\
    read_text Samples.two_sidecars meta_file = Some content /\
    guid_search content = Some "0123456789abcdef0123456789abcdef".
Proof.
  apply (resolve_guid_sound Samples.two_sidecars
           "0123456789abcdef0123456789abcdef" "Assets/b/Rock.fbx").
  vm_compute. reflexivity.
Defined.

Lemma index_meta_file_unusable fs idx m :
  Extra.unusable fs m -> index_meta_file fs idx m = idx.
Proof.
  unfold Extra.unusable, index_meta_file.
  intros [Hr|[(c & Hr & Hg)|Hex]].
  - by rewrite Hr.
  - by rewrite Hr, Hg.
  - destruct (read_text fs m); [|done]. destruct (guid_search _); [|done].
    by rewrite Hex.
Qed.

(** Unusable sidecar files are skipped.  A sidecar file that cannot be
    read, holds no GUID, or has no asset beside it leaves the index as if
    it were not part of the scan. *)
Theorem build_guid_index_skips_unusable fs pre m post :
  rglob_meta fs = pre ++ m :: post ->
  Extra.unusable fs m ->
  _build_guid_index fs
  = _build_guid_index (mkFileSystem (pre ++ post) (read_text fs) (exists_file fs)).
Proof.
  intros Hscan Hm.
  assert (Hext : forall l scan idx,
            fold_left (index_meta_file (mkFileSystem l (read_text fs) (exists_file fs)))
              scan idx
            = fold_left (index_meta_file fs) scan idx).
  { intros l scan. induction scan as [|x scan IH]; intros idx; [reflexivity|].
    cbn [fold_left]. rewrite IH. reflexivity. }
  unfold _build_guid_index. rewrite Hscan. cbn [rglob_meta]. rewrite Hext.
  rewrite !fold_left_app. cbn [fold_left].
  by rewrite (index_meta_file_unusable fs _ m Hm).
Qed.

Lemma build_guid_index_skips_unusable_witness :
  _build_guid_index Extra.one_unreadable
  = _build_guid_index
      (mkFileSystem ["a/Rock.fbx.meta"; "c/Bush.fbx.meta"]
         (read_text Extra.one_unreadable) (exists_file Extra.one_unreadable)).
Proof.
  apply (build_guid_index_skips_unusable Extra.one_unreadable
           ["a/Rock.fbx.meta"] "b/Tree.fbx.meta" ["c/Bush.fbx.meta"]).
  - reflexivity.
  - left. reflexivity.
Defined.

End IndexSoundness.

(* ===================================================================== *)
(** * Prefab lookup by name *)
(* ===================================================================== *)

Module NameFacts.
Import SceneGui.

Lemma paren_number_other_char c r :
  Ascii.eqb c "("%char = false -> paren_number_at_end (String c r) = None.
Proof.
  destruct c as [[] [] [] [] [] [] [] []]; intros H; try reflexivity; discriminate.
Qed.

Lemma append_cons c (a b : string) : String c a +:+ b = String c (a +:+ b).
Proof. reflexivity. Qed.

Lemma append_nil (b : string) : "" +:+ b = b.
Proof. reflexivity. Qed.

Lemma skip_digits_number digits rest :
  forallb Py.is_digit (list_ascii_of_string digits) = true ->
  Py.skip_digits (digits +:+ String ")" rest) = String ")" rest.
Proof.
  induction digits as [|d digits IH]; [reflexivity|].
  cbn [list_ascii_of_string forallb]. intros [Hd H]%andb_prop.
  change (String d digits +:+ String ")" rest)
    with (String d (digits +:+ String ")" rest)).
  cbn [Py.skip_digits]. rewrite Hd. by apply IH.
Qed.

Lemma paren_number_match digits :
  Extra.is_number digits = true ->
  paren_number_at_end (String "(" (digits +:+ ")")) = Some "".
Proof.
  unfold Extra.is_number. intros [Hne Hd]%andb_prop.
  destruct digits as [|d digits]; [discriminate|].
  cbn [list_ascii_of_string forallb] in Hd. apply andb_prop in Hd as [Hd0 Hd].
  rewrite append_cons. unfold paren_number_at_end. rewrite Hd0.
  rewrite <- append_cons.
  rewrite (skip_digits_number (String d digits) "").
  - reflexivity.
  - cbn. by rewrite Hd0.
Qed.

Lemma no_match_inside r tail :
  Extra.has_char "(" r = false -> Extra.ends_with_space r = false -> r <> "" ->
  paren_number_at_end (Py.skip_spaces (r +:+ tail)) = None.
Proof.
  induction r as [|c r IH]; [done|]. intros Hp He _.
  cbn [Extra.has_char] in Hp. apply orb_false_elim in Hp as [Hc Hp].
  rewrite append_cons. cbn [Py.skip_spaces].
  destruct (Py.is_space c) eqn:Hsp.
  - destruct r as [|c' r']; [cbn in He; congruence|].
    apply IH; [done| |done]. exact He.
  - by apply paren_number_other_char.
Qed.

(** The pattern only fires on a parenthesis. *)
Lemma strip_without_paren name :
  Extra.has_char "(" name = false -> strip_duplicate_suffix name = name.
Proof.
  induction name as [|c name IH]; [reflexivity|]. intros Hp.
  assert (Hnone : forall s, Extra.has_char "(" s = false ->
            paren_number_at_end (Py.skip_spaces s) = None).
  { clear. induction s as [|x s IHs]; [reflexivity|]. cbn [Extra.has_char Py.skip_spaces].
    intros [Hx Hs]%orb_false_elim. destruct (Py.is_space x); [by apply IHs|].
    by apply paren_number_other_char. }
  cbn [strip_duplicate_suffix]. rewrite (Hnone _ Hp).
  cbn [Extra.has_char] in Hp. apply orb_false_elim in Hp as [_ Hp].
  by rewrite IH.
Qed.

Lemma strip_numbered base digits :
  Extra.has_char "(" base = false -> Extra.ends_with_space base = false ->
  Extra.is_number digits = true ->
  strip_duplicate_suffix (base +:+ " (" +:+ digits +:+ ")") = base.
Proof.
  intros Hp He Hd. induction base as [|c base IH].
  - rewrite append_nil.
    change (" (" +:+ digits +:+ ")") with (String " " (String "(" (digits +:+ ")"))).
    cbn [strip_duplicate_suffix Py.skip_spaces].
    change (Py.is_space " ") with true. cbn iota.
    change (Py.is_space "(") with false. cbn iota.
    by rewrite paren_number_match.
  - rewrite append_cons. cbn [strip_duplicate_suffix]. rewrite <- append_cons.
    rewrite no_match_inside by done.
    f_equal.
    cbn [Extra.has_char] in Hp. apply orb_false_elim in Hp as [_ Hp].
    apply IH; [done|]. destruct base; [reflexivity|exact He].
Qed.

Lemma has_space_app a b : has_space (a +:+ " " +:+ b) = true.
Proof.
  induction a as [|c a IH]; [reflexivity|].
  rewrite append_cons. cbn [has_space]. rewrite IH. apply orb_true_r.
Qed.

Lemma before_last_space_split a b :
  has_space b = false -> before_last_space (a +:+ " " +:+ b) = a.
Proof.
  intros Hb. induction a as [|c a IH].
  - rewrite append_nil. change (" " +:+ b) with (String " " b).
    cbn [before_last_space]. rewrite Hb. reflexivity.
  - rewrite append_cons. cbn [before_last_space].
    rewrite has_space_app, andb_false_r. by rewrite IH.
Qed.

(** Numbered duplicates fall back to the prefab.  A name ["{base} (N)"],
    where [base] holds no parenthesis and does not end in white space and
    [N] is a non-empty run of digits, that is not itself the name of a
    prefab resolves to whatever the index holds for [base]. *)
Theorem find_prefab_by_name_numbered_duplicate db base digits :
  Extra.has_char "(" base = false -> Extra.ends_with_space base = false ->
  Extra.is_number digits = true ->
  prefab_paths db !! (base +:+ " (" +:+ digits +:+ ")") = None ->
  forall p, prefab_paths db !! base = Some p ->
  find_prefab_by_name db (base +:+ " (" +:+ digits +:+ ")") = Some p.
Proof.
  intros Hp He Hd Hexact p Hbase. unfold find_prefab_by_name.
  by rewrite Hexact, strip_numbered, Hbase.
Qed.

Lemma find_prefab_by_name_numbered_duplicate_witness :
  find_prefab_by_name Extra.oak_database "Oak Tree (12)"
  = Some "Prefabs/Oak Tree.prefab".
Proof.
  apply (find_prefab_by_name_numbered_duplicate Extra.oak_database "Oak Tree" "12");
    reflexivity.
Defined.

(** A trailing word is dropped last.  For a name ["{head} {word}"] whose
    last word holds no space, when neither the name nor the name without
    a numbered suffix is a prefab, the result is exactly what the index
    holds for [head]. *)
Theorem find_prefab_by_name_trailing_word db head word :
  has_space word = false ->
  prefab_paths db !! (head +:+ " " +:+ word) = None ->
  prefab_paths db !! strip_duplicate_suffix (head +:+ " " +:+ word) = None ->
  find_prefab_by_name db (head +:+ " " +:+ word) = prefab_paths db !! head.
Proof.
  intros Hw Hexact Hclean. unfold find_prefab_by_name.
  rewrite Hexact, Hclean, before_last_space_split by done.
  by destruct (prefab_paths db !! head).
Qed.

Lemma find_prefab_by_name_trailing_word_witness :
  find_prefab_by_name Extra.oak_database "Oak Tree Variant"
  = Some "Prefabs/Oak Tree.prefab".
Proof.
  etransitivity.
  - apply (find_prefab_by_name_trailing_word Extra.oak_database "Oak Tree" "Variant");
      reflexivity.
  - reflexivity.
Defined.

(** A name without a space or parenthesis is looked up as it is.  Such a
    name is unchanged by both fallbacks, so the result is the exact
    lookup and nothing else. *)
Theorem find_prefab_by_name_plain db name :
  Extra.has_char "(" name = false -> has_space name = false ->
  find_prefab_by_name db name = prefab_paths db !! name.
Proof.
  intros Hp Hs. unfold find_prefab_by_name. rewrite strip_without_paren by done.
  assert (Hb : before_last_space name = name).
  { clear Hp. induction name as [|c name IH]; [reflexivity|]. cbn in *.
    apply orb_false_elim in Hs as [Hc Hs]. rewrite Hc. cbn. by rewrite IH. }
  rewrite Hb. by destruct (prefab_paths db !! name).
Qed.

Lemma find_prefab_by_name_plain_witness :
  find_prefab_by_name Extra.oak_database "Boulder" = None.
Proof.
  etransitivity.
  - apply (find_prefab_by_name_plain Extra.oak_database "Boulder"); reflexivity.
  - reflexivity.
Defined.

End NameFacts.

(* ===================================================================== *)
(** * Scene hierarchy *)
(* ===================================================================== *)

Module SceneHierarchyFacts.
Import SceneGui.

Lemma scene_link_forward_fold_get f cs : forall d k,
  Py.od_get k (fold_left (link_forward f) cs d) =
  if Py.str_in k cs then set_parent_id (Some f) <$> Py.od_get k d
  else Py.od_get k d.
Proof.
  induction cs as [|c cs IH]; intros d k; [reflexivity|].
  cbn [fold_left]. rewrite IH.
  assert (Hstep : forall k', Py.od_get k' (link_forward f d c) =
            if String.eqb k' c then set_parent_id (Some f) <$> Py.od_get k' d
            else Py.od_get k' d).
  { intros k'. unfold link_forward, Py.od_mem.
    destruct (Py.od_get c d) eqn:Hc.
    - apply od_get_alter.
    - destruct (String.eqb_spec k' c) as [->|]; [by rewrite Hc|reflexivity]. }
  rewrite Hstep. unfold Py.str_in. cbn [existsb].
  destruct (String.eqb k c); cbn.
  - destruct (existsb (String.eqb k) cs); [|reflexivity].
    by destruct (Py.od_get k d).
  - reflexivity.
Qed.

(** One iteration of the linking loop, seen from any entry. *)
Lemma scene_link_step_get d f k :
  Py.od_get k (link_step d f) =
  if Extra.lists d k f then set_parent_id (Some f) <$> Py.od_get k d
  else Py.od_get k d.
Proof.
  unfold link_step, Extra.lists. destruct (Py.od_get f d) as [g|]; [|reflexivity].
  apply scene_link_forward_fold_get.
Qed.

Lemma scene_link_step_lists d f x q : Extra.lists (link_step d f) x q = Extra.lists d x q.
Proof.
  unfold Extra.lists. rewrite scene_link_step_get.
  destruct (Extra.lists d q f); [|reflexivity].
  by destruct (Py.od_get q d).
Qed.

Lemma scene_link_step_last_lister d f x keys :
  Extra.last_lister (link_step d f) x keys = Extra.last_lister d x keys.
Proof.
  induction keys as [|q keys IH]; [reflexivity|].
  cbn [Extra.last_lister]. by rewrite IH, scene_link_step_lists.
Qed.

Lemma scene_link_steps_get keys : forall d x,
  Py.od_get x (fold_left link_step keys d) =
  match Extra.last_lister d x keys with
  | Some q => set_parent_id (Some q) <$> Py.od_get x d
  | None => Py.od_get x d
  end.
Proof.
  induction keys as [|f keys IH]; intros d x; [reflexivity|].
  cbn [fold_left Extra.last_lister]. rewrite IH, scene_link_step_last_lister, scene_link_step_get.
  destruct (Extra.last_lister d x keys) as [q|].
  - destruct (Extra.lists d x f); [|reflexivity]. by destruct (Py.od_get x d).
  - by destruct (Extra.lists d x f).
Qed.

(** The children list decides the parent.  After [_build_hierarchy] of
    the scene converter, an object keeps the children resolved by the
    first loop, and its parent is the last table entry, in table order,
    whose resolved children list names it, whatever father its own
    Transform declared; only an object that no entry lists keeps its
    resolved father. *)
Theorem scene_build_hierarchy_last_lister_wins c x :
  Py.od_get x (game_objects (_build_hierarchy c)) =
  match Extra.last_lister (Extra.resolved_table c) x
          (Py.od_keys (Extra.resolved_table c)) with
  | Some q => set_parent_id (Some q) <$> Py.od_get x (Extra.resolved_table c)
  | None => Py.od_get x (Extra.resolved_table c)
  end.
Proof. unfold _build_hierarchy. cbn [game_objects set_game_objects]. apply scene_link_steps_get. Qed.

(** The declared father loses against a children list. *)
Lemma scene_build_hierarchy_contested_child :
  parent_id <$> Py.od_get "3" (Extra.resolved_table Extra.contested_child)
    = Some (Some "1") /\
  parent_id <$> Py.od_get "3" (game_objects (_build_hierarchy Extra.contested_child))
    = Some (Some "2").
Proof.
  split; vm_compute; reflexivity.
Qed.

End SceneHierarchyFacts.

(* ===================================================================== *)
(** * Prefab references of a scene *)
(* ===================================================================== *)

Module SceneReferenceFacts.
Import SceneGui.





Local Abbreviation instance_key n := ("prefab_instance_" +:+ pretty n) (only parsing).


Local Abbreviation body g := (set_children_ids [] g) (only parsing).






End SceneReferenceFacts.

(* ===================================================================== *)
(** * Entities of a level *)
(* ===================================================================== *)

(** The parent link survives the optional [Transform Data]. *)
Lemma transform_component_parent euler id parent t nn :
  jget "Parent Entity" (transform_component euler id parent t nn)
  = Some (JStr parent).
Proof.
  unfold transform_component.
  destruct (position t) as [[x y] z], (scale t) as [[s0 s1] s2].
  destruct (_ || _ || _); reflexivity.
Qed.

Module SceneEntityFacts.
Import SceneGui.

#[local] Arguments randint : simpl never.
#[local] Arguments pretty : simpl never.
#[local] Arguments transform_component : simpl never.

Ltac run_g := repeat (progress (unfold mbind, G_bind, mret, G_ret; cbn)).

Section Level.

Variable oracle : nat -> Z.
Variable _convert_to_assets_path : Path.t -> string.
Variable _quaternion_to_euler :
  Float.t * Float.t * Float.t * Float.t -> list Float.t.

Local Abbreviation create :=
  (_create_entity_recursive oracle _convert_to_assets_path _quaternion_to_euler)
  (only parsing).
Local Abbreviation begin := (begin_entity oracle _quaternion_to_euler) (only parsing).

Lemma create_unfold fuel go gos out parent c :
  create (S fuel) go gos out parent c =
  match prefab_references c !! file_id go with
  | Some prefab_path =>
      Some (emit_instance _convert_to_assets_path go prefab_path parent out c)
  | None =>
      let '(entity_id, entity, out, c) := begin go out parent c in
      match Extra.scene_children_loop
              (fun child out c => create fuel child gos out entity_id c)
              gos (children_ids go) [] out c with
      | Some (child_order, out, c) =>
          Some (finish_entity oracle entity_id entity child_order out c)
      | None => None
      end
  end.
Proof. reflexivity. Qed.

Lemma begin_entity_spec go out parent c :
  exists e out1 c1,
    begin go out parent c
      = ("Entity_[" +:+ pretty (entity_counter c + 1) +:+ "]", e, out1, c1) /\
    ent_id e = "Entity_[" +:+ pretty (entity_counter c + 1) +:+ "]" /\
    ent_name e = name go /\
    Spec.parent_link e = Some (JStr parent) /\
    prefab_references c1 = prefab_references c.
Proof.
  unfold begin_entity.
  destruct (_convert_to_o3de_coordinates (transform go)) as [t nn].
  destruct nn; run_g;
    (do 3 eexists; split; [reflexivity|]; split; [reflexivity|];
     split; [reflexivity|]; split; [|reflexivity];
     unfold Spec.parent_link; cbn; apply transform_component_parent).
Qed.

Lemma finish_entity_spec id e order out c :
  exists e' out' c',
    finish_entity oracle id e order out c = (id, out', c') /\
    Py.od_get id (entities out') = Some e' /\
    ent_id e' = ent_id e /\ ent_name e' = ent_name e /\
    Py.od_get "TransformComponent" (ent_components e')
      = Py.od_get "TransformComponent" (ent_components e) /\
    prefab_references c' = prefab_references c.
Proof.
  unfold finish_entity.
  destruct order as [|o order]; run_g;
    do 3 eexists; (split; [reflexivity|]); cbn [entities];
    rewrite od_get_set_eq; (split; [reflexivity|]);
    (split; [reflexivity|]); (split; [reflexivity|]); (split; [|reflexivity]);
    cbn [ent_components]; [reflexivity|].
  by rewrite od_get_set_ne.
Qed.

Lemma scene_created_entity fuel go gos out parent c id out' c' :
  prefab_references c !! file_id go = None ->
  create fuel go gos out parent c = Some (id, out', c') ->
  id = "Entity_[" +:+ pretty (entity_counter c + 1) +:+ "]" /\
  exists e, Py.od_get id (entities out') = Some e /\
            ent_id e = id /\ ent_name e = name go /\
            Spec.parent_link e = Some (JStr parent).
Proof.
  intros Href. destruct fuel as [|fuel]; [discriminate|].
  rewrite create_unfold, Href.
  destruct (begin_entity_spec go out parent c)
    as (e & out1 & c1 & -> & Hid & Hname & Hlink & _).
  cbn beta iota zeta.
  destruct (Extra.scene_children_loop _ _ _ _ _ _) as [[[order out2] c2]|];
    [|discriminate].
  destruct (finish_entity_spec ("Entity_[" +:+ pretty (entity_counter c + 1) +:+ "]")
              e order out2 c2)
    as (e' & out3 & c3 & -> & Hget & Hid' & Hname' & Htc & _).
  intros [= <- <- <-]. split; [reflexivity|].
  exists e'. split; [exact Hget|]. split; [congruence|]. split; [congruence|].
  unfold Spec.parent_link in *. by rewrite Htc.
Qed.

(** An object that is not a prefab reference is stored as an entity.
    When [_create_entity_recursive] returns for an object without a prefab
    reference, the value returned is the id drawn from the entity counter,
    the entities hold under that id an entity with that id and the
    object's name, and its transform component names the
    [parent_entity_id] that was passed as parent. *)
Theorem scene_entity_recorded fuel go gos out parent c id out' c' :
  prefab_references c !! file_id go = None ->
  create fuel go gos out parent c = Some (id, out', c') ->
  id = "Entity_[" +:+ pretty (entity_counter c + 1) +:+ "]" /\
  exists e, Py.od_get id (entities out') = Some e /\
            ent_id e = id /\ ent_name e = name go /\
            Spec.parent_link e = Some (JStr parent).
Proof. intros. eapply scene_created_entity; eassumption. Qed.

Lemma loop_returns rec gos ids :
  (forall child_id child, In child_id ids -> Py.od_get child_id gos = Some child ->
     forall out c, exists r, rec child out c = Some r) ->
  forall order out c, exists r, Extra.scene_children_loop rec gos ids order out c = Some r.
Proof.
  induction ids as [|i ids IH]; intros Hrec order out c; cbn [Extra.scene_children_loop].
  - eauto.
  - destruct (Py.od_get i gos) as [child|] eqn:Hc.
    + destruct (Hrec i child (or_introl eq_refl) Hc out c) as ([[r o] c'] & ->).
      apply IH. intros; eapply Hrec; [by right|done].
    + apply IH. intros; eapply Hrec; [by right|done].
Qed.

Lemma scene_create_returns n : forall go gos out parent c,
  Extra.scene_depth_ok n gos go = true ->
  exists r, create n go gos out parent c = Some r.
Proof.
  induction n as [|n IH]; intros go gos out parent c Hd; [discriminate|].
  rewrite create_unfold.
  destruct (prefab_references c !! file_id go); [eauto|].
  destruct (begin_entity_spec go out parent c) as (e & out1 & c1 & -> & _).
  cbn beta iota zeta.
  cbn [Extra.scene_depth_ok] in Hd. rewrite List.forallb_forall in Hd.
  match goal with
  | |- context [Extra.scene_children_loop ?rec ?g ?ids ?o ?ou ?cc] =>
      destruct (loop_returns rec g ids) with (order := o) (out := ou) (c := cc)
        as ([[order out2] c2] & ->)
  end.
  - intros i child Hin Hc out0 c0. apply IH. specialize (Hd i Hin). by rewrite Hc in Hd.
  - eauto.
Qed.

(** Hierarchies of finite depth are converted.  When every chain of child
    ids that starts at the object leaves the table within [n] steps, the
    recursion of [_create_entity_recursive] returns within depth [n]. *)
Theorem scene_entity_recursive_returns n : forall go gos out parent c,
  Extra.scene_depth_ok n gos go = true ->
  exists r, create n go gos out parent c = Some r.
Proof. intros. eapply scene_create_returns; eassumption. Qed.

Lemma emit_instance_references go path parent out c :
  prefab_references (snd (emit_instance _convert_to_assets_path go path parent out c))
  = prefab_references c.
Proof. reflexivity. Qed.

Lemma create_keeps_references fuel : forall go gos out parent c r,
  create fuel go gos out parent c = Some r ->
  prefab_references (snd r) = prefab_references c.
Proof.
  induction fuel as [|fuel IH]; intros go gos out parent c r; [discriminate|].
  rewrite create_unfold.
  destruct (prefab_references c !! file_id go) as [path|].
  { intros [= <-]. reflexivity. }
  destruct (begin_entity_spec go out parent c) as (e & out1 & c1 & -> & _ & _ & _ & Hc1).
  cbn beta iota zeta.
  match goal with
  | |- context [Extra.scene_children_loop ?rec ?g _ _ _ _] =>
      assert (Hloop : forall ids order out c r,
                Extra.scene_children_loop rec g ids order out c = Some r ->
                prefab_references (snd r) = prefab_references c)
  end.
  { clear -IH. induction ids as [|i ids IHl]; intros order o0 c0 r;
      cbn [Extra.scene_children_loop].
    - by intros [= <-].
    - destruct (Py.od_get i gos) as [child|]; [|apply IHl].
      destruct (create fuel child gos o0 _ c0) as [[[cid o] c']|] eqn:Hrun; [|discriminate].
      intros Hr. apply IHl in Hr. rewrite Hr. apply (IH _ _ _ _ _ _ Hrun). }
  match goal with
  | |- context [Extra.scene_children_loop ?rec ?g ?ids ?o ?ou ?cc] =>
      destruct (Extra.scene_children_loop rec g ids o ou cc)
        as [[[order out2] c2]|] eqn:Hrun; [|discriminate]
  end.
  apply Hloop in Hrun. cbn [snd] in Hrun.
  destruct (finish_entity_spec ("Entity_[" +:+ pretty (entity_counter c + 1) +:+ "]")
              e order out2 c2)
    as (e' & out3 & c3 & -> & _ & _ & _ & _ & Hc3).
  intros [= <-]. cbn [snd]. congruence.
Qed.

Lemma loop_never_returns rec gos k go ids :
  In k ids -> Py.od_get k gos = Some go ->
  (forall child out c r, rec child out c = Some r ->
     prefab_references (snd r) = prefab_references c) ->
  (forall out c, prefab_references c !! file_id go = None -> rec go out c = None) ->
  forall order out c, prefab_references c !! file_id go = None ->
    Extra.scene_children_loop rec gos ids order out c = None.
Proof.
  intros Hin Hk Hkeep Hnone.
  induction ids as [|i ids IH]; [done|]. intros order out c Href.
  cbn [Extra.scene_children_loop].
  destruct (String.eqb_spec i k) as [->|Hne].
  - rewrite Hk, Hnone by done. reflexivity.
  - destruct Hin as [?|Hin]; [done|].
    destruct (Py.od_get i gos) as [child|]; [|by apply IH].
    destruct (rec child out c) as [[[cid o] c']|] eqn:Hrun; [|done].
    apply IH; [done|]. apply Hkeep in Hrun. cbn [snd] in Hrun. by rewrite Hrun.
Qed.

(** No guard against cycles.  For an object without a prefab reference
    that is stored in the table under a key it lists among its own
    children, the recursion of [_create_entity_recursive] does not return
    at any depth. *)
Theorem scene_self_listing_never_returns fuel : forall go gos k out parent c,
  prefab_references c !! file_id go = None ->
  Py.od_get k gos = Some go -> In k (children_ids go) ->
  create fuel go gos out parent c = None.
Proof.
  induction fuel as [|fuel IH]; intros go gos k out parent c Href Hk Hin; [done|].
  rewrite create_unfold, Href.
  destruct (begin_entity_spec go out parent c) as (e & out1 & c1 & -> & _ & _ & _ & Hc1).
  cbn beta iota zeta.
  rewrite (loop_never_returns _ gos k go (children_ids go)); try done.
  - intros child o c0 r. apply create_keeps_references.
  - intros o c0 Hr. by apply (IH go gos k).
  - by rewrite Hc1.
Qed.

End Level.

Lemma scene_entity_recorded_witness :
  exists out' c' e,
    _create_entity_recursive (fun _ => 0) (fun p => p) Extra.no_rotation 2
      (Extra.scene_object "1" "Father" None ["2"; "9"])
      (game_objects Extra.family_scene) Output_empty "Entity_[1000000]"
      Extra.family_scene = Some ("Entity_[1000001]", out', c') /\
    Py.od_get "Entity_[1000001]" (entities out') = Some e /\
    ent_name e = "Father" /\
    Spec.parent_link e = Some (JStr "Entity_[1000000]").
Proof.
  destruct (_create_entity_recursive (fun _ => 0) (fun p => p) Extra.no_rotation 2
      (Extra.scene_object "1" "Father" None ["2"; "9"])
      (game_objects Extra.family_scene) Output_empty "Entity_[1000000]"
      Extra.family_scene) as [[[id out'] c']|] eqn:Hrun; [|vm_compute in Hrun; discriminate].
  destruct (scene_entity_recorded (fun _ => 0) (fun p => p) Extra.no_rotation 2
              (Extra.scene_object "1" "Father" None ["2"; "9"])
              (game_objects Extra.family_scene) Output_empty "Entity_[1000000]"
              Extra.family_scene id out' c' eq_refl Hrun)
    as (Hid & e & Hget & _ & Hname & Hlink).
  exists out', c', e.
  assert (Hid' : id = "Entity_[1000001]") by (rewrite Hid; vm_compute; reflexivity).
  rewrite <- Hid'. repeat split; assumption.
Defined.

Lemma scene_entity_recursive_returns_witness :
  exists r,
    _create_entity_recursive (fun _ => 0) (fun p => p) Extra.no_rotation 2
      (Extra.scene_object "1" "Father" None ["2"; "9"])
      (game_objects Extra.family_scene) Output_empty "Entity_[1000000]"
      Extra.family_scene = Some r.
Proof.
  apply (scene_entity_recursive_returns (fun _ => 0) (fun p => p) Extra.no_rotation 2).
  reflexivity.
Defined.

Lemma scene_self_listing_never_returns_witness :
  _create_entity_recursive (fun _ => 0) (fun p => p) Extra.no_rotation 50
    (Extra.scene_object "1" "Loop" None ["1"])
    (game_objects Extra.self_listing_scene) Output_empty "Entity_[1000000]"
    Extra.self_listing_scene = None.
Proof.
  apply (scene_self_listing_never_returns (fun _ => 0) (fun p => p) Extra.no_rotation
           50 _ _ "1"); [reflexivity|reflexivity|by left].
Defined.

End SceneEntityFacts.

(* ===================================================================== *)
(** * Entities of a prefab *)
(* ===================================================================== *)

Module EntityFacts.
Import Integrated.

#[local] Arguments randint : simpl never.
#[local] Arguments pretty : simpl never.
#[local] Arguments transform_component : simpl never.
#[local] Arguments _create_physx_components : simpl never.
#[local] Arguments materials_config : simpl never.

Ltac run_p := repeat (progress (unfold mbind, M_bind, mret, M_ret; cbn)).

Section Conversion.

Variable oracle : nat -> Z.
Variable project_name : string.
Variable guid_to_path : gmap string Path.t.
Variable _quaternion_to_euler :
  Float.t * Float.t * Float.t * Float.t -> list Float.t.

Local Abbreviation create :=
  (_create_entity_recursive oracle project_name guid_to_path _quaternion_to_euler)
  (only parsing).
Local Abbreviation begin := (begin_entity oracle _quaternion_to_euler) (only parsing).

Lemma prefab_create_unfold fuel go gos out mm msh parent p :
  create (S fuel) go gos out mm msh parent p =
  match try_instance project_name guid_to_path go out parent p with
  | (Some (ref, out), p) => Some (ref, out, p)
  | (None, p) =>
      let '(entity_id, entity, collider_child_ids, out, p) :=
        begin go out mm msh parent p in
      match Extra.children_loop
              (fun child out p => create fuel child gos out mm msh (Some entity_id) p)
              gos (children_ids go) [] out p with
      | Some (child_order, out, p) =>
          let '(r, out, p) :=
            finish_entity oracle entity_id entity
              (child_order ++ collider_child_ids) out p in
          Some (r, out, p)
      | None => None
      end
  end.
Proof. reflexivity. Qed.

Lemma try_instance_plain go out parent p :
  is_prefab_instance go = false ->
  try_instance project_name guid_to_path go out parent p = (None, p).
Proof. unfold try_instance. by intros ->. Qed.

(** [_create_physx_components] keeps the entity's id, name and transform
    component. *)
Lemma physx_frame go entity msh ed p :
  exists ids comps ed' p',
    _create_physx_components oracle go entity msh ed p
      = (ids, mkEntity (ent_id entity) (ent_name entity) comps, ed', p') /\
    Py.od_get "TransformComponent" comps
      = Py.od_get "TransformComponent" (ent_components entity).
Proof.
  destruct (colliders go) as [|c0 cs] eqn:Hcs.
  - unfold _create_physx_components. rewrite Hcs.
    destruct (has_rigidbody go); run_p.
    + do 4 eexists. split; [reflexivity|]. by rewrite od_get_set_ne.
    + destruct entity. do 4 eexists. split; reflexivity.
  - destruct (PhysxFacts.physx_with_colliders oracle go entity msh ed p c0 cs Hcs)
      as (comps1 & comps2 & ed' & p1 & p' & Hadd & -> & (body & ->) & _).
    do 4 eexists. split; [reflexivity|].
    pose proof (PhysxFacts.add_collider_facts oracle (ent_components entity) c0 msh go p)
      as Hf. cbn zeta in Hf. rewrite Hadd in Hf. cbn [fst snd] in Hf.
    destruct Hf as (_ & _ & _ & _ & _ & _ & <-).
    rewrite od_get_set_ne; [done|]. by destruct (has_rigidbody go).
Qed.

Lemma prefab_begin_entity_spec go out mm msh par p :
  exists e ids out1 p1,
    begin go out mm msh (Some par) p
      = (entity_id_of (entity_id_counter p + 1), e, ids, out1, p1) /\
    ent_id e = entity_id_of (entity_id_counter p + 1) /\
    ent_name e = name go /\
    Spec.parent_link e = Some (JStr par).
Proof.
  unfold begin_entity.
  destruct (_convert_to_o3de_coordinates (transform go)) as [t nn].
  destruct (if Py.truthy (mesh_guid go) then msh !! default "" (mesh_guid go) else None)
    as [mesh_path|]; [destruct (String.eqb mesh_path "")|];
    (destruct (materials_config mm 0 (material_guids go) []) as [|m0 ml];
     destruct nn; run_p;
     match goal with
     | |- context [_create_physx_components oracle go ?e msh ?ed ?pp] =>
         destruct (physx_frame go e msh ed pp) as (ids & comps & ed' & p' & -> & Htc)
     end;
     cbn [ent_id ent_name ent_components] in *;
     do 4 eexists; (split; [reflexivity|]); (split; [reflexivity|]);
     (split; [reflexivity|]);
     unfold Spec.parent_link; cbn [ent_components]; rewrite Htc; cbn;
     apply transform_component_parent).
Qed.

Lemma prefab_finish_entity_spec id e order out p :
  exists e' out' p',
    finish_entity oracle id e order out p = (id, out', p') /\
    Py.od_get id (entities out') = Some e' /\
    ent_id e' = ent_id e /\ ent_name e' = ent_name e /\
    Py.od_get "TransformComponent" (ent_components e')
      = Py.od_get "TransformComponent" (ent_components e).
Proof.
  unfold finish_entity.
  destruct order as [|o order]; run_p;
    do 3 eexists; (split; [reflexivity|]); cbn [entities];
    rewrite od_get_set_eq; (split; [reflexivity|]);
    (split; [reflexivity|]); (split; [reflexivity|]);
    cbn [ent_components]; [reflexivity|].
  by rewrite od_get_set_ne.
Qed.

Lemma prefab_created_entity fuel go gos out mm msh par p id out' p' :
  is_prefab_instance go = false ->
  create fuel go gos out mm msh (Some par) p = Some (id, out', p') ->
  id = entity_id_of (entity_id_counter p + 1) /\
  exists e, Py.od_get id (entities out') = Some e /\
            ent_id e = id /\ ent_name e = name go /\
            Spec.parent_link e = Some (JStr par).
Proof.
  intros Hplain. destruct fuel as [|fuel]; [discriminate|].
  rewrite prefab_create_unfold, try_instance_plain by done.
  destruct (prefab_begin_entity_spec go out mm msh par p)
    as (e & ids & out1 & p1 & -> & Hid & Hname & Hlink).
  cbn beta iota zeta.
  destruct (Extra.children_loop _ _ _ _ _ _) as [[[order out2] p2]|];
    [|discriminate].
  destruct (prefab_finish_entity_spec (entity_id_of (entity_id_counter p + 1))
              e (order ++ ids) out2 p2)
    as (e' & out3 & p3 & -> & Hget & Hid' & Hname' & Htc).
  intros [= <- <- <-]. split; [reflexivity|].
  exists e'. split; [exact Hget|]. split; [congruence|]. split; [congruence|].
  unfold Spec.parent_link in *. by rewrite Htc.
Qed.

(** A GameObject that is no prefab instance is stored as an entity.  When
    [_create_entity_recursive] returns for such an object and a given
    parent entity, the value returned is the id drawn from the entity
    counter, the entities hold under that id an entity with that id and
    the object's name, and its transform component names the given parent,
    also after the PhysX components were added. *)
Theorem entity_recorded fuel go gos out mm msh par p id out' p' :
  is_prefab_instance go = false ->
  create fuel go gos out mm msh (Some par) p = Some (id, out', p') ->
  id = entity_id_of (entity_id_counter p + 1) /\
  exists e, Py.od_get id (entities out') = Some e /\
            ent_id e = id /\ ent_name e = name go /\
            Spec.parent_link e = Some (JStr par).
Proof. intros. eapply prefab_created_entity; eassumption. Qed.

Lemma begin_entity_runs go out mm msh parent p :
  exists id e ids out1 p1, begin go out mm msh parent p = (id, e, ids, out1, p1).
Proof.
  destruct (begin go out mm msh parent p) as [[[[id e] ids] out1] p1]. by do 5 eexists.
Qed.

Lemma prefab_loop_returns rec gos ids :
  (forall child_id child, In child_id ids -> Py.od_get child_id gos = Some child ->
     forall out p, exists r, rec child out p = Some r) ->
  forall order out p, exists r, Extra.children_loop rec gos ids order out p = Some r.
Proof.
  induction ids as [|i ids IH]; intros Hrec order out p; cbn [Extra.children_loop].
  - eauto.
  - destruct (Py.od_get i gos) as [child|] eqn:Hc.
    + destruct (Hrec i child (or_introl eq_refl) Hc out p) as ([[r o] p'] & ->).
      apply IH. intros; eapply Hrec; [by right|done].
    + apply IH. intros; eapply Hrec; [by right|done].
Qed.

Lemma prefab_create_returns n : forall go gos out mm msh parent p,
  Extra.depth_ok n gos go = true ->
  exists r, create n go gos out mm msh parent p = Some r.
Proof.
  induction n as [|n IH]; intros go gos out mm msh parent p Hd; [discriminate|].
  rewrite prefab_create_unfold.
  destruct (try_instance project_name guid_to_path go out parent p)
    as [[[ref out0]|] p0]; [eauto|].
  destruct (begin_entity_runs go out mm msh parent p0)
    as (id & e & ids & out1 & p1 & ->).
  cbn beta iota zeta.
  cbn [Extra.depth_ok] in Hd. rewrite List.forallb_forall in Hd.
  match goal with
  | |- context [Extra.children_loop ?rec ?g ?l ?o ?ou ?pp] =>
      destruct (prefab_loop_returns rec g l) with (order := o) (out := ou) (p := pp)
        as ([[order out2] p2] & ->)
  end.
  - intros i child Hin Hc o1 q1. apply IH. specialize (Hd i Hin). by rewrite Hc in Hd.
  - destruct (finish_entity oracle id e (order ++ ids) out2 p2) as [[r o3] p3]. eauto.
Qed.

(** Hierarchies of finite depth are converted.  When every chain of child
    ids that starts at the object leaves the table within [n] steps, the
    recursion of [_create_entity_recursive] returns within depth [n]. *)
Theorem entity_recursive_returns n : forall go gos out mm msh parent p,
  Extra.depth_ok n gos go = true ->
  exists r, create n go gos out mm msh parent p = Some r.
Proof. intros. eapply prefab_create_returns; eassumption. Qed.

Lemma prefab_loop_never_returns rec gos k go ids :
  In k ids -> Py.od_get k gos = Some go ->
  (forall out p, rec go out p = None) ->
  forall order out p, Extra.children_loop rec gos ids order out p = None.
Proof.
  intros Hin Hk Hnone.
  induction ids as [|i ids IH]; [done|]. intros order out p.
  cbn [Extra.children_loop].
  destruct (String.eqb_spec i k) as [->|Hne].
  - by rewrite Hk, Hnone.
  - destruct Hin as [?|Hin]; [done|].
    destruct (Py.od_get i gos) as [child|]; [|by apply IH].
    destruct (rec child out p) as [[[cid o] p']|]; [|done].
    by apply IH.
Qed.

(** No guard against cycles.  For a GameObject that is no prefab instance
    and is stored in the table under a key it lists among its own
    children, the recursion of [_create_entity_recursive] does not return
    at any depth. *)
Theorem self_listing_never_returns fuel : forall go gos k out mm msh parent p,
  is_prefab_instance go = false ->
  Py.od_get k gos = Some go -> In k (children_ids go) ->
  create fuel go gos out mm msh parent p = None.
Proof.
  induction fuel as [|fuel IH]; intros go gos k out mm msh parent p Hplain Hk Hin;
    [done|].
  rewrite prefab_create_unfold, try_instance_plain by done.
  destruct (begin_entity_runs go out mm msh parent p)
    as (id & e & ids & out1 & p1 & ->).
  cbn beta iota zeta.
  rewrite (prefab_loop_never_returns _ gos k go (children_ids go)); try done.
  intros o q. by apply (IH go gos k).
Qed.

End Conversion.

Lemma entity_recorded_witness :
  exists out' p' e,
    _create_entity_recursive (fun _ => 0) "Game" ∅ Extra.no_rotation 2
      (Extra.plain_object "1" "Floor" None ["100"]) Extra.crate_on_floor
      Output_empty ∅ ∅ (Some "ContainerEntity") Processor_init
      = Some ("Entity_[1000001]", out', p') /\
    Py.od_get "Entity_[1000001]" (entities out') = Some e /\
    ent_name e = "Floor" /\
    Spec.parent_link e = Some (JStr "ContainerEntity").
Proof.
  destruct (_create_entity_recursive (fun _ => 0) "Game" ∅ Extra.no_rotation 2
      (Extra.plain_object "1" "Floor" None ["100"]) Extra.crate_on_floor
      Output_empty ∅ ∅ (Some "ContainerEntity") Processor_init)
    as [[[id out'] p']|] eqn:Hrun; [|vm_compute in Hrun; discriminate].
  destruct (entity_recorded (fun _ => 0) "Game" ∅ Extra.no_rotation 2
              (Extra.plain_object "1" "Floor" None ["100"]) Extra.crate_on_floor
              Output_empty ∅ ∅ "ContainerEntity" Processor_init id out' p'
              eq_refl Hrun)
    as (Hid & e & Hget & _ & Hname & Hlink).
  exists out', p', e.
  assert (Hid' : id = "Entity_[1000001]") by (rewrite Hid; vm_compute; reflexivity).
  rewrite <- Hid'. repeat split; assumption.
Defined.

Lemma entity_recursive_returns_witness :
  exists r,
    _create_entity_recursive (fun _ => 0) "Game" ∅ Extra.no_rotation 2
      (Extra.plain_object "1" "Floor" None ["100"]) Extra.crate_on_floor
      Output_empty ∅ ∅ (Some "ContainerEntity") Processor_init = Some r.
Proof.
  apply (entity_recursive_returns (fun _ => 0) "Game" ∅ Extra.no_rotation 2).
  reflexivity.
Defined.

Lemma self_listing_never_returns_witness :
  _create_entity_recursive (fun _ => 0) "Game" ∅ Extra.no_rotation 50
    (Extra.plain_object "1" "Loop" None ["1"]) Extra.self_listing_table
    Output_empty ∅ ∅ (Some "ContainerEntity") Processor_init = None.
Proof.
  apply (self_listing_never_returns (fun _ => 0) "Game" ∅ Extra.no_rotation 50 _ _ "1");
    [reflexivity|reflexivity|by left].
Defined.

End EntityFacts.

(* ===================================================================== *)
(** * The prefab document *)
(* ===================================================================== *)

Module PrefabDocumentFacts.
Import Integrated.

#[local] Arguments randint : simpl never.
#[local] Arguments pretty : simpl never.

Section Conversion.

Variable oracle : nat -> Z.
Variable project_name : string.
Variable guid_to_path : gmap string Path.t.
Variable _quaternion_to_euler :
  Float.t * Float.t * Float.t * Float.t -> list Float.t.

Lemma container_entity_spec root_go p :
  exists comps p1,
    _create_container_entity oracle root_go p
      = (mkEntity "ContainerEntity" (name root_go) comps, p1) /\
    entity_id_counter p1 = entity_id_counter p /\
    forall order,
      Extra.jpath ["EditorEntitySortComponent"; "Child Entity Order"]
        (JObj (Py.od_alter (jset "Child Entity Order" (JArr order))
                 "EditorEntitySortComponent" comps))
      = Some (JArr order).
Proof.
  unfold _create_container_entity. EntityFacts.run_p.
  do 2 eexists. split; [reflexivity|]. split; reflexivity.
Qed.

Lemma entity_id_of_not_empty n : String.eqb (entity_id_of n) "" = false.
Proof. reflexivity. Qed.

(** The document of a prefab with a plain root.  When the first object of
    the table without a parent is no prefab instance and its hierarchy has
    finite depth, [_create_o3de_prefab] writes a document: the container
    is named after [root_go] and its child order is the one id of the
    root entity; that entity is stored under ["Entities"], carries the
    name of the first parentless object and has the container as parent.
    A warning is logged exactly when the table holds further parentless
    objects, which are not converted into the child order. *)
Theorem prefab_document_root n root_go gos mm msh p root others :
  List.filter is_root (map snd gos) = root :: others ->
  is_prefab_instance root = false ->
  Extra.depth_ok n gos root = true ->
  exists doc log p',
    _create_o3de_prefab oracle project_name guid_to_path _quaternion_to_euler
      n root_go gos mm msh p = Some (Some doc, log, p') /\
    (log = [] <-> others = []) /\
    Extra.jpath ["ContainerEntity"; "Name"] doc = Some (JStr (name root_go)) /\
    Extra.jpath ["ContainerEntity"; "Components"; "EditorEntitySortComponent";
                 "Child Entity Order"] doc
      = Some (JArr [JStr (entity_id_of (entity_id_counter p + 1))]) /\
    exists e,
      Extra.jpath ["Entities"; entity_id_of (entity_id_counter p + 1)] doc
        = Some (entity_to_json e) /\
      ent_name e = name root /\
      Spec.parent_link e = Some (JStr "ContainerEntity").
Proof.
  intros Hroots Hplain Hdepth. unfold _create_o3de_prefab.
  destruct (container_entity_spec root_go p) as (comps & p1 & -> & Hp1 & Hsort).
  rewrite Hroots.
  destruct (EntityFacts.prefab_create_returns oracle project_name guid_to_path
              _quaternion_to_euler n root gos Output_empty mm msh
              (Some "ContainerEntity") p1 Hdepth) as ([[id out] p2] & Hrun).
  rewrite Hrun.
  destruct (EntityFacts.prefab_created_entity oracle project_name guid_to_path
              _quaternion_to_euler n root gos Output_empty mm msh
              "ContainerEntity" p1 id out p2 Hplain Hrun)
    as (Hid & e & Hget & _ & Hname & Hlink).
  rewrite Hp1 in Hid. subst id. rewrite entity_id_of_not_empty.
  do 3 eexists. split; [reflexivity|]. split; [|split; [|split]].
  - destruct others; split; intros; congruence.
  - reflexivity.
  - apply (Hsort [JStr (entity_id_of (entity_id_counter p + 1))]).
  - exists e. split; [|split; assumption].
    unfold prefab_document.
    change (Extra.jpath ["Entities"; ?k] (JObj [?a; ("Entities", ?v); ?b]))
      with (Extra.jpath [k] v).
    cbn [Extra.jpath]. unfold jget. cbn [jfields].
    rewrite HierarchyFacts.od_get_map_values, Hget. reflexivity.
Qed.

End Conversion.

Lemma prefab_document_root_witness :
  exists doc log p',
    _create_o3de_prefab (fun _ => 0) "Game" ∅ Extra.no_rotation 2
      Extra.crate Extra.crate_on_floor ∅ ∅ Processor_init
      = Some (Some doc, log, p') /\
    log <> [] /\
    Extra.jpath ["ContainerEntity"; "Name"] doc = Some (JStr "Crate") /\
    Extra.jpath ["ContainerEntity"; "Components"; "EditorEntitySortComponent";
                 "Child Entity Order"] doc
      = Some (JArr [JStr "Entity_[1000001]"]).
Proof.
  destruct (prefab_document_root (fun _ => 0) "Game" ∅ Extra.no_rotation 2
              Extra.crate Extra.crate_on_floor ∅ ∅ Processor_init
              (Extra.plain_object "1" "Floor" None ["100"]) [Extra.crate]
              eq_refl eq_refl eq_refl)
    as (doc & log & p' & Hrun & Hlog & Hname & Horder & _).
  exists doc, log, p'. split; [exact Hrun|]. split; [|split].
  - intros Hnil. apply Hlog in Hnil. discriminate Hnil.
  - exact Hname.
  - rewrite Horder. vm_compute. reflexivity.
Defined.

End PrefabDocumentFacts.

(* ===================================================================== *)
(** * The level document *)
(* ===================================================================== *)

Module LevelFacts.
Import SceneGui.

#[local] Arguments randint : simpl never.
#[local] Arguments pretty : simpl never.
#[local] Arguments transform_component : simpl never.

Section Level.

Variable oracle : nat -> Z.
Variable _convert_to_assets_path : Path.t -> string.
Variable _quaternion_to_euler :
  Float.t * Float.t * Float.t * Float.t -> list Float.t.

Local Abbreviation create :=
  (_create_entity_recursive oracle _convert_to_assets_path _quaternion_to_euler)
  (only parsing).

Lemma same_tables_refl c : Extra.same_tables c c.
Proof. by split. Qed.

Lemma same_tables_trans c1 c2 c3 :
  Extra.same_tables c1 c2 -> Extra.same_tables c2 c3 -> Extra.same_tables c1 c3.
Proof. intros [? ?] [? ?]. split; congruence. Qed.

Lemma begin_entity_tables go out parent c :
  Extra.same_tables c (snd (begin_entity oracle _quaternion_to_euler go out parent c)).
Proof.
  unfold begin_entity.
  destruct (_convert_to_o3de_coordinates (transform go)) as [t nn].
  destruct nn; SceneEntityFacts.run_g; by split.
Qed.

Lemma finish_entity_tables id e order out c :
  Extra.same_tables c (snd (finish_entity oracle id e order out c)).
Proof.
  unfold finish_entity. destruct order; SceneEntityFacts.run_g; by split.
Qed.

Lemma create_tables fuel : forall go gos out parent c r,
  create fuel go gos out parent c = Some r -> Extra.same_tables c (snd r).
Proof.
  induction fuel as [|fuel IH]; intros go gos out parent c r; [discriminate|].
  rewrite SceneEntityFacts.create_unfold.
  destruct (prefab_references c !! file_id go) as [path|].
  { intros [= <-]. by split. }
  pose proof (begin_entity_tables go out parent c) as Hb.
  destruct (begin_entity oracle _quaternion_to_euler go out parent c)
    as [[[id e] out1] c1]. cbn [snd] in Hb. cbn beta iota zeta.
  match goal with
  | |- context [Extra.scene_children_loop ?rec ?g _ _ _ _] =>
      assert (Hloop : forall ids order o0 c0 r0,
                Extra.scene_children_loop rec g ids order o0 c0 = Some r0 ->
                Extra.same_tables c0 (snd r0))
  end.
  { clear -IH. induction ids as [|i ids IHl]; intros order o0 c0 r0;
      cbn [Extra.scene_children_loop].
    - intros [= <-]. apply same_tables_refl.
    - destruct (Py.od_get i gos) as [child|]; [|apply IHl].
      destruct (create fuel child gos o0 id c0) as [[[cid o] c']|] eqn:Hrun;
        [|discriminate].
      intros Hr. apply IHl in Hr. apply IH in Hrun. cbn [snd] in Hrun.
      by eapply same_tables_trans. }
  match goal with
  | |- context [Extra.scene_children_loop ?rec ?g ?l ?o ?ou ?cc] =>
      destruct (Extra.scene_children_loop rec g l o ou cc)
        as [[[order out2] c2]|] eqn:Hrun; [|discriminate]
  end.
  apply Hloop in Hrun. cbn [snd] in Hrun.
  intros [= <-].
  eapply same_tables_trans; [exact Hb|].
  eapply same_tables_trans; [exact Hrun|]. apply finish_entity_tables.
Qed.

Lemma emit_roots_spec n c0 roots : forall order out c,
  Extra.same_tables c0 c ->
  (forall go, In go roots -> Extra.scene_depth_ok n (game_objects c0) go = true) ->
  exists added out' c',
    emit_roots oracle _convert_to_assets_path _quaternion_to_euler n roots order out c
      = Some (order ++ added, out', c') /\
    Forall2 (Extra.root_entry c0) roots added.
Proof.
  induction roots as [|go roots IH]; intros order out c Hc Hd; cbn [emit_roots].
  - exists [], out, c. rewrite app_nil_r. split; [reflexivity|constructor].
  - destruct Hc as [Hg Hr].
    destruct (prefab_references c !! file_id go) as [path|] eqn:Href.
    + unfold emit_instance, next_instance_id. SceneEntityFacts.run_g.
      match goal with
      | |- context [emit_roots _ _ _ n roots ?o ?ou ?cc] =>
          destruct (IH o ou cc) as (added & out' & c' & -> & Hall)
      end.
      * split; [exact Hg|exact Hr].
      * intros g Hin. apply Hd. by right.
      * do 3 eexists. split; [by rewrite <- app_assoc|].
        constructor; [|exact Hall].
        unfold Extra.root_entry. rewrite <- Hr, Href. by eexists.
    + rewrite Hg.
      destruct (SceneEntityFacts.scene_create_returns oracle
                  _convert_to_assets_path _quaternion_to_euler n go (game_objects c0)
                  out "Entity_[1000000]" c (Hd go (or_introl eq_refl)))
        as ([[id out1] c1] & Hrun).
      rewrite Hrun.
      pose proof (create_tables _ _ _ _ _ _ _ Hrun) as Ht. cbn [snd] in Ht.
      destruct (SceneEntityFacts.scene_created_entity oracle _convert_to_assets_path
                  _quaternion_to_euler n go (game_objects c0) out "Entity_[1000000]"
                  c id out1 c1 Href Hrun) as (Hid & _).
      destruct (IH (order ++ [id]) out1 c1) as (added & out' & c' & -> & Hall).
      * eapply same_tables_trans; [|exact Ht]. by split.
      * intros g Hin. apply Hd. by right.
      * do 3 eexists. split; [by rewrite <- app_assoc|].
        constructor; [|exact Hall].
        unfold Extra.root_entry. rewrite <- Hr, Href. by eexists.
Qed.

Lemma level_container_spec c :
  exists comps c1,
    _create_level_container oracle c = (mkEntity "Entity_[1000000]" "Level" comps, c1) /\
    Extra.same_tables c c1 /\
    Extra.jpath ["EditorEntitySortComponent"; "Child Entity Order"] (JObj comps)
      = Some (JArr []) /\
    forall order,
      Extra.jpath ["EditorEntitySortComponent"; "Child Entity Order"]
        (JObj (Py.od_alter (jset "Child Entity Order" (JArr order))
                 "EditorEntitySortComponent" comps))
      = Some (JArr order).
Proof.
  unfold _create_level_container. SceneEntityFacts.run_g.
  do 2 eexists. split; [reflexivity|]. split; [by split|]. split; reflexivity.
Qed.

(** One entry per root object.  When the hierarchy below every parentless
    object of the scene has finite depth, [create_o3de_level] writes a
    document, and the child order of its container holds one entry per
    parentless object, in table order: an instance reference
    ["Instance_[k]/ContainerEntity"] for an object with a prefab reference
    and an entity id ["Entity_[k]"] for any other. *)
Theorem level_lists_every_root n c :
  (forall go, In go (List.filter is_root (map snd (game_objects c))) ->
     Extra.scene_depth_ok n (game_objects c) go = true) ->
  exists doc c' order,
    create_o3de_level oracle _convert_to_assets_path _quaternion_to_euler n c
      = Some (doc, c') /\
    Extra.jpath ["ContainerEntity"; "Components"; "EditorEntitySortComponent";
                 "Child Entity Order"] doc = Some (JArr (map JStr order)) /\
    Forall2 (Extra.root_entry c) (List.filter is_root (map snd (game_objects c))) order.
Proof.
  intros Hd. unfold create_o3de_level.
  destruct (level_container_spec c) as (comps & c1 & -> & Ht & Hempty & Hsort).
  destruct Ht as [Hg Hr]. rewrite Hg.
  destruct (emit_roots_spec n c (List.filter is_root (map snd (game_objects c)))
              [] Output_empty c1) as (added & out' & c' & -> & Hall);
    [by split|exact Hd|].
  cbn [app]. exists (level_document
    match added with
    | [] => mkEntity "Entity_[1000000]" "Level" comps
    | _ :: _ =>
        mkEntity "Entity_[1000000]" "Level"
          (Py.od_alter (jset "Child Entity Order" (JArr (map JStr added)))
             "EditorEntitySortComponent" comps)
    end out'), c', added.
  split; [by destruct added|]. split; [|exact Hall].
  destruct added as [|a added]; [exact Hempty|].
  apply (Hsort (map JStr (a :: added))).
Qed.

End Level.

Lemma level_lists_every_root_witness :
  exists doc c',
    create_o3de_level (fun _ => 0) (fun p => p) Extra.no_rotation 2 Extra.small_level
      = Some (doc, c') /\
    Extra.jpath ["ContainerEntity"; "Components"; "EditorEntitySortComponent";
                 "Child Entity Order"] doc
      = Some (JArr [JStr "Instance_[1000000]/ContainerEntity"; JStr "Entity_[1000001]"]).
Proof.
  destruct (level_lists_every_root (fun _ => 0) (fun p => p) Extra.no_rotation 2
              Extra.small_level) as (doc & c' & order & Hrun & Horder & _).
  - intros go Hin. vm_compute in Hin.
    destruct Hin as [<-|[<-|[]]]; reflexivity.
  - exists doc, c'. split; [exact Hrun|].
    clear Horder. vm_compute in Hrun. injection Hrun as <- _. vm_compute. reflexivity.
Defined.

End LevelFacts.

(* ===================================================================== *)
(** * The rigid-body configuration *)
(* ===================================================================== *)

Module RigidbodyFacts.
Import Integrated.

#[local] Arguments randint : simpl never.
#[local] Arguments pretty : simpl never.
#[local] Arguments colliders_loop : simpl never.
#[local] Arguments rigidbody_config : simpl never.

(** C5.  For a GameObject with a rigidbody, the [Configuration] that
    [_create_physx_components] stores in the entity's
    [EditorRigidBodyComponent] holds the four base settings, [Kinematic]
    when set, and then one lock flag per set bit of the constraint mask and
    no other: [Lock Linear X] for bit value 2, [Lock Linear Z] for 4,
    [Lock Linear Y] for 8, [Lock Angular X] for 16, [Lock Angular Z] for 32
    and [Lock Angular Y] for 64, so Y and Z are swapped for the linear and
    for the angular locks while X is kept.  With the mask [4] ("lock Y
    translation") the only lock flag is [Lock Linear Z]. *)
Theorem C5_constraint_bits_swap_y_z oracle go entity mesh_mapping entities_dict p :
  has_rigidbody go = true ->
  exists ids primary ed' p',
    _create_physx_components oracle go entity mesh_mapping entities_dict p
      = (ids, primary, ed', p') /\
    let rb := default rb_defaults (rigidbody_data go) in
    let c := rb_constraints rb in
    let base :=
      [("Mass", JNum (rb_mass rb));
       ("Linear damping", JNum (rb_drag rb));
       ("Angular damping", JNum (rb_angular_drag rb));
       ("Gravity Enabled", JBool (rb_use_gravity rb))] ++
      (if rb_is_kinematic rb then [("Kinematic", JBool true)] else []) in
    Extra.jpath ["EditorRigidBodyComponent"; "Configuration"]
      (JObj (ent_components primary))
    = Some (JObj
        (base ++
         (if Z.testbit c 1 then [("Lock Linear X", JBool true)] else []) ++
         (if Z.testbit c 2 then [("Lock Linear Z", JBool true)] else []) ++
         (if Z.testbit c 3 then [("Lock Linear Y", JBool true)] else []) ++
         (if Z.testbit c 4 then [("Lock Angular X", JBool true)] else []) ++
         (if Z.testbit c 5 then [("Lock Angular Z", JBool true)] else []) ++
         (if Z.testbit c 6 then [("Lock Angular Y", JBool true)] else []))) /\
    (c = 4 ->
     Extra.jpath ["EditorRigidBodyComponent"; "Configuration"]
       (JObj (ent_components primary))
     = Some (JObj (base ++ [("Lock Linear Z", JBool true)]))).
Proof.
  intros Hrb.
  assert (Hcfg : forall comps id,
    Extra.jpath ["EditorRigidBodyComponent"; "Configuration"]
      (JObj (Py.od_set "EditorRigidBodyComponent"
               (JObj [("$type", JStr "EditorRigidBodyComponent"); ("Id", JInt id);
                      ("Configuration", JObj (rigidbody_config go))]) comps))
    = Some (JObj (rigidbody_config go))).
  { intros comps id. cbn [Extra.jpath]. unfold jget at 1. cbn [jfields].
    rewrite od_get_set_eq. reflexivity. }
  assert (Hrun : exists ids comps id ed' p',
    _create_physx_components oracle go entity mesh_mapping entities_dict p
    = (ids, mkEntity (ent_id entity) (ent_name entity)
              (Py.od_set "EditorRigidBodyComponent"
                 (JObj [("$type", JStr "EditorRigidBodyComponent"); ("Id", JInt id);
                        ("Configuration", JObj (rigidbody_config go))]) comps),
       ed', p')).
  { unfold _create_physx_components. rewrite Hrb.
    destruct (colliders go) as [|c0 cs] eqn:Hcs; rewrite <- Hcs;
      unfold mbind at 1, M_bind at 1;
      destruct (colliders_loop oracle go (ent_id entity) mesh_mapping 0 (colliders go)
                  (ent_components entity) entities_dict [] p)
        as [[[comps ed1] ids] p1];
      PhysxFacts.run_m; by do 5 eexists. }
  destruct Hrun as (ids & comps & id & ed' & p' & ->).
  do 4 eexists. split; [reflexivity|]. cbn zeta. cbn [ent_components].
  rewrite Hcfg. unfold rigidbody_config.
  rewrite ConstraintFacts.lock_flags_bits, app_assoc.
  split; [reflexivity|]. intros ->. reflexivity.
Qed.

Lemma C5_constraint_bits_swap_y_z_witness :
  rb_constraints (default rb_defaults (rigidbody_data Extra.crate)) = 4 /\
  exists ids primary ed' p',
    _create_physx_components (fun _ => 0) Extra.crate Extra.crate_entity ∅ []
      Extra.after_first_id = (ids, primary, ed', p') /\
    Extra.jpath ["EditorRigidBodyComponent"; "Configuration"]
      (JObj (ent_components primary))
    = Some (JObj [("Mass", JNum one); ("Linear damping", JNum zero);
                  ("Angular damping", JNum (Float.literal 1 20));
                  ("Gravity Enabled", JBool true);
                  ("Lock Linear Z", JBool true)]).
Proof.
  split; [reflexivity|].
  destruct (C5_constraint_bits_swap_y_z (fun _ => 0) Extra.crate Extra.crate_entity
              ∅ [] Extra.after_first_id eq_refl)
    as (ids & primary & ed' & p' & Hrun & _ & Hfour).
  exists ids, primary, ed', p'. split; [exact Hrun|].
  exact (Hfour eq_refl).
Defined.

End RigidbodyFacts.

(* ===================================================================== *)
(** * Non-uniform scale *)
(* ===================================================================== *)

Module ScaleFacts.
Import Integrated.

#[local] Arguments randint : simpl never.
#[local] Arguments pretty : simpl never.
#[local] Arguments transform_component : simpl never.
#[local] Arguments _create_physx_components : simpl never.
#[local] Arguments materials_config : simpl never.
#[local] Arguments jvec3 : simpl never.

(** A comparison with NaN is false, and the difference with an infinity
    is an infinity or NaN. *)
Lemma not_finite_outside_tolerance a b :
  Spec.not_finite a = true \/ Spec.not_finite b = true ->
  Spec.within_tolerance a b = false.
Proof.
  intros [H|H];
    destruct a as [sa|sa| |sa ma ea], b as [sb|sb| |sb mb eb];
    try discriminate H; try destruct sa; try destruct sb; reflexivity.
Qed.

Lemma flag_of_scale t sx sy sz :
  scale t = (sx, sy, sz) ->
  snd (_convert_to_o3de_coordinates t)
  = negb (Spec.within_tolerance sx sz) || negb (Spec.within_tolerance sz sy).
Proof.
  destruct t as [[[px py] pz] [[[qx qy] qz] qw] s]. cbn [scale]. intros ->.
  unfold _convert_to_o3de_coordinates, is_uniform_scale.
  cbn [position rotation scale snd]. apply negb_andb.
Qed.

Lemma transform_component_scale euler id par t nn :
  Extra.jpath ["Transform Data"; "Scale"] (transform_component euler id par t nn)
  = if negb nn && above_tolerance (Float.sub (fst (fst (scale t))) one)
    then Some (JNum (fst (fst (scale t)))) else None.
Proof.
  unfold transform_component.
  destruct (position t) as [[x y] z], (scale t) as [[s0 s1] s2]. cbn [fst].
  destruct (any_above_tolerance [x; y; z]), (any_above_tolerance euler), nn,
    (above_tolerance (Float.sub s0 one)); reflexivity.
Qed.

Section Conversion.

Variable oracle : nat -> Z.
Variable project_name : string.
Variable guid_to_path : gmap string Path.t.
Variable _quaternion_to_euler :
  Float.t * Float.t * Float.t * Float.t -> list Float.t.

Local Abbreviation create :=
  (_create_entity_recursive oracle project_name guid_to_path _quaternion_to_euler)
  (only parsing).
Local Abbreviation begin := (begin_entity oracle _quaternion_to_euler) (only parsing).

Lemma collider_key_other c :
  Spec.collider_key c <> "TransformComponent" /\
  Spec.collider_key c <> "EditorNonUniformScaleComponent".
Proof. unfold Spec.collider_key. by destruct (col_shape c). Qed.

(** [_create_physx_components] leaves the transform and the per-axis
    scale components alone. *)
Lemma physx_keeps_scale go entity msh ed p :
  exists ids comps ed' p',
    _create_physx_components oracle go entity msh ed p
      = (ids, mkEntity (ent_id entity) (ent_name entity) comps, ed', p') /\
    Py.od_get "TransformComponent" comps
      = Py.od_get "TransformComponent" (ent_components entity) /\
    Py.od_get "EditorNonUniformScaleComponent" comps
      = Py.od_get "EditorNonUniformScaleComponent" (ent_components entity).
Proof.
  destruct (colliders go) as [|c0 cs] eqn:Hcs.
  - unfold _create_physx_components. rewrite Hcs.
    destruct (has_rigidbody go); PhysxFacts.run_m.
    + do 4 eexists. split; [reflexivity|]. by rewrite !od_get_set_ne.
    + destruct entity. do 4 eexists. split; [reflexivity|]. by split.
  - destruct (PhysxFacts.physx_with_colliders oracle go entity msh ed p c0 cs Hcs)
      as (comps1 & comps2 & ed' & p1 & p' & Hadd & -> & (body & ->) & _).
    do 4 eexists. split; [reflexivity|].
    destruct (PhysxFacts.add_collider_spec oracle (ent_components entity) c0 msh go p)
      as (t1 & body1 & p2 & Hadd' & _ & Ht1).
    rewrite Hadd in Hadd'. injection Hadd' as -> _.
    destruct (collider_key_other c0) as [Hk1 Hk2].
    assert (Hrb : (if has_rigidbody go then "EditorRigidBodyComponent"
                   else "EditorStaticRigidBodyComponent") <> "TransformComponent" /\
                  (if has_rigidbody go then "EditorRigidBodyComponent"
                   else "EditorStaticRigidBodyComponent")
                    <> "EditorNonUniformScaleComponent")
      by (by destruct (has_rigidbody go)).
    destruct Hrb as [Hr1 Hr2].
    rewrite !(od_get_set_ne _ _ _ _ (not_eq_sym Hr1)),
            !(od_get_set_ne _ _ _ _ (not_eq_sym Hr2)),
            !(od_get_set_ne _ _ _ _ (not_eq_sym Hk1)),
            !(od_get_set_ne _ _ _ _ (not_eq_sym Hk2)).
    destruct Ht1 as [->|(k & b & _ & _ & Hkt & Hkn & ->)]; [by split|].
    by rewrite !od_get_set_ne.
Qed.

Lemma begin_entity_scale go out mm msh parent p :
  exists id e ids out1 p1 i i7 par,
    begin go out mm msh parent p = (id, e, ids, out1, p1) /\
    Py.od_get "EditorNonUniformScaleComponent" (ent_components e)
      = (if snd (_convert_to_o3de_coordinates (transform go))
         then Some (JObj [("$type", JStr "EditorNonUniformScaleComponent");
                          ("Id", JInt i);
                          ("Scale",
                           jvec3 (scale (fst (_convert_to_o3de_coordinates
                                                (transform go)))))])
         else None) /\
    Py.od_get "TransformComponent" (ent_components e)
      = Some (transform_component
                (_quaternion_to_euler
                   (rotation (fst (_convert_to_o3de_coordinates (transform go)))))
                i7 par (fst (_convert_to_o3de_coordinates (transform go)))
                (snd (_convert_to_o3de_coordinates (transform go)))).
Proof.
  unfold begin_entity.
  destruct (_convert_to_o3de_coordinates (transform go)) as [t nn]. cbn [fst snd].
  destruct (if Py.truthy (mesh_guid go) then msh !! default "" (mesh_guid go) else None)
    as [mesh_path|]; [destruct (String.eqb mesh_path "")|];
    (destruct (materials_config mm 0 (material_guids go) []) as [|m0 ml];
     destruct nn; PhysxFacts.run_m;
     match goal with
     | |- context [_create_physx_components oracle go ?e msh ?ed ?pp] =>
         destruct (physx_keeps_scale go e msh ed pp)
           as (ids & comps & ed' & p' & -> & Htc & Hnu)
     end;
     cbn [ent_id ent_name ent_components] in *;
     do 5 eexists; first [(eexists; [exact 0|]) | eexists]; do 2 eexists;
     (split; [reflexivity|]);
     cbn [ent_components]; rewrite Htc, Hnu; split; reflexivity).
Qed.

Lemma finish_entity_keeps id e order out p :
  exists e' out' p',
    finish_entity oracle id e order out p = (id, out', p') /\
    Py.od_get id (entities out') = Some e' /\
    forall k, k <> "EditorEntitySortComponent" ->
      Py.od_get k (ent_components e') = Py.od_get k (ent_components e).
Proof.
  unfold finish_entity.
  destruct order as [|o order]; PhysxFacts.run_m;
    do 3 eexists; (split; [reflexivity|]); cbn [entities];
    rewrite od_get_set_eq; (split; [reflexivity|]); intros k Hk;
    cbn [ent_components]; [reflexivity|].
  by rewrite od_get_set_ne.
Qed.

(** C4, amended.  The non-uniform flag is the negation of two binary64
    tests [abs(a - b) < 0.0001] on the adjacent pairs of the remapped
    scale [(sx, sz, sy)]; the outer pair [sx]/[sy] is not compared.  A
    component that is NaN or infinite sets the flag.  The entity created
    for a GameObject that is no prefab instance, on a hierarchy of finite
    depth, carries [EditorNonUniformScaleComponent] exactly when the flag
    is set, then with the remapped per-axis scale, and the uniform
    [Scale] of its transform data is written only when the flag is not
    set and [abs(sx - 1.0) > 0.0001]. *)
Theorem C4_nonuniform_flag_and_emission n go gos out mm msh parent p sx sy sz :
  scale (transform go) = (sx, sy, sz) ->
  is_prefab_instance go = false ->
  Extra.depth_ok n gos go = true ->
  let flagged :=
    negb (Spec.within_tolerance sx sz) || negb (Spec.within_tolerance sz sy) in
  snd (_convert_to_o3de_coordinates (transform go)) = flagged /\
  (Spec.not_finite sx || Spec.not_finite sy || Spec.not_finite sz = true ->
   flagged = true) /\
  exists id out' p' e,
    create n go gos out mm msh parent p = Some (id, out', p') /\
    Py.od_get id (entities out') = Some e /\
    Py.od_mem "EditorNonUniformScaleComponent" (ent_components e) = flagged /\
    (flagged = true ->
     Extra.jpath ["EditorNonUniformScaleComponent"; "Scale"]
       (JObj (ent_components e)) = Some (jvec3 (sx, sz, sy))) /\
    Extra.jpath ["TransformComponent"; "Transform Data"; "Scale"]
      (JObj (ent_components e))
    = (if negb flagged && above_tolerance (Float.sub sx one)
       then Some (JNum sx) else None).
Proof.
  intros Hscale Hplain Hdepth flagged.
  pose proof (flag_of_scale (transform go) sx sy sz Hscale) as Hflag.
  fold flagged in Hflag.
  assert (Hconv : scale (fst (_convert_to_o3de_coordinates (transform go)))
                  = (sx, sz, sy)).
  { destruct (transform go) as [[[px py] pz] [[[qx qy] qz] qw] s].
    cbn [scale] in Hscale. subst s. reflexivity. }
  split; [exact Hflag|]. split.
  { intros Hnf. subst flagged.
    apply orb_true_iff in Hnf as [Hnf|Hz].
    - apply orb_true_iff in Hnf as [Hx|Hy].
      + rewrite (not_finite_outside_tolerance sx sz) by auto. reflexivity.
      + rewrite (not_finite_outside_tolerance sz sy) by auto. apply orb_true_r.
    - rewrite (not_finite_outside_tolerance sx sz) by auto. reflexivity. }
  destruct (EntityFacts.prefab_create_returns oracle project_name guid_to_path
              _quaternion_to_euler n go gos out mm msh parent p Hdepth)
    as ([[id out'] p'] & Hrun).
  exists id, out', p'. pose proof Hrun as Hrun0.
  destruct n as [|n]; [discriminate|].
  rewrite EntityFacts.prefab_create_unfold, EntityFacts.try_instance_plain in Hrun
    by done.
  destruct (begin_entity_scale go out mm msh parent p)
    as (id0 & e & ids & out1 & p1 & i & i7 & par & Hbegin & Hnu & Htc).
  rewrite Hbegin in Hrun. cbn beta iota zeta in Hrun.
  destruct (Extra.children_loop _ _ _ _ _ _) as [[[order out2] p2]|];
    [|discriminate].
  destruct (finish_entity_keeps id0 e (order ++ ids) out2 p2)
    as (e' & out3 & p3 & Hfin & Hget & Hkeep).
  rewrite Hfin in Hrun. injection Hrun as <- <- <-.
  exists e'. split; [exact Hrun0|]. split; [exact Hget|].
  rewrite Hflag, Hconv in Hnu. rewrite Hflag in Htc.
  assert (Hnu' := Hkeep "EditorNonUniformScaleComponent" ltac:(discriminate)).
  assert (Htc' := Hkeep "TransformComponent" ltac:(discriminate)).
  rewrite Hnu in Hnu'. rewrite Htc in Htc'.
  split; [|split].
  - unfold Py.od_mem. rewrite Hnu'. by destruct flagged.
  - intros Hf. cbn [Extra.jpath]. unfold jget at 1. cbn [jfields].
    rewrite Hnu', Hf. reflexivity.
  - change (Extra.jpath ["TransformComponent"; "Transform Data"; "Scale"]
              (JObj (ent_components e')))
      with (match Py.od_get "TransformComponent" (ent_components e') with
            | Some v => Extra.jpath ["Transform Data"; "Scale"] v
            | None => None
            end).
    rewrite Htc', transform_component_scale, Hconv. reflexivity.
Qed.

End Conversion.

Lemma C4_nonuniform_flag_and_emission_witness :
  snd (_convert_to_o3de_coordinates Samples.rounded_scale) = true /\
  exists id out' p' e,
    _create_entity_recursive (fun _ => 0) "Game" ∅ Extra.no_rotation 1
      Extra.pebble [("7", Extra.pebble)] Output_empty ∅ ∅
      (Some "ContainerEntity") Processor_init = Some (id, out', p') /\
    Py.od_get id (entities out') = Some e /\
    Py.od_mem "EditorNonUniformScaleComponent" (ent_components e) = true.
Proof.
  destruct (C4_nonuniform_flag_and_emission (fun _ => 0) "Game" ∅ Extra.no_rotation 1
              Extra.pebble [("7", Extra.pebble)] Output_empty ∅ ∅
              (Some "ContainerEntity") Processor_init
              tolerance (Float.of_scaled 3 (-69)) (Float.of_scaled 3 (-69))
              eq_refl eq_refl eq_refl)
    as (Hflag & _ & id & out' & p' & e & Hrun & Hget & Hmem & _).
  split; [exact Hflag|].
  exists id, out', p', e. split; [exact Hrun|]. split; [exact Hget|]. exact Hmem.
Defined.

End ScaleFacts.
